(** * para_mlp.train: grid search, cross validation and final training

    A shallow embedding of [src/para_mlp/train.py].

    - Python floats and NumPy [float64] entries are Rocq's primitive binary64
      floats; [<], [==], [*], [/] are the IEEE operations of [PrimFloat].
    - Python integers are [Z]; lengths are [nat].
    - A one-dimensional [ndarray] of floats is a [list float]; integer index
      arrays are [list Z] (NumPy wraps negative indices and raises
      [IndexError] out of range).
    - Exceptions are the [Raise] branch of the [result] monad.
    - Library calls behave as in NumPy on [int64] and [float64] arrays,
      scikit-learn's [ParameterGrid] and [KFold], and the [statistics] module
      of Python 3.11.
    - The model class [RILRM], [ModelParams] and the helpers of
      [para_mlp.utils] are not part of [train.py]; their operations are the
      fields of the class [Collaborators]. *)

From Stdlib Require Import ZArith Floats.
From stdpp Require Import base option list strings gmap.

Open Scope Z_scope.

(** ** Exceptions and the error monad *)

Inductive exn : Type :=
  | ValueError
  | OverflowError
  | ZeroDivisionError
  | IndexError
  | AttributeError
  | UnboundLocalError
  | StatisticsError
  | ModelError (code : Z).

Inductive result (A : Type) : Type :=
  | Ok (a : A)
  | Raise (e : exn).
Arguments Ok {A} a.
Arguments Raise {A} e.

#[global] Instance result_ret : MRet result := fun A a => Ok a.
#[global] Instance result_bind : MBind result := fun A B f m =>
  match m with
  | Ok a => f a
  | Raise e => Raise e
  end.

(** Monadic map over a list, left to right, stopping at the first exception. *)
Fixpoint mapR {A B} (f : A -> result B) (l : list A) : result (list B) :=
  match l with
  | [] => Ok []
  | a :: l' => b ← f a; bs ← mapR f l'; Ok (b :: bs)
  end.

(** Monadic left fold: a [for] loop whose body may raise. *)
Fixpoint foldR {S A} (body : S -> A -> result S) (l : list A) (s : S) : result S :=
  match l with
  | [] => Ok s
  | a :: l' => s' ← body s a; foldR body l' s'
  end.

(** ** Floats *)

Definition float_ne (a b : float) : bool := negb (PrimFloat.eqb a b).

(** [float(z)] for a non-negative machine-sized integer. *)
Definition Z2float (z : Z) : float := PrimFloat.of_uint63 (Uint63.of_Z z).

(** Python's [int(x)]: truncation toward zero; [nan] and the infinities raise. *)
Definition py_int (x : float) : result Z :=
  match Prim2SF x with
  | S754_zero _ => Ok 0
  | S754_infinity _ => Raise OverflowError
  | S754_nan => Raise ValueError
  | S754_finite s m e =>
      let a := Z.shiftl (Z.pos m) e in
      Ok (if s then - a else a)
  end.

(** The order of the floats that are numbers, as a lexicographic key. *)
Definition float_key (f : spec_float) : option (Z * Z * Z) :=
  match f with
  | S754_nan => None
  | S754_zero _ => Some (0, 0, 0)
  | S754_infinity s => Some (if s then -2 else 2, 0, 0)
  | S754_finite s m e => Some (if s then (-1, - e, - Z.pos m) else (1, e, Z.pos m))
  end.

Definition key_compare (a b : Z * Z * Z) : comparison :=
  match a.1.1 ?= b.1.1 with
  | Eq => match a.1.2 ?= b.1.2 with
          | Eq => a.2 ?= b.2
          | c => c
          end
  | c => c
  end.

(** ** NumPy *)

(** [np.linspace(start, stop, num)] with the default [endpoint=True], as far
    as NumPy builds the array: a count too large to allocate makes NumPy raise,
    which is not modelled, so a result here speaks for the code only where the
    code returns one. Below 2^53 the positions [0 .. num - 1] are exact. *)
Definition linspace (start stop : float) (num : Z) : result (list float) :=
  if num <? 0 then Raise ValueError
  else
    let div := num - 1 in
    let delta := (stop - start)%float in
    let y := Z2float <$> seqZ 0 num in
    let y :=
      if 0 <? div then
        let step := (delta / Z2float div)%float in
        if PrimFloat.eqb step 0
        then (fun v => (v / Z2float div * delta)%float) <$> y
        else (fun v => (v * step)%float) <$> y
      else (fun v => (v * delta)%float) <$> y in
    let y := (fun v => (v + start)%float) <$> y in
    Ok (if 1 <? num then <[Z.to_nat (num - 1) := stop]> y else y).

(** [np.arange(start, stop, step)] over integers, for a positive [step]:
    [ceil((stop - start) / step)] values, none when that is not positive.
    These are NumPy's values when both bounds fit in 64 bits ([int64]) and the
    array can be allocated; outside of that NumPy changes the element type or
    raises, which is not modelled. *)
Definition arange (start stop step : Z) : list Z :=
  (fun i => start + step * i) <$> seqZ 0 (- ((start - stop) `div` step)).

(** The range of NumPy's [int64]. *)
Definition int64 (z : Z) : Prop := - 2 ^ 63 <= z < 2 ^ 63.

(** [a[ids]] for an integer index array. *)
Definition norm_index (len : nat) (i : Z) : result nat :=
  if (0 <=? i) && (i <? Z.of_nat len) then Ok (Z.to_nat i)
  else if (- Z.of_nat len <=? i) && (i <? 0) then Ok (Z.to_nat (i + Z.of_nat len))
  else Raise IndexError.

Definition getitem (a : list float) (ids : list Z) : result (list float) :=
  mapR (fun i => n ← norm_index (length a) i;
                 match a !! n with Some v => Ok v | None => Raise IndexError end) ids.

(** [a[ids] *= w]: the selected entries are read, multiplied and written back. *)
Definition scale_rows (a : list float) (ids : list Z) (w : float) : result (list float) :=
  ns ← mapR (norm_index (length a)) ids;
  Ok (fold_left (fun acc n =>
                   match a !! n with
                   | Some v => <[n := (v * w)%float]> acc
                   | None => acc
                   end) ns a).

(** [a[:n] *= w] and [a[n:] *= w] for [n = len(...)]. *)
Definition scale_head (n : nat) (w : float) (a : list float) : list float :=
  ((fun v => (v * w)%float) <$> take n a) ++ drop n a.
Definition scale_tail (n : nat) (w : float) (a : list float) : list float :=
  take n a ++ ((fun v => (v * w)%float) <$> drop n a).

(** ** The store: object identity and [copy.deepcopy]

    Lines 218-223 of [cross_validate] copy the candidate and its
    hyperparameters. What "independent copy" means needs object identity, so
    these lines are also read over an explicit store. Objects reachable from
    a model are taken to form a tree (a model owns its matrices), which is why
    [deepcopy] needs no memo table here. *)
Module Snapshot.

(** Python values: immediates, or a reference to a mutable object. *)
Inductive value : Type :=
  | VNone
  | VBool (b : bool)
  | VInt (z : Z)
  | VFloat (f : float)
  | VStr (s : string)
  | VRef (l : positive).

(** Mutable objects: a float buffer ([ndarray]) or a mapping from names to
    values (the [__dict__] of an instance, or a [dict] with string keys),
    in insertion order. *)
Inductive object : Type :=
  | OArray (data : list float)
  | OAttrs (attrs : list (string * value)).

Abbreviation heap := (gmap positive object).

(** A location not yet in use. *)
Definition new_loc (h : heap) : positive := fresh (dom h).

Fixpoint copy_attrs (copy : value -> heap -> option (value * heap))
    (kvs : list (string * value)) (h : heap)
  : option (list (string * value) * heap) :=
  match kvs with
  | [] => Some ([], h)
  | (k, v) :: kvs' =>
      match copy v h with
      | Some (v', h1) =>
          match copy_attrs copy kvs' h1 with
          | Some (kvs'', h2) => Some ((k, v') :: kvs'', h2)
          | None => None
          end
      | None => None
      end
  end.

(** [copy.deepcopy]: every object reachable from the value is rebuilt at a
    fresh location. [fuel] bounds the nesting depth. *)
Fixpoint deepcopy (fuel : nat) (v : value) (h : heap) : option (value * heap) :=
  match v with
  | VRef l =>
      match fuel with
      | O => None
      | S fuel' =>
          match h !! l with
          | Some (OArray data) =>
              Some (VRef (new_loc h), <[new_loc h := OArray data]> h)
          | Some (OAttrs kvs) =>
              match copy_attrs (deepcopy fuel') kvs h with
              | Some (kvs', h1) =>
                  Some (VRef (new_loc h1), <[new_loc h1 := OAttrs kvs']> h1)
              | None => None
              end
          | None => None
          end
      end
  | _ => Some (v, h)
  end.

Fixpoint assoc_get (k : string) (kvs : list (string * value)) : option value :=
  match kvs with
  | [] => None
  | (k', v) :: kvs' => if String.eqb k k' then Some v else assoc_get k kvs'
  end.

Fixpoint assoc_set (k : string) (v : value) (kvs : list (string * value))
  : list (string * value) :=
  match kvs with
  | [] => [(k, v)]
  | (k', v') :: kvs' =>
      if String.eqb k k' then (k', v) :: kvs' else (k', v') :: assoc_set k v kvs'
  end.

(** [obj.name] and [obj.name = v]. *)
Definition getattr (h : heap) (l : positive) (name : string) : option value :=
  match h !! l with
  | Some (OAttrs kvs) => assoc_get name kvs
  | _ => None
  end.

Definition setattr (h : heap) (l : positive) (name : string) (v : value) : option heap :=
  match h !! l with
  | Some (OAttrs kvs) => Some (<[l := OAttrs (assoc_set name v kvs)]> h)
  | _ => None
  end.

(** The local variables of the search loop that lines 218-223 touch. *)
Record Locals : Type := {
  test_model : positive;
  hyper_params : positive;
  test_model_rmse : float;
  retained_model_rmse : float;
  retained_model : option positive;
  retained_model_params : option positive
}.

(** Lines 218-223 on the store. *)
Definition retain (fuel : nat) (env : Locals) (h : heap) : option (Locals * heap) :=
  if (test_model_rmse env <? retained_model_rmse env)%float then
    match deepcopy fuel (VRef (test_model env)) h with
    | Some (VRef m, h1) =>
        match deepcopy fuel (VRef (hyper_params env)) h1 with
        | Some (VRef p, h2) =>
            match setattr h2 m "x" VNone with
            | Some h3 =>
                Some ({| test_model := test_model env;
                         hyper_params := hyper_params env;
                         test_model_rmse := test_model_rmse env;
                         retained_model_rmse := test_model_rmse env;
                         retained_model := Some m;
                         retained_model_params := Some p |}, h3)
            | None => None
            end
        | _ => None
        end
    | _ => None
    end
  else Some (env, h).

#[local] Set Warnings "-register-all".

(** What can be read through a value, down to a depth. *)
Inductive tree : Type :=
  | TLeaf (v : value)
  | TArray (data : list float)
  | TAttrs (kvs : list (string * tree))
  | TCut
  | TDangling.

Fixpoint observe (depth : nat) (h : heap) (v : value) : tree :=
  match v with
  | VRef l =>
      match depth with
      | O => TCut
      | S depth' =>
          match h !! l with
          | Some (OArray data) => TArray data
          | Some (OAttrs kvs) => TAttrs (prod_map id (observe depth' h) <$> kvs)
          | None => TDangling
          end
      end
  | _ => TLeaf v
  end.

(** A tree read in full: nothing cut off, nothing dangling. *)
Fixpoint complete (t : tree) : bool :=
  match t with
  | TLeaf _ | TArray _ => true
  | TAttrs kvs => forallb (fun kt => complete kt.2) kvs
  | TCut | TDangling => false
  end.

(** The locations a value gives access to. *)
Inductive reach (h : heap) : value -> positive -> Prop :=
  | reach_here l o : h !! l = Some o -> reach h (VRef l) l
  | reach_attr l kvs k v l' :
      h !! l = Some (OAttrs kvs) -> (k, v) ∈ kvs -> reach h v l' ->
      reach h (VRef l) l'.

Definition value_ok (h : heap) (v : value) : Prop :=
  match v with
  | VRef l => is_Some (h !! l)
  | _ => True
  end.

(** No dangling references. *)
Definition closed (h : heap) : Prop :=
  forall l kvs k v, h !! l = Some (OAttrs kvs) -> (k, v) ∈ kvs -> value_ok h v.

Definition object_ok (h : heap) (o : object) : Prop :=
  match o with
  | OAttrs kvs => Forall (fun kv => value_ok h kv.2) kvs
  | OArray _ => True
  end.

#[global] Instance value_ok_dec h v : Decision (value_ok h v).
Proof. destruct v; simpl; apply _. Defined.

#[global] Instance object_ok_dec h o : Decision (object_ok h o).
Proof. destruct o; simpl; apply _. Defined.

(** [closed], as a check that runs. *)
Definition closedb (h : heap) : bool :=
  bool_decide (map_Forall (fun _ o => object_ok h o) h).

(** Where a copy of [v], made in [h], may lead: never back to its own root. *)
Definition root_apart (h : heap) (v : value) : Prop :=
  forall l kvs k w l0,
    v = VRef l -> h !! l = Some (OAttrs kvs) -> (k, w) ∈ kvs -> reach h w l0 -> l0 <> l.

(** What a copy of [v] made in [h] guarantees about the result [v'] in [h']. *)
Definition good_copy (h : heap) (v : value) (h' : heap) (v' : value) : Prop :=
  h ⊆ h' /\ closed h' /\ value_ok h' v' /\
  (forall l, reach h' v' l -> l ∉ dom h) /\
  (forall depth, observe depth h' v' = observe depth h v) /\
  root_apart h' v'.

Definition good_attrs (h : heap) (kvs : list (string * value)) (h' : heap)
    (kvs' : list (string * value)) : Prop :=
  h ⊆ h' /\ closed h' /\
  Forall2 (fun kv kv' =>
             kv.1 = kv'.1 /\ value_ok h' kv'.2 /\
             (forall l, reach h' kv'.2 l -> l ∉ dom h) /\
             (forall depth, observe depth h' kv'.2 = observe depth h kv.2))
          kvs kvs'.

(** A candidate model with its parameters, feature matrix and coefficients,
    and the dictionary of its hyperparameters. *)
Definition example_heap : heap :=
  list_to_map
    [ (1%positive, OAttrs [("model_params", VRef 2); ("x", VRef 3); ("coef", VRef 4);
                            ("fitted", VBool true)]%string);
      (2%positive, OAttrs [("alpha", VFloat 4); ("cutoff_radius", VFloat 6);
                            ("gaussian_params2_num", VInt 5)]%string);
      (3%positive, OArray [1; 1]%float);
      (4%positive, OArray [4]%float);
      (5%positive, OAttrs [("alpha", VFloat 4); ("cutoff_radius", VFloat 6);
                            ("gaussian_params2_num", VInt 5)]%string) ].

Definition example_locals : Locals :=
  {| test_model := 1; hyper_params := 5; test_model_rmse := 4;
     retained_model_rmse := 1e10; retained_model := None;
     retained_model_params := None |}.

End Snapshot.

(** A float that is neither a NaN nor an infinity. *)
Definition is_finite (f : float) : bool :=
  match Prim2SF f with
  | S754_zero _ | S754_finite _ _ _ => true
  | S754_infinity _ | S754_nan => false
  end.

(** [statistics.stdev], as of Python 3.11: [StatisticsError] on fewer than two
    data points; with a NaN or an infinity among the data the sum of squares
    is a float, not a fraction, and reading its numerator raises
    [AttributeError]; [stdev_value] is the value it computes otherwise. *)
Definition stdev (stdev_value : list float -> float) (data : list float) : result float :=
  if (length data <? 2)%nat then Raise StatisticsError
  else if forallb is_finite data then Ok (stdev_value data)
  else Raise AttributeError.

(** ** Data model *)

(** Modelled from the spec: the class [Config] of [para_mlp.config] is not in
    [train.py]; these are the fields [train.py] reads, typed as the spec's
    list of consumed configuration fields types them. *)
Record Config : Type := {
  cutoff_radius_min : float;
  cutoff_radius_max : float;
  gaussian_params2_num_min : Z;
  gaussian_params2_num_max : Z;
  alpha : list float;
  n_splits : Z;
  energy_weight : float;
  force_weight : float;
  high_energy_weights : list float;
  use_force : bool;
  model_dir : string;
  composite_num : Z;
  feature_type : string;
  gtinv_lmax : list Z;
  use_gtinv_sym : list bool;
  use_spin : bool;
  gaussian_params2_flag : Z;
  polynomial_model : Z;
  polynomial_max_order : Z;
  is_paramagnetic : bool;
  delta_learning : bool
}.

(** The configuration with another fold count: what a caller changes when
    only [n_splits] is edited. *)
Definition with_n_splits (k : Z) (config : Config) : Config :=
  {| cutoff_radius_min := cutoff_radius_min config;
     cutoff_radius_max := cutoff_radius_max config;
     gaussian_params2_num_min := gaussian_params2_num_min config;
     gaussian_params2_num_max := gaussian_params2_num_max config;
     alpha := alpha config;
     n_splits := k;
     energy_weight := energy_weight config;
     force_weight := force_weight config;
     high_energy_weights := high_energy_weights config;
     use_force := use_force config;
     model_dir := model_dir config;
     composite_num := composite_num config;
     feature_type := feature_type config;
     gtinv_lmax := gtinv_lmax config;
     use_gtinv_sym := use_gtinv_sym config;
     use_spin := use_spin config;
     gaussian_params2_flag := gaussian_params2_flag config;
     polynomial_model := polynomial_model config;
     polynomial_max_order := polynomial_max_order config;
     is_paramagnetic := is_paramagnetic config;
     delta_learning := delta_learning config |}.

(** The dictionary returned by [make_param_grid]: one tuple per key. *)
Record ParamGrid : Type := {
  grid_cutoff_radius : list float;
  grid_gaussian_params2_num : list Z;
  grid_alpha : list float
}.

(** One point of the grid, as [ParameterGrid] yields it. *)
Record HyperParams : Type := {
  hp_alpha : float;
  hp_cutoff_radius : float;
  hp_gaussian_params2_num : Z
}.

(** Modelled from the spec: the class [ModelParams] of
    [para_mlp.data_structure] is not in [train.py]; it holds the searched
    fields and the fields [arrange_model_from_hyper_params] copies from the
    configuration. *)
Module ModelParams.
Record t : Type := {
  cutoff_radius : float;
  gaussian_params2_num : Z;
  alpha : float;
  composite_num : Z;
  feature_type : string;
  gtinv_lmax : list Z;
  use_gtinv_sym : list bool;
  use_force : bool;
  use_spin : bool;
  gaussian_params2_flag : Z;
  polynomial_model : Z;
  polynomial_max_order : Z;
  is_paramagnetic : bool;
  delta_learning : bool
}.
End ModelParams.

(** Modelled from the spec: the class [RILRM] of [para_mlp.model] is not in
    [train.py]; a model owns its parameters, a feature matrix [x] (absent
    until built, or once released), an optional scaler and fitted
    coefficients. *)
Record RILRM : Type := {
  model_params : ModelParams.t;
  x : option (list (list float));
  scaler : option (list float * list float);
  coef : option (list float)
}.

Definition set_x (m : RILRM) (v : option (list (list float))) : RILRM :=
  {| model_params := model_params m; x := v; scaler := scaler m; coef := coef m |}.

(** The row ids [make_yids_for_structure_ids] returns, by key. *)
Record Yids : Type := {
  yids_energy : list Z;
  yids_force : list Z;
  yids_target : list Z
}.

(** ** sklearn *)

(** The points of [ParameterGrid(param_grid)], in the order it yields them:
    the cartesian product over the keys in sorted order ([alpha],
    [cutoff_radius], [gaussian_params2_num]), the last key varying fastest.
    Whether the grid object can be built at all is [ParameterGrid_new]. *)
Definition ParameterGrid (g : ParamGrid) : list HyperParams :=
  a ← grid_alpha g;
  r ← grid_cutoff_radius g;
  n ← grid_gaussian_params2_num g;
  [ {| hp_alpha := a; hp_cutoff_radius := r; hp_gaussian_params2_num := n |} ].

(** [ParameterGrid(param_grid)], the constructor: a grid with an empty
    dimension is refused with [ValueError]; otherwise the object holds the
    points above. *)
Definition ParameterGrid_new (g : ParamGrid) : result (list HyperParams) :=
  if existsb (fun len => (len =? 0)%nat)
       [ length (grid_cutoff_radius g);
         length (grid_gaussian_params2_num g);
         length (grid_alpha g) ]
  then Raise ValueError
  else Ok (ParameterGrid g).

(** [ParameterGrid(param_grid)[0]]. *)
Definition ParameterGrid_first (g : ParamGrid) : result HyperParams :=
  points ← ParameterGrid_new g;
  match points with
  | hp :: _ => Ok hp
  | [] => Raise IndexError
  end.

(** Consecutive chunks of [l] of the given sizes. *)
Fixpoint chunks {A} (sizes : list nat) (l : list A) : list (list A) :=
  match sizes with
  | [] => []
  | s :: sizes' => take s l :: chunks sizes' (drop s l)
  end.

Definition memb (i : nat) (l : list nat) : bool := bool_decide (i ∈ l).

(** [KFold(n_splits, shuffle=True, random_state=0).split(...)] over [n_samples]
    rows. [shuffled] is the seed-0 permutation of [range(n_samples)]. Each
    fold is (train_index, valid_index), both in increasing order. *)
Definition KFold_split (shuffled : nat -> list nat) (n_splits : Z) (n_samples : nat)
  : result (list (list Z * list Z)) :=
  if n_splits <=? 1 then Raise ValueError
  else if Z.of_nat n_samples <? n_splits then Raise ValueError
  else
    let k := Z.to_nat n_splits in
    let sizes := (fun i => (n_samples / k + (if i <? n_samples mod k then 1 else 0))%nat)
                   <$> seq 0 k in
    Ok ((fun test : list nat =>
           (Z.of_nat <$> filter (fun i => negb (memb i test) = true) (seq 0 n_samples),
            Z.of_nat <$> filter (fun i => memb i test = true) (seq 0 n_samples)))
          <$> chunks sizes (shuffled n_samples)).

(** ** [make_param_grid] (train.py, lines 27-61) *)

Definition cutoff_radius_num (config : Config) : result Z :=
  q ← py_int ((cutoff_radius_max config - cutoff_radius_min config) / 2)%float;
  Ok (q + 1).

Definition make_param_grid (config : Config) : result ParamGrid :=
  num ← cutoff_radius_num config;
  cutoff_radius ← linspace (cutoff_radius_min config) (cutoff_radius_max config) num;
  let gaussian_params2_num :=
    arange (gaussian_params2_num_min config) (gaussian_params2_num_max config + 5) 5 in
  Ok {| grid_cutoff_radius := cutoff_radius;
        grid_gaussian_params2_num := gaussian_params2_num;
        grid_alpha := alpha config |}.

(** ** The datasets *)

(** A structure of the dataset and its atomic sites (pymatgen). *)
Record Site : Type := {
  species : string;
  coords : list float
}.

Record Structure : Type := {
  sites : list Site
}.

(** [kfold_dataset] and [test_dataset]: the keys ["structures"] and
    ["target"]. The target holds the energies first, one per structure, then
    the force components. *)
Record Dataset : Type := {
  structures : list Structure;
  target : list float
}.

(** ** Collaborators outside [train.py] *)

Class Collaborators : Type := {
  (** [para_mlp.data_structure] and [para_mlp.model]. *)
  from_dict : HyperParams -> ModelParams.t;
  set_api_params : ModelParams.t -> ModelParams.t;
  RILRM_new : ModelParams.t -> RILRM;
  make_feature : RILRM -> list Structure -> bool -> result RILRM;
  apply_weight :
    RILRM -> float -> float -> list float -> option (list (list Z)) -> nat -> result RILRM;
  train : RILRM -> list Z -> list float -> result RILRM;
  predict : RILRM -> option (list Structure) -> result (list float);
  (** [para_mlp.utils]. *)
  average : list float -> float;
  rmse : list float -> list float -> float;
  make_yids_for_structure_ids : list Z -> nat -> Z -> bool -> Yids;
  make_high_energy_index : Z -> Config -> nat -> Z -> Yids -> list Z;
  (** The value of [statistics.stdev] and the seed-0 shuffle of [KFold]. *)
  stdev_value : list float -> float;
  shuffled : nat -> list nat
}.

Section Train.

Context `{Collaborators}.

(** *** [arrange_model_from_hyper_params] (lines 64-94) *)

Definition arrange_model_from_hyper_params (hyper_params : HyperParams) (config : Config)
  : RILRM :=
  let model_params := from_dict hyper_params in
  let model_params :=
    {| ModelParams.cutoff_radius := ModelParams.cutoff_radius model_params;
       ModelParams.gaussian_params2_num := ModelParams.gaussian_params2_num model_params;
       ModelParams.alpha := ModelParams.alpha model_params;
       ModelParams.composite_num := composite_num config;
       ModelParams.feature_type := feature_type config;
       ModelParams.gtinv_lmax := gtinv_lmax config;
       ModelParams.use_gtinv_sym := use_gtinv_sym config;
       ModelParams.use_force := use_force config;
       ModelParams.use_spin := use_spin config;
       ModelParams.gaussian_params2_flag := gaussian_params2_flag config;
       ModelParams.polynomial_model := polynomial_model config;
       ModelParams.polynomial_max_order := polynomial_max_order config;
       ModelParams.is_paramagnetic := is_paramagnetic config;
       ModelParams.delta_learning := delta_learning config |} in
  RILRM_new (set_api_params model_params).

(** *** Shape bookkeeping shared by both entry points
    (lines 116-119 and 256-258) *)

(** [(target.shape[0] // n_kfold_structure) - 1]. *)
Definition derive_force_id_unit (target_len n_kfold_structure : nat) : result Z :=
  if (n_kfold_structure =? 0)%nat then Raise ZeroDivisionError
  else Ok (Z.of_nat target_len `div` Z.of_nat n_kfold_structure - 1).

(** [len(kfold_dataset["structures"][0].sites)]. *)
Definition atoms_in_first_structure (ss : list Structure) : result nat :=
  match ss with
  | s :: _ => Ok (length (sites s))
  | [] => Raise IndexError
  end.

(** [a / n_atoms_in_structure], elementwise. *)
Definition per_atom (n_atoms_in_structure : nat) (a : list float) : list float :=
  (fun v => (v / Z2float (Z.of_nat n_atoms_in_structure))%float) <$> a.

(** *** [cross_validate] (lines 97-236) *)

(** The three score lists of one candidate. *)
Record FoldScores : Type := {
  test_model_rmses : list float;
  test_model_rmses_energy : list float;
  test_model_rmses_force : list float
}.

(** The energy-block score of one fold (lines 166-173). *)
Definition fold_rmse_energy (n_atoms_in_structure : nat)
    (y_predict target_v : list float) (yids_for_valid : Yids) : result float :=
  p ← getitem y_predict (yids_energy yids_for_valid);
  e ← getitem target_v (yids_energy yids_for_valid);
  Ok (rmse (per_atom n_atoms_in_structure p) (per_atom n_atoms_in_structure e) * 1000)%float.

(** The body of the loop over folds (lines 147-180). The model is trained in
    place, so it is threaded through the folds. *)
Definition fold_body (config : Config) (kfold_dataset : Dataset)
    (n_kfold_structure : nat) (force_id_unit : Z) (n_atoms_in_structure : nat)
    (st : RILRM * FoldScores) (fold : list Z * list Z) : result (RILRM * FoldScores) :=
  let '(test_model, sc) := st in
  let '(train_index, valid_index) := fold in
  let yids_for_train :=
    make_yids_for_structure_ids train_index n_kfold_structure force_id_unit
      (use_force config) in
  let yids_for_valid :=
    make_yids_for_structure_ids valid_index n_kfold_structure force_id_unit
      (use_force config) in
  test_model ← train test_model (yids_target yids_for_train) (target kfold_dataset);
  y_predict ← predict test_model None;
  p ← getitem y_predict (yids_target yids_for_valid);
  e ← getitem (target kfold_dataset) (yids_target yids_for_valid);
  let r_target := rmse p e in
  r_energy ← fold_rmse_energy n_atoms_in_structure y_predict (target kfold_dataset)
               yids_for_valid;
  r_force ←
    (if use_force config then
       pf ← getitem y_predict (yids_force yids_for_valid);
       ef ← getitem (target kfold_dataset) (yids_force yids_for_valid);
       Ok [rmse pf ef]
     else Ok []);
  Ok (test_model,
      {| test_model_rmses := test_model_rmses sc ++ [r_target];
         test_model_rmses_energy := test_model_rmses_energy sc ++ [r_energy];
         test_model_rmses_force := test_model_rmses_force sc ++ r_force |}).

(** One candidate, from construction to the end of its loop over the folds
    (lines 125-180): the model after its last fold and the three score
    lists. *)
Definition candidate_scores (config : Config) (kfold_dataset : Dataset)
    (high_energy_index_list : option (list (list Z)))
    (n_kfold_structure : nat) (force_id_unit : Z) (n_atoms_in_structure : nat)
    (hyper_params : HyperParams) : result (RILRM * FoldScores) :=
  let test_model := arrange_model_from_hyper_params hyper_params config in
  test_model ← make_feature test_model (structures kfold_dataset) true;
  test_model ← apply_weight test_model (energy_weight config) (force_weight config)
                 (high_energy_weights config) high_energy_index_list n_kfold_structure;
  _ ← (match x test_model with Some _ => Ok () | None => Raise AttributeError end);
  folds ← KFold_split shuffled (n_splits config) n_kfold_structure;
  foldR (fold_body config kfold_dataset n_kfold_structure force_id_unit
           n_atoms_in_structure)
        folds
        (test_model, {| test_model_rmses := []; test_model_rmses_energy := [];
                        test_model_rmses_force := [] |}).

(** One candidate, from construction to its mean combined RMSE
    (lines 125-206): the model after its last fold and [test_model_rmse]. *)
Definition evaluate_candidate (config : Config) (kfold_dataset : Dataset)
    (high_energy_index_list : option (list (list Z)))
    (n_kfold_structure : nat) (force_id_unit : Z) (n_atoms_in_structure : nat)
    (hyper_params : HyperParams) : result (RILRM * float) :=
  '(test_model, sc) ←
    candidate_scores config kfold_dataset high_energy_index_list n_kfold_structure
      force_id_unit n_atoms_in_structure hyper_params;
  let test_model_rmse := average (test_model_rmses sc) in
  _ ← stdev stdev_value (test_model_rmses sc);
  _ ← stdev stdev_value (test_model_rmses_energy sc);
  _ ← (if use_force config then stdev stdev_value (test_model_rmses_force sc)
       else Ok 0%float);
  Ok (test_model, test_model_rmse).

(** The local variables of the search loop; [None] is a name not yet bound. *)
Record SearchState : Type := {
  retained_model_rmse : float;
  retained_model : option RILRM;
  retained_model_params : option HyperParams;
  test_model : option RILRM
}.

(** Reading a local variable. *)
Definition read {A} (v : option A) : result A :=
  match v with
  | Some a => Ok a
  | None => Raise UnboundLocalError
  end.

(** Lines 218-223. On values [copy.deepcopy] is the identity; the store-level
    reading of these lines is [Snapshot.retain]. *)
Definition compare_and_retain (st : SearchState) (candidate : RILRM)
    (hyper_params : HyperParams) (test_model_rmse : float) : SearchState :=
  if (test_model_rmse <? retained_model_rmse st)%float then
    {| retained_model_rmse := test_model_rmse;
       retained_model := Some (set_x candidate None);
       retained_model_params := Some hyper_params;
       test_model := Some candidate |}
  else
    {| retained_model_rmse := retained_model_rmse st;
       retained_model := retained_model st;
       retained_model_params := retained_model_params st;
       test_model := Some candidate |}.

(** The body of the loop over the grid (lines 123-227). *)
Definition search_body (config : Config) (kfold_dataset : Dataset)
    (high_energy_index_list : option (list (list Z)))
    (n_kfold_structure : nat) (force_id_unit : Z) (n_atoms_in_structure : nat)
    (st : SearchState) (hyper_params : HyperParams) : result SearchState :=
  '(candidate, test_model_rmse) ←
    evaluate_candidate config kfold_dataset high_energy_index_list
      n_kfold_structure force_id_unit n_atoms_in_structure hyper_params;
  let st := compare_and_retain st candidate hyper_params test_model_rmse in
  _ ← read (retained_model_params st);
  Ok st.

(** Line 121: nothing is retained yet and the score to beat is the sentinel. *)
Definition initial_search_state : SearchState :=
  {| retained_model_rmse := 1e10;
     retained_model := None;
     retained_model_params := None;
     test_model := None |}.

(** Lines 116-121, the grid object of line 123, the loop over its points,
    then lines 229-236: the two reads of [retained_model_params] and
    [test_model] are those of [logger.info] and [del]. *)
Definition cross_validate (config : Config) (param_grid : ParamGrid)
    (kfold_dataset : Dataset) (high_energy_index_list : option (list (list Z)))
  : result RILRM :=
  let n_kfold_structure := length (structures kfold_dataset) in
  force_id_unit ← derive_force_id_unit (length (target kfold_dataset)) n_kfold_structure;
  n_atoms_in_structure ← atoms_in_first_structure (structures kfold_dataset);
  points ← ParameterGrid_new param_grid;
  st ← foldR (search_body config kfold_dataset high_energy_index_list
                n_kfold_structure force_id_unit n_atoms_in_structure)
             points initial_search_state;
  _ ← read (retained_model_params st);
  _ ← read (test_model st);
  read (retained_model st).

(** Ties favour the earlier candidate: among the candidates seen, with their
    mean scores, the one at [i] scores below the sentinel, strictly below every
    earlier score that is a number, and no later score is below it. *)
Definition earliest_best (seen : list (RILRM * float)) (i : nat) (m : RILRM) (s : float)
  : Prop :=
  seen !! i = Some (m, s) /\
  (s <? 1e10)%float = true /\
  forall (j : nat) m' s', seen !! j = Some (m', s') ->
    ((j < i)%nat -> (s' =? s')%float = true -> (s <? s')%float = true) /\
    ((i < j)%nat -> (s' <? s)%float = false).

(** What the loop maintains once a candidate is retained. *)
Definition scan_inv (st : SearchState) (seen : list (RILRM * float)) : Prop :=
  exists i m hp,
    retained_model st = Some (set_x m None) /\
    retained_model_params st = Some hp /\
    is_Some (test_model st) /\
    earliest_best seen i m (retained_model_rmse st).

(** *** [train_and_eval] (lines 239-370) *)

(** Dataset-level weighting (lines 260-264): the energy block
    [target[:n_kfold_structure]] and the force block
    [target[n_kfold_structure:]] are scaled in place. *)
Definition weight_energy_block (config : Config) (n_kfold_structure : nat)
    (target_v : list float) : list float :=
  if float_ne (energy_weight config) 1
  then scale_head n_kfold_structure (energy_weight config) target_v
  else target_v.

Definition weight_force_block (config : Config) (n_kfold_structure : nat)
    (target_v : list float) : list float :=
  if float_ne (force_weight config) 1
  then scale_tail n_kfold_structure (force_weight config) target_v
  else target_v.

Definition apply_dataset_weights (config : Config) (n_kfold_structure : nat)
    (target_v : list float) : list float :=
  weight_force_block config n_kfold_structure
    (weight_energy_block config n_kfold_structure target_v).

(** The guard of line 268. [or] is lazy: the first weight is read only when
    there is exactly one. *)
Definition high_energy_override_needed (config : Config) : result bool :=
  let n_high_energy_structure := length (high_energy_weights config) in
  if negb (n_high_energy_structure =? 1)%nat then Ok true
  else match high_energy_weights config with
       | w :: _ => Ok (float_ne w 1)
       | [] => Raise IndexError
       end.

(** Exactly one high-energy group, with weight 1.0. *)
Definition single_unit_weight (config : Config) : Prop :=
  exists w, high_energy_weights config = [w] /\ (w =? 1)%float = true.

(** The second loop of the override path (lines 280-283). *)
Fixpoint scale_high_energy_rows (index_list : list (list Z)) (weights : list float)
    (target_v : list float) : result (list float) :=
  match index_list, weights with
  | ids :: index_list', w :: weights' =>
      target_v ← scale_rows target_v ids w;
      scale_high_energy_rows index_list' weights' target_v
  | [], [] => Ok target_v
  | _, _ => Raise IndexError
  end.

(** Lines 266-283: the index sets ([None] when the path is skipped) and the
    target vector afterwards. *)
Definition high_energy_override (config : Config) (n_kfold_structure : nat)
    (test_dataset : Dataset) (force_id_unit : Z) (yids_for_kfold : Yids)
    (target_v : list float) : result (option (list (list Z)) * list float) :=
  let n_high_energy_structure := length (high_energy_weights config) in
  needed ← high_energy_override_needed config;
  if (needed : bool) then
    let n_structure := (length (structures test_dataset) + n_kfold_structure)%nat in
    let high_energy_index_list :=
      (fun i : nat =>
         make_high_energy_index (Z.of_nat i + 1) config n_structure force_id_unit
           yids_for_kfold)
        <$> seq 0 n_high_energy_structure in
    target_v ← scale_high_energy_rows high_energy_index_list
                 (high_energy_weights config) target_v;
    Ok (Some high_energy_index_list, target_v)
  else Ok (@None (list (list Z)), target_v).

(** Line 287. *)
Definition dont_cross_validate (param_grid : ParamGrid) : bool :=
  forallb (fun len => (len =? 1)%nat)
    [ length (grid_cutoff_radius param_grid);
      length (grid_gaussian_params2_num param_grid);
      length (grid_alpha param_grid) ].

(** Lines 288-299. *)
Definition select_retained_model (config : Config) (param_grid : ParamGrid)
    (kfold_dataset : Dataset) (high_energy_index_list : option (list (list Z)))
  : result RILRM :=
  if dont_cross_validate param_grid then
    hyper_params ← ParameterGrid_first param_grid;
    Ok (arrange_model_from_hyper_params hyper_params config)
  else
    cross_validate config param_grid kfold_dataset high_energy_index_list.

(** What is reported for one pool: the record handed to
    [record_energy_prediction_accuracy] and the logged scores. *)
Record PoolReport : Type := {
  output_filename : string;
  energy_predict : list float;
  energy_expected : list float;
  model_score_energy : float;
  model_score_force : option float
}.

(** Lines 319-342 for the k-fold pool and 347-368 for the test pool. *)
Definition score_pool (config : Config) (n_atoms_in_structure : nat)
    (filename : string) (y_predict : list float) (pool : Dataset) : PoolReport :=
  let energy_id_end := length (structures pool) in
  let energy_predict := per_atom n_atoms_in_structure (take energy_id_end y_predict) in
  let energy_expected := per_atom n_atoms_in_structure (take energy_id_end (target pool)) in
  {| output_filename :=
       String.concat "/" [model_dir config; "prediction"; filename]%string;
     energy_predict := energy_predict;
     energy_expected := energy_expected;
     model_score_energy := (rmse energy_predict energy_expected * 1000)%float;
     model_score_force :=
       if use_force config
       then Some (rmse (drop energy_id_end y_predict) (drop energy_id_end (target pool)))
       else None |}.

(** The result of a run: the trained model, the k-fold target vector as the
    in-place weighting left it, the index sets, and the two reports. *)
Record TrainEval : Type := {
  trained_model : RILRM;
  kfold_target : list float;
  high_energy_index_list : option (list (list Z));
  kfold_report : PoolReport;
  test_report : PoolReport
}.

(** The target of [kfold_dataset] is updated in place; the updated vector is
    what the search and the final training see, and what the caller is left
    with ([kfold_target]). *)
Definition train_and_eval (config : Config) (kfold_dataset test_dataset : Dataset)
    (yids_for_kfold : Yids) : result TrainEval :=
  let n_kfold_structure := length (structures kfold_dataset) in
  force_id_unit ← derive_force_id_unit (length (target kfold_dataset)) n_kfold_structure;
  n_atoms_in_structure ← atoms_in_first_structure (structures kfold_dataset);
  let target_v := apply_dataset_weights config n_kfold_structure (target kfold_dataset) in
  '(high_energy_index_list, target_v) ←
    high_energy_override config n_kfold_structure test_dataset force_id_unit
      yids_for_kfold target_v;
  let kfold_dataset :=
    {| structures := structures kfold_dataset; target := target_v |} in
  param_grid ← make_param_grid config;
  retained_model ←
    select_retained_model config param_grid kfold_dataset high_energy_index_list;
  retained_model ← make_feature retained_model (structures kfold_dataset) true;
  retained_model ← apply_weight retained_model (energy_weight config)
                     (force_weight config) (high_energy_weights config)
                     high_energy_index_list n_kfold_structure;
  let train_index := seqZ 0 (Z.of_nat (length (target kfold_dataset))) in
  retained_model ← train retained_model train_index (target kfold_dataset);
  y_predict ← predict retained_model None;
  let kfold_report :=
    score_pool config n_atoms_in_structure "kfold_energy.out" y_predict kfold_dataset in
  y_predict ← predict retained_model (Some (structures test_dataset));
  let test_report :=
    score_pool config n_atoms_in_structure "test_energy.out" y_predict test_dataset in
  Ok {| trained_model := retained_model;
        kfold_target := target_v;
        high_energy_index_list := high_energy_index_list;
        kfold_report := kfold_report;
        test_report := test_report |}.

End Train.

(** ** A small executable instance of the collaborators

    A one-feature model whose prediction for every row is its [alpha], never
    below 4: enough to run the search on concrete inputs. *)
Module Toy.

Definition toy_from_dict (hp : HyperParams) : ModelParams.t :=
  {| ModelParams.cutoff_radius := hp_cutoff_radius hp;
     ModelParams.gaussian_params2_num := hp_gaussian_params2_num hp;
     ModelParams.alpha := hp_alpha hp;
     ModelParams.composite_num := 1;
     ModelParams.feature_type := "pair";
     ModelParams.gtinv_lmax := [];
     ModelParams.use_gtinv_sym := [];
     ModelParams.use_force := false;
     ModelParams.use_spin := false;
     ModelParams.gaussian_params2_flag := 1;
     ModelParams.polynomial_model := 1;
     ModelParams.polynomial_max_order := 1;
     ModelParams.is_paramagnetic := false;
     ModelParams.delta_learning := false |}.

Definition toy_new (mp : ModelParams.t) : RILRM :=
  {| model_params := mp; x := None; scaler := None; coef := None |}.

Definition toy_make_feature (m : RILRM) (ss : list Structure) (make_scaler : bool)
  : result RILRM :=
  Ok {| model_params := model_params m;
        x := Some ((fun _ => [1%float]) <$> ss);
        scaler := if make_scaler then Some ([0%float], [1%float]) else scaler m;
        coef := coef m |}.

Definition toy_train (m : RILRM) (ids : list Z) (target_v : list float) : result RILRM :=
  let a := ModelParams.alpha (model_params m) in
  Ok {| model_params := model_params m; x := x m; scaler := scaler m;
        coef := Some [if (a <? 4)%float then 4%float else a] |}.

Definition toy_predict (m : RILRM) (ss : option (list Structure)) : result (list float) :=
  match coef m with
  | Some [c] =>
      match ss, x m with
      | Some ss, _ => Ok ((fun _ => c) <$> ss)
      | None, Some rows => Ok ((fun _ => c) <$> rows)
      | None, None => Raise (ModelError 1)
      end
  | _ => Raise (ModelError 2)
  end.

Definition toy_sum (l : list float) : float :=
  fold_left (fun acc v => (acc + v)%float) l 0%float.

Definition toy_average (l : list float) : float :=
  (toy_sum l / Z2float (Z.of_nat (length l)))%float.

Definition toy_rmse (p e : list float) : float :=
  PrimFloat.sqrt
    (toy_average (zip_with (fun a b => ((a - b) * (a - b))%float) p e)).

Definition toy_yids (ids : list Z) (n : nat) (unit : Z) (use_force : bool) : Yids :=
  {| yids_energy := ids; yids_force := []; yids_target := ids |}.

#[export] Instance toy : Collaborators := {|
  from_dict := toy_from_dict;
  set_api_params := fun mp => mp;
  RILRM_new := toy_new;
  make_feature := toy_make_feature;
  apply_weight := fun m _ _ _ _ _ => Ok m;
  train := toy_train;
  predict := toy_predict;
  average := toy_average;
  rmse := toy_rmse;
  make_yids_for_structure_ids := toy_yids;
  make_high_energy_index := fun _ _ _ _ _ => [0];
  stdev_value := fun _ => 0%float;
  shuffled := fun n => seq 0 n
|}.

Definition atom : Site := {| species := "Fe"; coords := [0; 0; 0]%float |}.
Definition cell : Structure := {| sites := [atom; atom] |}.

(** Two structures, energies only. *)
Definition pool2 : Dataset := {| structures := [cell; cell]; target := [0; 0]%float |}.

(** Two structures and five target rows: the row count is not a multiple of
    the structure count. *)
Definition pool_ragged : Dataset :=
  {| structures := [cell; cell]; target := [0; 0; 0; 0; 0]%float |}.

Definition make_config (rmin rmax : float) (gmin gmax : Z) (alphas : list float)
    (k : Z) (ew fw : float) (hew : list float) : Config :=
  {| cutoff_radius_min := rmin; cutoff_radius_max := rmax;
     gaussian_params2_num_min := gmin; gaussian_params2_num_max := gmax;
     alpha := alphas;
     n_splits := k;
     energy_weight := ew; force_weight := fw;
     high_energy_weights := hew;
     use_force := false;
     model_dir := "model";
     composite_num := 1; feature_type := "pair"; gtinv_lmax := []; use_gtinv_sym := [];
     use_spin := false; gaussian_params2_flag := 1; polynomial_model := 1;
     polynomial_max_order := 1; is_paramagnetic := false; delta_learning := false |}.

(** A one-point grid, two folds, no weighting. *)
Definition config0 : Config := make_config 6 6 5 5 [5]%float 2 1 1 [1]%float.

Definition grid_of_alpha (a : list float) : ParamGrid :=
  {| grid_cutoff_radius := [6]%float; grid_gaussian_params2_num := [5];
     grid_alpha := a |}.

Definition hp_of_alpha (a : float) : HyperParams :=
  {| hp_alpha := a; hp_cutoff_radius := 6; hp_gaussian_params2_num := 5 |}.

(** The same collaborators, except that no features can be built for a
    candidate whose [alpha] is 7 or more: a search in which one candidate
    fails. It is passed explicitly where it is used. *)
Definition picky_make_feature (m : RILRM) (ss : list Structure) (make_scaler : bool)
  : result RILRM :=
  if (ModelParams.alpha (model_params m) <? 7)%float
  then toy_make_feature m ss make_scaler
  else Raise (ModelError 3).

Definition picky : Collaborators := {|
  from_dict := toy_from_dict;
  set_api_params := fun mp => mp;
  RILRM_new := toy_new;
  make_feature := picky_make_feature;
  apply_weight := fun m _ _ _ _ _ => Ok m;
  train := toy_train;
  predict := toy_predict;
  average := toy_average;
  rmse := toy_rmse;
  make_yids_for_structure_ids := toy_yids;
  make_high_energy_index := fun _ _ _ _ _ => [0];
  stdev_value := fun _ => 0%float;
  shuffled := fun n => seq 0 n
|}.

(** No structure at all. *)
Definition pool0 : Dataset := {| structures := []; target := [] |}.

(** Two structures with energies 3 and 4, and the same structures with other
    energies. *)
Definition pool34 : Dataset := {| structures := [cell; cell]; target := [3; 4]%float |}.
Definition pool78 : Dataset := {| structures := [cell; cell]; target := [7; 8]%float |}.

End Toy.

(** * Properties *)

(** ** The error monad *)

Lemma bind_Ok {A B} (f : A -> result B) (m : result A) (b : B) :
  m ≫= f = Ok b -> exists a, m = Ok a /\ f a = Ok b.
Proof. destruct m as [a|e]; simpl; [eauto | discriminate]. Qed.

Lemma bind_Ok_l {A B} (f : A -> result B) (a : A) : (Ok a ≫= f) = f a.
Proof. reflexivity. Qed.

(** ** Float comparison *)

Lemma float_tie_not_less (a b : float) :
  PrimFloat.eqb a b = true -> PrimFloat.ltb a b = false.
Proof.
  rewrite FloatAxioms.eqb_spec, ltb_spec. unfold SFeqb, SFltb.
  destruct (SFcompare _ _) as [[]|]; auto; discriminate.
Qed.

Lemma SFcompare_key (a b : spec_float) :
  SFcompare a b =
    match float_key a, float_key b with
    | Some ka, Some kb => Some (key_compare ka kb)
    | _, _ => None
    end.
Proof.
  assert (Hcc : forall m1 m2, PosDef.Pos.compare_cont Eq m1 m2 = (Z.pos m1 ?= Z.pos m2)).
  { reflexivity. }
  assert (Hopp : forall x y, (- x ?= - y) = CompOpp (x ?= y)).
  { intros x y. rewrite Z.compare_opp. apply Z.compare_antisym. }
  destruct a as [sa|sa| |sa ma ea], b as [sb|sb| |sb mb eb]; simpl;
    try reflexivity;
    try (destruct sa; reflexivity); try (destruct sb; reflexivity);
    try (destruct sa, sb; reflexivity).
  unfold key_compare. destruct sa, sb; simpl; try reflexivity.
  rewrite !Hopp, Hcc. destruct (ea ?= eb); reflexivity.
Qed.

Lemma key_compare_lt (a b : Z * Z * Z) :
  key_compare a b = Lt <->
  a.1.1 < b.1.1 \/ (a.1.1 = b.1.1 /\ (a.1.2 < b.1.2 \/ (a.1.2 = b.1.2 /\ a.2 < b.2))).
Proof.
  unfold key_compare.
  destruct (Z.compare_spec a.1.1 b.1.1); [|split; [lia|auto]|split; [discriminate|lia]].
  destruct (Z.compare_spec a.1.2 b.1.2); [|split; [lia|auto]|split; [discriminate|lia]].
  destruct (Z.compare_spec a.2 b.2); split; try discriminate; try lia; auto.
Qed.

(** [a < b] on floats, through the keys. *)
Lemma float_ltb_key (a b : float) :
  PrimFloat.ltb a b = true <->
  exists ka kb, float_key (Prim2SF a) = Some ka /\ float_key (Prim2SF b) = Some kb /\
                key_compare ka kb = Lt.
Proof.
  rewrite ltb_spec. unfold SFltb. rewrite SFcompare_key.
  destruct (float_key (Prim2SF a)) as [ka|], (float_key (Prim2SF b)) as [kb|].
  - split.
    + intros Hlt. exists ka, kb. destruct (key_compare ka kb); done.
    + intros (ka' & kb' & [= <-] & [= <-] & ->). done.
  - split; [discriminate|]. intros (? & ? & _ & ? & _). discriminate.
  - split; [discriminate|]. intros (? & ? & ? & _). discriminate.
  - split; [discriminate|]. intros (? & ? & ? & _). discriminate.
Qed.

(** [a == a] holds exactly for the floats that are numbers. *)
Lemma float_number_key (a : float) :
  PrimFloat.eqb a a = true <-> is_Some (float_key (Prim2SF a)).
Proof.
  rewrite FloatAxioms.eqb_spec. unfold SFeqb. rewrite SFcompare_key.
  destruct (float_key (Prim2SF a)) as [[[k1 k2] k3]|].
  - unfold key_compare. simpl. rewrite !Z.compare_refl. split; [by eexists|done].
  - split; [discriminate|]. by intros [? ?].
Qed.

Lemma float_ltb_number_l (a b : float) :
  PrimFloat.ltb a b = true -> PrimFloat.eqb a a = true.
Proof.
  rewrite float_ltb_key, float_number_key. intros (ka & kb & Ha & _). by eexists.
Qed.

Lemma float_ltb_trans (a b c : float) :
  PrimFloat.ltb a b = true -> PrimFloat.ltb b c = true -> PrimFloat.ltb a c = true.
Proof.
  rewrite !float_ltb_key.
  intros (ka & kb & Ha & Hb & Hab) (kb' & kc & Hb' & Hc & Hbc).
  rewrite Hb in Hb'. injection Hb' as <-.
  exists ka, kc. split; [done|]. split; [done|].
  rewrite key_compare_lt in *. lia.
Qed.

(** [a < b], [c] a number and not below [b]: then [a < c]. *)
Lemma float_ltb_not_below (a b c : float) :
  PrimFloat.ltb a b = true -> PrimFloat.ltb c b = false -> PrimFloat.eqb c c = true ->
  PrimFloat.ltb a c = true.
Proof.
  intros Hab Hcb Hc. apply float_number_key in Hc as [kc Hc].
  apply float_ltb_key in Hab as (ka & kb & Ha & Hb & Hab).
  apply float_ltb_key. exists ka, kc. split; [done|]. split; [done|].
  apply not_true_iff_false in Hcb. rewrite float_ltb_key in Hcb.
  apply key_compare_lt. apply key_compare_lt in Hab.
  destruct (decide (key_compare kc kb = Lt)) as [Hlt|Hge].
  - exfalso. apply Hcb. by exists kc, kb.
  - rewrite key_compare_lt in Hge. lia.
Qed.

Lemma float_ltb_irrefl (a : float) : PrimFloat.ltb a a = false.
Proof.
  apply not_true_iff_false. rewrite float_ltb_key.
  intros (ka & kb & Ha & Hb & Hlt). rewrite Ha in Hb. injection Hb as <-.
  rewrite key_compare_lt in Hlt. lia.
Qed.


Lemma float_ltb_asym (a b : float) :
  PrimFloat.ltb a b = true -> PrimFloat.ltb b a = false.
Proof.
  intros Hab. destruct (PrimFloat.ltb b a) eqn:Hba; [|done].
  by rewrite <- (float_ltb_irrefl a), (float_ltb_trans a b a).
Qed.

(** ** The grid object *)

Lemma length_bind_const {A B} (f : A -> list B) (c : nat) (l : list A) :
  (forall a, length (f a) = c) -> length (l ≫= f) = (length l * c)%nat.
Proof.
  intros Hf. induction l as [|a l IH]; [reflexivity|].
  rewrite bind_cons, length_app, Hf, IH. reflexivity.
Qed.

Lemma ParameterGrid_length (g : ParamGrid) :
  length (ParameterGrid g) =
    (length (grid_alpha g) * (length (grid_cutoff_radius g)
                              * length (grid_gaussian_params2_num g)))%nat.
Proof.
  unfold ParameterGrid.
  apply length_bind_const. intros a.
  apply length_bind_const. intros r.
  rewrite (length_bind_const _ 1%nat); [lia|done].
Qed.

Lemma ParameterGrid_nil (g : ParamGrid) :
  ParameterGrid g = [] <->
  existsb (fun len => (len =? 0)%nat)
    [ length (grid_cutoff_radius g);
      length (grid_gaussian_params2_num g);
      length (grid_alpha g) ] = true.
Proof.
  rewrite <- (length_zero_iff_nil (ParameterGrid g)), ParameterGrid_length.
  simpl. rewrite !orb_true_iff, !Nat.eqb_eq. lia.
Qed.

Lemma ParameterGrid_new_points (g : ParamGrid) :
  ParameterGrid g <> [] -> ParameterGrid_new g = Ok (ParameterGrid g).
Proof.
  intros Hne. unfold ParameterGrid_new.
  destruct (existsb _ _) eqn:He; [|reflexivity].
  by apply ParameterGrid_nil in He.
Qed.

Lemma ParameterGrid_new_empty (g : ParamGrid) :
  ParameterGrid g = [] -> ParameterGrid_new g = Raise ValueError.
Proof.
  intros Hnil. unfold ParameterGrid_new.
  by rewrite (proj1 (ParameterGrid_nil g) Hnil).
Qed.

Lemma ParameterGrid_new_Ok (g : ParamGrid) pts :
  ParameterGrid_new g = Ok pts -> pts = ParameterGrid g /\ ParameterGrid g <> [].
Proof.
  unfold ParameterGrid_new. destruct (existsb _ _) eqn:He; [discriminate|].
  intros [= <-]. split; [reflexivity|].
  intros Hnil. apply ParameterGrid_nil in Hnil. congruence.
Qed.

(** ** The search loop *)

Section TrainProps.
Context `{Collaborators}.

Lemma compare_and_retain_less st cand hp s :
  (s <? retained_model_rmse st)%float = true ->
  compare_and_retain st cand hp s =
    {| retained_model_rmse := s; retained_model := Some (set_x cand None);
       retained_model_params := Some hp; test_model := Some cand |}.
Proof. intros Hlt. unfold compare_and_retain. by rewrite Hlt. Qed.

Lemma compare_and_retain_not_less st cand hp s :
  (s <? retained_model_rmse st)%float = false ->
  compare_and_retain st cand hp s =
    {| retained_model_rmse := retained_model_rmse st;
       retained_model := retained_model st;
       retained_model_params := retained_model_params st;
       test_model := Some cand |}.
Proof. intros Hlt. unfold compare_and_retain. by rewrite Hlt. Qed.

End TrainProps.

Section Search.
Context `{Collaborators}.
Variables (config : Config) (param_grid : ParamGrid) (kfold_dataset : Dataset)
          (hil : option (list (list Z))) (u : Z) (na : nat).

Local Abbreviation n := (length (structures kfold_dataset)).
Local Abbreviation eval := (evaluate_candidate config kfold_dataset hil n u na).
Local Abbreviation body := (search_body config kfold_dataset hil n u na).

Lemma search_body_less st hp cand s :
  eval hp = Ok (cand, s) ->
  (s <? retained_model_rmse st)%float = true ->
  body st hp = Ok {| retained_model_rmse := s; retained_model := Some (set_x cand None);
                     retained_model_params := Some hp; test_model := Some cand |}.
Proof.
  intros He Hlt. unfold search_body. rewrite He. simpl.
  by rewrite (compare_and_retain_less _ _ _ _ Hlt).
Qed.

Lemma search_body_not_less st hp cand s :
  eval hp = Ok (cand, s) ->
  (s <? retained_model_rmse st)%float = false ->
  body st hp =
    (_ ← read (retained_model_params st);
     Ok {| retained_model_rmse := retained_model_rmse st;
           retained_model := retained_model st;
           retained_model_params := retained_model_params st;
           test_model := Some cand |}).
Proof.
  intros He Hlt. unfold search_body. rewrite He. simpl.
  by rewrite (compare_and_retain_not_less _ _ _ _ Hlt).
Qed.

Lemma search_body_raise st hp e :
  eval hp = Raise e -> body st hp = Raise e.
Proof. intros He. unfold search_body. by rewrite He. Qed.

Lemma cross_validate_unfold_new :
  derive_force_id_unit (length (target kfold_dataset)) n = Ok u ->
  atoms_in_first_structure (structures kfold_dataset) = Ok na ->
  cross_validate config param_grid kfold_dataset hil =
    (points ← ParameterGrid_new param_grid;
     st ← foldR body points initial_search_state;
     _ ← read (retained_model_params st);
     _ ← read (test_model st);
     read (retained_model st)).
Proof. intros Hu Ha. unfold cross_validate. by rewrite Hu, Ha. Qed.

(** The grid object of a grid with a point is built. *)
Lemma cross_validate_unfold :
  derive_force_id_unit (length (target kfold_dataset)) n = Ok u ->
  atoms_in_first_structure (structures kfold_dataset) = Ok na ->
  ParameterGrid param_grid <> [] ->
  cross_validate config param_grid kfold_dataset hil =
    (st ← foldR body (ParameterGrid param_grid) initial_search_state;
     _ ← read (retained_model_params st);
     _ ← read (test_model st);
     read (retained_model st)).
Proof.
  intros Hu Ha Hne.
  by rewrite (cross_validate_unfold_new Hu Ha), (ParameterGrid_new_points _ Hne).
Qed.

Lemma scan_step st seen hp m s :
  scan_inv st seen -> eval hp = Ok (m, s) ->
  exists st', body st hp = Ok st' /\ scan_inv st' (seen ++ [(m, s)]).
Proof.
  intros (i & mi & hpi & Hr & Hp & Ht & Hi & Hb & Hall) He.
  assert (Hlen : (i < length seen)%nat) by by eapply lookup_lt_Some.
  destruct (s <? retained_model_rmse st)%float eqn:Hlt.
  - rewrite (search_body_less _ _ _ _ He Hlt). eexists. split; [reflexivity|].
    exists (length seen), m, hp. simpl. repeat (split; [done|]).
    split; [by rewrite lookup_app_r, Nat.sub_diag by lia|].
    split; [by eapply float_ltb_trans|].
    intros j m' s' Hj. split.
    + intros Hjl Hnum. rewrite lookup_app_l in Hj by lia.
      destruct (decide (j = i)) as [->|Hne].
      * rewrite Hi in Hj. by injection Hj as <- <-.
      * eapply float_ltb_not_below; [exact Hlt| |done].
        destruct (Hall j m' s' Hj) as [Hbefore Hafter].
        destruct (decide (j < i)%nat) as [Hji|Hji].
        -- by apply float_ltb_asym, Hbefore.
        -- apply Hafter. lia.
    + intros Hjl. apply lookup_lt_Some in Hj. rewrite length_app in Hj. simpl in Hj. lia.
  - rewrite (search_body_not_less _ _ _ _ He Hlt), Hp. eexists. split; [reflexivity|].
    exists i, mi, hpi. simpl. repeat (split; [done|]).
    split; [by rewrite lookup_app_l by lia|]. split; [done|].
    intros j m' s' Hj.
    destruct (decide (j < length seen)%nat) as [Hjl|Hjl].
    + rewrite lookup_app_l in Hj by lia. exact (Hall j m' s' Hj).
    + rewrite lookup_app_r in Hj by lia.
      apply list_lookup_singleton_Some in Hj as [Hj0 [= <- <-]].
      split; [lia|done].
Qed.

Lemma scan_loop pts evals st seen :
  Forall2 (fun hp ms => eval hp = Ok ms) pts evals ->
  scan_inv st seen ->
  exists st', foldR body pts st = Ok st' /\ scan_inv st' (seen ++ evals).
Proof.
  intros HF. revert st seen.
  induction HF as [|hp [m s] pts evals He HF IH]; intros st seen Hinv.
  - exists st. by rewrite app_nil_r.
  - destruct (scan_step _ _ _ _ _ Hinv He) as (st1 & Hb & Hinv1).
    destruct (IH _ _ Hinv1) as (st' & Hl & Hinv').
    exists st'. simpl foldR. rewrite Hb, bind_Ok_l.
    split; [done|]. by rewrite <- app_assoc in Hinv'.
Qed.

Lemma scan_first hp m s :
  eval hp = Ok (m, s) -> (s <? 1e10)%float = true ->
  exists st, body initial_search_state hp = Ok st /\ scan_inv st [(m, s)].
Proof.
  intros He Hlt.
  rewrite (search_body_less _ _ _ _ He) by done.
  eexists. split; [reflexivity|]. exists 0%nat, m, hp. simpl.
  split; [done|]. split; [done|]. split; [by eexists|].
  split; [done|]. split; [done|].
  intros j m' s' Hj. destruct j as [|j]; [|discriminate].
  split; intros; lia.
Qed.

Lemma cross_validate_scan evals m0 s0 rest :
  derive_force_id_unit (length (target kfold_dataset)) n = Ok u ->
  atoms_in_first_structure (structures kfold_dataset) = Ok na ->
  Forall2 (fun hp ms => eval hp = Ok ms) (ParameterGrid param_grid) evals ->
  evals = (m0, s0) :: rest ->
  (s0 <? 1e10)%float = true ->
  exists i m s,
    cross_validate config param_grid kfold_dataset hil = Ok (set_x m None) /\
    earliest_best evals i m s.
Proof.
  intros Hu Ha HF -> Hlt.
  assert (Hne : ParameterGrid param_grid <> [])
    by (intros Hnil; rewrite Hnil in HF; inversion HF).
  rewrite (cross_validate_unfold Hu Ha Hne).
  inversion HF as [|hp ms pts evals' He HF' Hpts]; subst.
  destruct (scan_first _ _ _ He Hlt) as (st1 & Hb & Hinv1).
  destruct (scan_loop _ _ _ _ HF' Hinv1) as (st' & Hl & (i & m & hp' & Hr & Hp & [tm Ht] & Hbest)).
  exists i, m, (retained_model_rmse st'). split; [|exact Hbest].
  simpl foldR. by rewrite Hb, bind_Ok_l, Hl, bind_Ok_l, Hp, Ht, Hr.
Qed.

End Search.

(** ** The loop over the folds of one candidate *)

Lemma chunks_length {A} (sizes : list nat) (l : list A) :
  length (chunks sizes l) = length sizes.
Proof. revert l. induction sizes as [|s sizes IH]; intros l; simpl; [done|by rewrite IH]. Qed.

Lemma KFold_split_Ok sh (k : Z) (n_samples : nat) folds :
  KFold_split sh k n_samples = Ok folds ->
  2 <= k <= Z.of_nat n_samples /\ length folds = Z.to_nat k.
Proof.
  unfold KFold_split. intros Hf.
  destruct (Z.leb_spec k 1); [discriminate|].
  destruct (Z.ltb_spec (Z.of_nat n_samples) k); [discriminate|].
  injection Hf as <-. split; [lia|].
  by rewrite length_fmap, chunks_length, length_fmap, length_seq.
Qed.

Lemma KFold_split_too_many sh (k : Z) (n_samples : nat) :
  Z.of_nat n_samples < k -> KFold_split sh k n_samples = Raise ValueError.
Proof.
  intros Hk. unfold KFold_split.
  destruct (Z.leb_spec k 1); [done|].
  destruct (Z.ltb_spec (Z.of_nat n_samples) k); [done|lia].
Qed.

Section Folds.
Context `{Collaborators}.

Lemma fold_body_lengths config kfold_dataset n u na m sc fold m' sc' :
  fold_body config kfold_dataset n u na (m, sc) fold = Ok (m', sc') ->
  length (test_model_rmses sc') = S (length (test_model_rmses sc)) /\
  length (test_model_rmses_energy sc') = S (length (test_model_rmses_energy sc)) /\
  length (test_model_rmses_force sc') =
    ((if use_force config then 1 else 0) + length (test_model_rmses_force sc))%nat.
Proof.
  destruct fold as [train_index valid_index]. unfold fold_body. intros Hb.
  apply bind_Ok in Hb as (m1 & _ & Hb).
  apply bind_Ok in Hb as (y & _ & Hb).
  apply bind_Ok in Hb as (p & _ & Hb).
  apply bind_Ok in Hb as (e & _ & Hb).
  apply bind_Ok in Hb as (re & _ & Hb).
  apply bind_Ok in Hb as (rf & Hrf & Hb).
  injection Hb as <- <-. simpl. rewrite !length_app. simpl.
  split; [lia|]. split; [lia|].
  destruct (use_force config).
  - apply bind_Ok in Hrf as (pf & _ & Hrf). apply bind_Ok in Hrf as (ef & _ & Hrf).
    injection Hrf as <-. simpl. lia.
  - injection Hrf as <-. simpl. lia.
Qed.

Lemma fold_loop_lengths config kfold_dataset n u na folds m sc m' sc' :
  foldR (fold_body config kfold_dataset n u na) folds (m, sc) = Ok (m', sc') ->
  length (test_model_rmses sc') = (length folds + length (test_model_rmses sc))%nat /\
  length (test_model_rmses_energy sc') =
    (length folds + length (test_model_rmses_energy sc))%nat /\
  length (test_model_rmses_force sc') =
    ((if use_force config then length folds else 0)
     + length (test_model_rmses_force sc))%nat.
Proof.
  revert m sc. induction folds as [|fold folds IH]; intros m sc Hl.
  - injection Hl as <- <-. by destruct (use_force config).
  - simpl in Hl. apply bind_Ok in Hl as ([m1 sc1] & Hb & Hl).
    destruct (fold_body_lengths _ _ _ _ _ _ _ _ _ _ Hb) as (H1 & H2 & H3).
    destruct (IH _ _ Hl) as (I1 & I2 & I3).
    rewrite I1, I2, I3, H1, H2, H3. simpl.
    split; [lia|]. split; [lia|]. destruct (use_force config); lia.
Qed.

Lemma evaluate_candidate_too_many_folds config kfold_dataset hil n u na hp :
  Z.of_nat n < n_splits config ->
  exists e, evaluate_candidate config kfold_dataset hil n u na hp = Raise e.
Proof.
  intros Hk. unfold evaluate_candidate, candidate_scores.
  destruct (make_feature _ _ _) as [m1|e]; [|by eexists].
  rewrite bind_Ok_l.
  destruct (apply_weight _ _ _ _ _ _) as [m2|e]; [|by eexists].
  rewrite bind_Ok_l.
  destruct (x m2); [|by eexists].
  rewrite bind_Ok_l, KFold_split_too_many by done. by eexists.
Qed.

(** One pass of the loop body, read backwards. *)
Lemma fold_body_Ok config kfold_dataset n u na m sc train_index valid_index m' sc' :
  fold_body config kfold_dataset n u na (m, sc) (train_index, valid_index) = Ok (m', sc') ->
  let yt := make_yids_for_structure_ids train_index n u (use_force config) in
  let yv := make_yids_for_structure_ids valid_index n u (use_force config) in
  exists y p e pe ee rf,
    train m (yids_target yt) (target kfold_dataset) = Ok m' /\
    predict m' None = Ok y /\
    getitem y (yids_target yv) = Ok p /\
    getitem (target kfold_dataset) (yids_target yv) = Ok e /\
    getitem y (yids_energy yv) = Ok pe /\
    getitem (target kfold_dataset) (yids_energy yv) = Ok ee /\
    (if use_force config
     then exists pf ef,
            getitem y (yids_force yv) = Ok pf /\
            getitem (target kfold_dataset) (yids_force yv) = Ok ef /\
            rf = [rmse pf ef]
     else rf = []) /\
    test_model_rmses sc' = test_model_rmses sc ++ [rmse p e] /\
    test_model_rmses_energy sc' =
      test_model_rmses_energy sc ++ [(rmse (per_atom na pe) (per_atom na ee) * 1000)%float] /\
    test_model_rmses_force sc' = test_model_rmses_force sc ++ rf.
Proof.
  intros Hb yt yv. subst yt yv. unfold fold_body, fold_rmse_energy in Hb.
  apply bind_Ok in Hb as (m1 & Ht & Hb).
  apply bind_Ok in Hb as (y & Hy & Hb).
  apply bind_Ok in Hb as (p & Hp & Hb).
  apply bind_Ok in Hb as (e & He & Hb).
  apply bind_Ok in Hb as (re & Hre & Hb).
  apply bind_Ok in Hre as (pe & Hpe & Hre).
  apply bind_Ok in Hre as (ee & Hee & Hre). injection Hre as <-.
  apply bind_Ok in Hb as (rf & Hrf & Hb).
  injection Hb as <- <-. simpl.
  exists y, p, e, pe, ee, rf. repeat (split; [done|]).
  split; [|done].
  destruct (use_force config).
  - apply bind_Ok in Hrf as (pf & Hpf & Hrf). apply bind_Ok in Hrf as (ef & Hef & Hrf).
    injection Hrf as <-. by exists pf, ef.
  - by injection Hrf as <-.
Qed.

(** The whole loop over the folds, read backwards: the models it went
    through, each trained from the one before, and the scores it appended. *)
Lemma fold_loop_trace config kfold_dataset n u na folds m0 sc0 m' sc' :
  foldR (fold_body config kfold_dataset n u na) folds (m0, sc0) = Ok (m', sc') ->
  exists models lt le lf,
    length models = length folds /\
    last (m0 :: models) = Some m' /\
    test_model_rmses sc' = test_model_rmses sc0 ++ lt /\
    test_model_rmses_energy sc' = test_model_rmses_energy sc0 ++ le /\
    test_model_rmses_force sc' = test_model_rmses_force sc0 ++ lf /\
    length lt = length folds /\
    length le = length folds /\
    length lf = (if use_force config then length folds else 0%nat) /\
    forall (j : nat) train_index valid_index,
      folds !! j = Some (train_index, valid_index) ->
      let yt := make_yids_for_structure_ids train_index n u (use_force config) in
      let yv := make_yids_for_structure_ids valid_index n u (use_force config) in
      exists before after y p e pe ee,
        (m0 :: models) !! j = Some before /\
        models !! j = Some after /\
        train before (yids_target yt) (target kfold_dataset) = Ok after /\
        predict after None = Ok y /\
        getitem y (yids_target yv) = Ok p /\
        getitem (target kfold_dataset) (yids_target yv) = Ok e /\
        lt !! j = Some (rmse p e) /\
        getitem y (yids_energy yv) = Ok pe /\
        getitem (target kfold_dataset) (yids_energy yv) = Ok ee /\
        le !! j = Some (rmse (per_atom na pe) (per_atom na ee) * 1000)%float /\
        (use_force config = true ->
           exists pf ef,
             getitem y (yids_force yv) = Ok pf /\
             getitem (target kfold_dataset) (yids_force yv) = Ok ef /\
             lf !! j = Some (rmse pf ef)).
Proof.
  revert m0 sc0. induction folds as [|[tr va] folds IH]; intros m0 sc0 Hl.
  - injection Hl as <- <-. exists [], [], [], [].
    rewrite !app_nil_r. repeat (split; [done|]).
    split; [by destruct (use_force config)|]. intros j tr va Hj. discriminate.
  - simpl in Hl. apply bind_Ok in Hl as ([m1 sc1] & Hb & Hl).
    destruct (fold_body_Ok _ _ _ _ _ _ _ _ _ _ _ Hb)
      as (y & p & e & pe & ee & rf & Ht & Hy & Hp & He & Hpe & Hee & Hrf & S1 & S2 & S3).
    destruct (IH _ _ Hl)
      as (models & lt & le & lf & Hm & Hlast & L1 & L2 & L3 & N1 & N2 & N3 & Hall).
    exists (m1 :: models), (rmse p e :: lt),
      ((rmse (per_atom na pe) (per_atom na ee) * 1000)%float :: le), (rf ++ lf).
    split; [simpl; lia|]. split; [exact Hlast|].
    split; [by rewrite L1, S1, <- app_assoc|].
    split; [by rewrite L2, S2, <- app_assoc|].
    split; [by rewrite L3, S3, <- app_assoc|].
    split; [simpl; lia|]. split; [simpl; lia|].
    split.
    { rewrite length_app, N3. destruct (use_force config).
      - destruct Hrf as (pf & ef & _ & _ & ->). simpl. lia.
      - by rewrite Hrf. }
    intros [|j] tr' va' Hj.
    + injection Hj as <- <-. exists m0, m1, y, p, e, pe, ee.
      repeat (split; [done|]). intros Hf. revert Hrf. rewrite Hf.
      intros (pf & ef & Hpf & Hef & ->). by exists pf, ef.
    + destruct (Hall j tr' va' Hj)
        as (before & after & y' & p' & e' & pe' & ee' & Hb' & Ha' & Ht' & Hy' & Hp' & He'
            & Hlt & Hpe' & Hee' & Hle & Hforce).
      exists before, after, y', p', e', pe', ee'.
      repeat (split; [done|]). intros Hf.
      destruct (Hforce Hf) as (pf & ef & Hpf & Hef & Hlf).
      exists pf, ef. split; [done|]. split; [done|].
      rewrite Hf in Hrf. destruct Hrf as (pf0 & ef0 & _ & _ & ->). exact Hlf.
Qed.

(** A candidate's loop, read backwards: what was built before the folds, the
    folds, and the trace of the loop over them. *)
Lemma candidate_scores_trace config kfold_dataset hil n u na hp cand sc :
  candidate_scores config kfold_dataset hil n u na hp = Ok (cand, sc) ->
  exists m1 m2 folds models,
    make_feature (arrange_model_from_hyper_params hp config)
      (structures kfold_dataset) true = Ok m1 /\
    apply_weight m1 (energy_weight config) (force_weight config)
      (high_energy_weights config) hil n = Ok m2 /\
    is_Some (x m2) /\
    KFold_split shuffled (n_splits config) n = Ok folds /\
    length models = length folds /\
    last (m2 :: models) = Some cand /\
    length (test_model_rmses sc) = length folds /\
    length (test_model_rmses_energy sc) = length folds /\
    length (test_model_rmses_force sc) =
      (if use_force config then length folds else 0%nat) /\
    forall (j : nat) train_index valid_index,
      folds !! j = Some (train_index, valid_index) ->
      let yt := make_yids_for_structure_ids train_index n u (use_force config) in
      let yv := make_yids_for_structure_ids valid_index n u (use_force config) in
      exists before after y p e pe ee,
        (m2 :: models) !! j = Some before /\
        models !! j = Some after /\
        train before (yids_target yt) (target kfold_dataset) = Ok after /\
        predict after None = Ok y /\
        getitem y (yids_target yv) = Ok p /\
        getitem (target kfold_dataset) (yids_target yv) = Ok e /\
        test_model_rmses sc !! j = Some (rmse p e) /\
        getitem y (yids_energy yv) = Ok pe /\
        getitem (target kfold_dataset) (yids_energy yv) = Ok ee /\
        test_model_rmses_energy sc !! j
          = Some (rmse (per_atom na pe) (per_atom na ee) * 1000)%float /\
        (use_force config = true ->
           exists pf ef,
             getitem y (yids_force yv) = Ok pf /\
             getitem (target kfold_dataset) (yids_force yv) = Ok ef /\
             test_model_rmses_force sc !! j = Some (rmse pf ef)).
Proof.
  unfold candidate_scores. intros Hc.
  apply bind_Ok in Hc as (m1 & H1 & Hc).
  apply bind_Ok in Hc as (m2 & H2 & Hc).
  apply bind_Ok in Hc as (? & Hx & Hc).
  apply bind_Ok in Hc as (folds & Hf & Hl).
  destruct (fold_loop_trace _ _ _ _ _ _ _ _ _ _ Hl)
    as (models & lt & le & lf & Hm & Hlast & L1 & L2 & L3 & N1 & N2 & N3 & Hall).
  simpl in L1, L2, L3. subst lt le lf.
  exists m1, m2, folds, models. repeat (split; [done|]).
  split; [destruct (x m2); [by eexists|discriminate]|].
  repeat (split; [done|]). exact Hall.
Qed.

(** With two data points or more [statistics.stdev] fails exactly on data
    that is not finite. *)
Lemma stdev_two (l : list float) :
  (2 <= length l)%nat ->
  stdev stdev_value l =
    if forallb is_finite l then Ok (stdev_value l) else Raise AttributeError.
Proof.
  intros Hl. unfold stdev. by destruct (Nat.ltb_spec (length l) 2); [lia|].
Qed.

Lemma stdev_Ok (l : list float) v :
  stdev stdev_value l = Ok v -> forallb is_finite l = true.
Proof.
  unfold stdev. destruct (_ <? _)%nat; [discriminate|]. by destruct (forallb _ _).
Qed.

(** An evaluated candidate, read backwards: its scores, all finite. *)
Lemma evaluate_candidate_Ok config kfold_dataset hil n u na hp cand s :
  evaluate_candidate config kfold_dataset hil n u na hp = Ok (cand, s) ->
  exists sc,
    candidate_scores config kfold_dataset hil n u na hp = Ok (cand, sc) /\
    s = average (test_model_rmses sc) /\
    forallb is_finite (test_model_rmses sc) = true /\
    forallb is_finite (test_model_rmses_energy sc) = true /\
    (use_force config = true -> forallb is_finite (test_model_rmses_force sc) = true).
Proof.
  unfold evaluate_candidate. intros He.
  apply bind_Ok in He as ([m sc] & Hc & He).
  apply bind_Ok in He as (? & H1 & He).
  apply bind_Ok in He as (? & H2 & He).
  apply bind_Ok in He as (? & H3 & He).
  injection He as <- <-. exists sc. split; [done|]. split; [done|].
  split; [by apply (stdev_Ok _ _ H1)|]. split; [by apply (stdev_Ok _ _ H2)|].
  intros Hf. rewrite Hf in H3. by apply (stdev_Ok _ _ H3).
Qed.

End Folds.

(** ** Reading a search backwards *)

Lemma foldR_app {S A} (body : S -> A -> result S) (l1 l2 : list A) (s : S) :
  foldR body (l1 ++ l2) s = (s' ← foldR body l1 s; foldR body l2 s').
Proof.
  revert s. induction l1 as [|a l1 IH]; intros s; [reflexivity|].
  simpl. destruct (body s a) as [s1|e]; [|reflexivity]. simpl. apply IH.
Qed.

Lemma Forall2_of_each {A B} (f : A -> result B) (l : list A) :
  (forall a, a ∈ l -> exists b, f a = Ok b) ->
  exists bs, Forall2 (fun a b => f a = Ok b) l bs.
Proof.
  induction l as [|a l IH]; intros Hall; [by exists []|].
  destruct (Hall a) as [b Hb]; [by left|].
  destruct IH as [bs Hbs]; [intros a' Ha'; apply Hall; by right|].
  exists (b :: bs). by constructor.
Qed.

Section SearchBackwards.
Context `{Collaborators}.
Variables (config : Config) (kfold_dataset : Dataset)
          (hil : option (list (list Z))) (n : nat) (u : Z) (na : nat).

Local Abbreviation eval := (evaluate_candidate config kfold_dataset hil n u na).
Local Abbreviation body := (search_body config kfold_dataset hil n u na).

Lemma search_body_Ok st hp st1 :
  body st hp = Ok st1 -> exists ms, eval hp = Ok ms.
Proof.
  unfold search_body. intros Hb.
  apply bind_Ok in Hb as (ms & He & _). by exists ms.
Qed.

(** A pass that completes has evaluated every point it went over. *)
Lemma search_loop_Ok pts st st' :
  foldR body pts st = Ok st' ->
  forall hp, hp ∈ pts -> exists ms, eval hp = Ok ms.
Proof.
  revert st. induction pts as [|hp pts IH]; intros st Hl hp' Hin.
  - by apply elem_of_nil in Hin.
  - simpl in Hl. apply bind_Ok in Hl as (st1 & Hb & Hl).
    apply elem_of_cons in Hin as [->|Hin].
    + by apply (search_body_Ok _ _ _ Hb).
    + by apply (IH _ Hl).
Qed.

End SearchBackwards.

(** Reading a successful search, once the shape bookkeeping is known. *)
Lemma cross_validate_Ok `{Collaborators}
    config param_grid kfold_dataset hil u na m :
  let n := length (structures kfold_dataset) in
  derive_force_id_unit (length (target kfold_dataset)) n = Ok u ->
  atoms_in_first_structure (structures kfold_dataset) = Ok na ->
  cross_validate config param_grid kfold_dataset hil = Ok m ->
  exists evals i cand s,
    Forall2 (fun hp ms => evaluate_candidate config kfold_dataset hil n u na hp = Ok ms)
      (ParameterGrid param_grid) evals /\
    earliest_best evals i cand s /\
    m = set_x cand None.
Proof.
  intros n Hu Hna Hcv. pose proof Hcv as Hcv0.
  rewrite (cross_validate_unfold_new _ _ _ _ _ _ Hu Hna) in Hcv.
  apply bind_Ok in Hcv as (pts & Hpts & Hcv).
  apply ParameterGrid_new_Ok in Hpts as [-> _].
  apply bind_Ok in Hcv as (st & Hl & Hcv).
  pose proof (search_loop_Ok _ _ _ _ _ _ _ _ _ Hl) as Hall.
  destruct (Forall2_of_each
              (evaluate_candidate config kfold_dataset hil n u na)
              (ParameterGrid param_grid) Hall) as [evals HF].
  destruct evals as [|[m0 s0] rest].
  { apply Forall2_nil_inv_r in HF. rewrite HF in Hl. injection Hl as <-. discriminate. }
  assert (Hlt : (s0 <? 1e10)%float = true).
  { destruct (s0 <? 1e10)%float eqn:Hlt; [done|].
    inversion HF as [|hp0 ms pts evals' He0 HF' Hpts]; subst.
    rewrite <- Hpts in Hl. simpl in Hl.
    rewrite (search_body_not_less _ _ _ _ _ _ _ _ _ He0) in Hl by done. discriminate. }
  destruct (cross_validate_scan config param_grid kfold_dataset hil u na
              ((m0, s0) :: rest) m0 s0 rest Hu Hna HF eq_refl Hlt)
    as (i & cand & s & Hok & Hbest).
  rewrite Hok in Hcv0. injection Hcv0 as <-.
  by exists ((m0, s0) :: rest), i, cand, s.
Qed.

(** C1. The retained result changes only when the candidate's mean combined
    RMSE is strictly below the retained one: if it is not below, or ties with
    it, the retained model, parameters and score stay as they are; if it is
    below, they become the candidate's snapshot, its parameters and its score.
    For any four candidates whose mean scores are 5.0, 6.0, 4.0 and 4.0 in grid
    order, [cross_validate] returns the snapshot of the third: the first 4.0.
    For any grid whose candidates all evaluate and whose first candidate is
    below the sentinel, it returns the snapshot of the earliest candidate of
    lowest score. *)
Theorem retained_only_on_strict_improvement `{Collaborators} :
  (forall st cand hp s,
      let st' := compare_and_retain st cand hp s in
      ((s <? retained_model_rmse st)%float = false ->
         retained_model st' = retained_model st /\
         retained_model_params st' = retained_model_params st /\
         retained_model_rmse st' = retained_model_rmse st) /\
      ((s =? retained_model_rmse st)%float = true ->
         retained_model st' = retained_model st /\
         retained_model_params st' = retained_model_params st /\
         retained_model_rmse st' = retained_model_rmse st) /\
      ((s <? retained_model_rmse st)%float = true ->
         retained_model st' = Some (set_x cand None) /\
         retained_model_params st' = Some hp /\
         retained_model_rmse st' = s)) /\
  (forall config param_grid kfold_dataset hil u na hp0 hp1 hp2 hp3 m0 m1 m2 m3,
      let n := length (structures kfold_dataset) in
      derive_force_id_unit (length (target kfold_dataset)) n = Ok u ->
      atoms_in_first_structure (structures kfold_dataset) = Ok na ->
      ParameterGrid param_grid = [hp0; hp1; hp2; hp3] ->
      evaluate_candidate config kfold_dataset hil n u na hp0 = Ok (m0, 5%float) ->
      evaluate_candidate config kfold_dataset hil n u na hp1 = Ok (m1, 6%float) ->
      evaluate_candidate config kfold_dataset hil n u na hp2 = Ok (m2, 4%float) ->
      evaluate_candidate config kfold_dataset hil n u na hp3 = Ok (m3, 4%float) ->
      cross_validate config param_grid kfold_dataset hil = Ok (set_x m2 None)) /\
  (forall config param_grid kfold_dataset hil u na evals m0 s0 rest,
      let n := length (structures kfold_dataset) in
      derive_force_id_unit (length (target kfold_dataset)) n = Ok u ->
      atoms_in_first_structure (structures kfold_dataset) = Ok na ->
      Forall2 (fun hp ms => evaluate_candidate config kfold_dataset hil n u na hp = Ok ms)
        (ParameterGrid param_grid) evals ->
      evals = (m0, s0) :: rest ->
      (s0 <? 1e10)%float = true ->
      exists i m s,
        cross_validate config param_grid kfold_dataset hil = Ok (set_x m None) /\
        earliest_best evals i m s).
Proof.
  split; [|split].
  - intros st cand hp s st'. subst st'. repeat split.
    1-3: rewrite compare_and_retain_not_less by done; done.
    1-3: rewrite compare_and_retain_not_less by (by apply float_tie_not_less); done.
    1-3: rewrite compare_and_retain_less by done; done.
  - intros config param_grid kfold_dataset hil u na hp0 hp1 hp2 hp3 m0 m1 m2 m3 n
      Hu Ha Hg H0 H1 H2 H3.
    rewrite (cross_validate_unfold _ _ _ _ _ _ Hu Ha) by (by rewrite Hg).
    rewrite Hg. simpl foldR.
    rewrite (search_body_less _ _ _ _ _ _ _ _ _ H0) by reflexivity. rewrite bind_Ok_l.
    rewrite (search_body_not_less _ _ _ _ _ _ _ _ _ H1) by reflexivity. simpl.
    rewrite (search_body_less _ _ _ _ _ _ _ _ _ H2) by reflexivity. rewrite bind_Ok_l.
    rewrite (search_body_not_less _ _ _ _ _ _ _ _ _ H3) by reflexivity. reflexivity.
  - intros config param_grid kfold_dataset hil u na evals m0 s0 rest n Hu Ha HF He Hlt.
    by eapply cross_validate_scan.
Qed.

(** ** Reading a successful run of [train_and_eval] *)

Lemma train_and_eval_inv `{Collaborators} config kfold_dataset test_dataset yids_for_kfold r :
  train_and_eval config kfold_dataset test_dataset yids_for_kfold = Ok r ->
  let n := length (structures kfold_dataset) in
  exists u na hil target_v g m0 m1 m2 m3 yk yt,
    derive_force_id_unit (length (target kfold_dataset)) n = Ok u /\
    atoms_in_first_structure (structures kfold_dataset) = Ok na /\
    high_energy_override config n test_dataset u yids_for_kfold
      (apply_dataset_weights config n (target kfold_dataset)) = Ok (hil, target_v) /\
    make_param_grid config = Ok g /\
    select_retained_model config g
      {| structures := structures kfold_dataset; target := target_v |} hil = Ok m0 /\
    make_feature m0 (structures kfold_dataset) true = Ok m1 /\
    apply_weight m1 (energy_weight config) (force_weight config)
      (high_energy_weights config) hil n = Ok m2 /\
    train m2 (seqZ 0 (Z.of_nat (length target_v))) target_v = Ok m3 /\
    predict m3 None = Ok yk /\
    predict m3 (Some (structures test_dataset)) = Ok yt /\
    r = {| trained_model := m3;
           kfold_target := target_v;
           high_energy_index_list := hil;
           kfold_report :=
             score_pool config na "kfold_energy.out" yk
               {| structures := structures kfold_dataset; target := target_v |};
           test_report := score_pool config na "test_energy.out" yt test_dataset |}.
Proof.
  intros Hr n. unfold train_and_eval in Hr. fold n in Hr.
  apply bind_Ok in Hr as (u & Hu & Hr).
  apply bind_Ok in Hr as (na & Hna & Hr).
  apply bind_Ok in Hr as ([hil target_v] & Ho & Hr).
  apply bind_Ok in Hr as (g & Hg & Hr).
  apply bind_Ok in Hr as (m0 & Hm0 & Hr).
  apply bind_Ok in Hr as (m1 & Hm1 & Hr).
  apply bind_Ok in Hr as (m2 & Hm2 & Hr).
  apply bind_Ok in Hr as (m3 & Hm3 & Hr).
  apply bind_Ok in Hr as (yk & Hyk & Hr).
  apply bind_Ok in Hr as (yt & Hyt & Hr).
  simpl in *.
  exists u, na, hil, target_v, g, m0, m1, m2, m3, yk, yt.
  repeat (split; [assumption|]). congruence.
Qed.

(** ** Fast path *)

Lemma dont_cross_validate_spec (g : ParamGrid) :
  dont_cross_validate g = true <->
  length (grid_cutoff_radius g) = 1%nat /\
  length (grid_gaussian_params2_num g) = 1%nat /\
  length (grid_alpha g) = 1%nat.
Proof.
  unfold dont_cross_validate. simpl.
  rewrite !andb_true_iff, !Nat.eqb_eq. tauto.
Qed.

Lemma ParameterGrid_single (g : ParamGrid) :
  dont_cross_validate g = true ->
  exists a r k,
    grid_alpha g = [a] /\ grid_cutoff_radius g = [r] /\ grid_gaussian_params2_num g = [k] /\
    ParameterGrid g =
      [ {| hp_alpha := a; hp_cutoff_radius := r; hp_gaussian_params2_num := k |} ].
Proof.
  rewrite dont_cross_validate_spec. intros (Hr & Hk & Ha).
  unfold ParameterGrid.
  destruct (grid_alpha g) as [|a [|]]; try discriminate.
  destruct (grid_cutoff_radius g) as [|r [|]]; try discriminate.
  destruct (grid_gaussian_params2_num g) as [|k [|]]; try discriminate.
  by exists a, r, k.
Qed.

Lemma select_retained_model_cases `{Collaborators}
    config param_grid kfold_dataset hil :
  (dont_cross_validate param_grid = true <->
     length (grid_cutoff_radius param_grid) = 1%nat /\
     length (grid_gaussian_params2_num param_grid) = 1%nat /\
     length (grid_alpha param_grid) = 1%nat) /\
  (dont_cross_validate param_grid = true ->
     exists hyper_params,
       ParameterGrid param_grid = [hyper_params] /\
       select_retained_model config param_grid kfold_dataset hil =
         Ok (arrange_model_from_hyper_params hyper_params config)) /\
  (dont_cross_validate param_grid = false ->
     select_retained_model config param_grid kfold_dataset hil =
       cross_validate config param_grid kfold_dataset hil).
Proof.
  split; [apply dont_cross_validate_spec|]. split.
  - intros Hd. destruct (ParameterGrid_single _ Hd) as (a & r & k & _ & _ & _ & Hg).
    eexists. split; [exact Hg|].
    unfold select_retained_model, ParameterGrid_first.
    by rewrite Hd, ParameterGrid_new_points, Hg by (by rewrite Hg).
  - intros Hd. unfold select_retained_model. by rewrite Hd.
Qed.


(** ** The parameter grid *)

Lemma arange_elem (start stop v : Z) :
  v ∈ arange start stop 5 <-> exists k, 0 <= k /\ v = start + 5 * k /\ v < stop.
Proof.
  unfold arange. rewrite list_elem_of_fmap.
  pose proof (Z.div_mod (start - stop) 5 ltac:(lia)) as Hdm.
  pose proof (Z.mod_pos_bound (start - stop) 5 ltac:(lia)) as Hmb.
  split.
  - intros (k & -> & Hk). apply elem_of_seqZ in Hk. exists k. lia.
  - intros (k & Hk & -> & Hlt). exists k. split; [done|]. apply elem_of_seqZ. lia.
Qed.

Lemma arange_lookup (start stop : Z) (i : nat) :
  arange start stop 5 !! i =
    if bool_decide (start + 5 * Z.of_nat i < stop) then Some (start + 5 * Z.of_nat i)
    else None.
Proof.
  unfold arange. rewrite list_lookup_fmap.
  pose proof (Z.div_mod (start - stop) 5 ltac:(lia)) as Hdm.
  pose proof (Z.mod_pos_bound (start - stop) 5 ltac:(lia)) as Hmb.
  case_bool_decide as Hlt.
  - rewrite lookup_seqZ_lt by lia. simpl. f_equal; lia.
  - by rewrite lookup_seqZ_ge by lia.
Qed.

Lemma linspace_length start stop num l :
  linspace start stop num = Ok l -> 0 <= num /\ length l = Z.to_nat num.
Proof.
  unfold linspace. destruct (Z.ltb_spec num 0) as [|Hn]; [discriminate|].
  intros [= <-]. split; [done|].
  destruct (1 <? num), (0 <? num - 1); try destruct (_ =? _)%float;
    rewrite ?length_insert, !length_fmap, length_seqZ; reflexivity.
Qed.

Lemma linspace_single start stop :
  linspace start stop 1 = Ok [(0 * (stop - start) + start)%float].
Proof. reflexivity. Qed.

Lemma linspace_last start stop num l :
  linspace start stop num = Ok l -> 1 < num ->
  l !! Z.to_nat (num - 1) = Some stop.
Proof.
  intros Hl Hn. pose proof (linspace_length _ _ _ _ Hl) as [_ Hlen].
  unfold linspace in Hl. destruct (Z.ltb_spec num 0) as [|_]; [lia|].
  destruct (Z.ltb_spec 1 num) as [_|]; [|lia].
  injection Hl as <-. rewrite length_insert in Hlen.
  apply list_lookup_insert_eq. lia.
Qed.

Lemma linspace_inner start stop num l (i : nat) :
  linspace start stop num = Ok l -> 1 < num -> Z.of_nat i < num - 1 ->
  let delta := (stop - start)%float in
  let step := (delta / Z2float (num - 1))%float in
  l !! i = Some ((if (step =? 0)%float
                  then Z2float (Z.of_nat i) / Z2float (num - 1) * delta
                  else Z2float (Z.of_nat i) * step) + start)%float.
Proof.
  intros Hl Hn Hi delta step. unfold linspace in Hl.
  destruct (Z.ltb_spec num 0) as [|_]; [lia|].
  destruct (Z.ltb_spec 1 num) as [_|]; [|lia].
  destruct (Z.ltb_spec 0 (num - 1)) as [_|]; [|lia].
  injection Hl as <-. fold delta step.
  rewrite list_lookup_insert_ne by lia.
  destruct (step =? 0)%float;
    rewrite !list_lookup_fmap, lookup_seqZ_lt by lia; simpl;
    by replace (0 + Z.of_nat i) with (Z.of_nat i) by lia.
Qed.

(** C3, as amended. When [int((max - min) / 2) + 1] is negative,
    [make_param_grid] raises [ValueError]. When it is not, and neither it nor
    the number of Gaussian counts exceeds 65536 (sizes any platform
    allocates), with the count bounds in the range of [int64], a grid is
    returned. Whenever a grid is returned, the radius dimension has exactly
    that many candidates: the single candidate [0 * (max - min) + min], or,
    for two and more, [i * step + min] with
    [step = (max - min) / (count - 1)] and the last one exactly [max]; the
    regularization dimension is the configured list; and, the count bounds
    being in the range of [int64], the count dimension holds [gmin + 5 * k]
    for every [k >= 0] with [gmin + 5 * k < gmax + 5], in increasing order. *)
Theorem make_param_grid_dimensions (config : Config) (num : Z) :
  cutoff_radius_num config = Ok num ->
  let lo := cutoff_radius_min config in
  let hi := cutoff_radius_max config in
  let delta := (hi - lo)%float in
  let step := (delta / Z2float (num - 1))%float in
  let gmin := gaussian_params2_num_min config in
  let gmax := gaussian_params2_num_max config in
  (num < 0 -> make_param_grid config = Raise ValueError) /\
  (0 <= num <= 65536 -> (gmax - gmin + 9) `div` 5 <= 65536 ->
   int64 gmin -> int64 (gmax + 5) ->
   exists g, make_param_grid config = Ok g) /\
  (forall g, make_param_grid config = Ok g ->
     0 <= num /\
     length (grid_cutoff_radius g) = Z.to_nat num /\
     (num = 1 -> grid_cutoff_radius g = [(0 * delta + lo)%float]) /\
     (1 < num ->
        grid_cutoff_radius g !! Z.to_nat (num - 1) = Some hi /\
        forall i : nat, Z.of_nat i < num - 1 ->
          grid_cutoff_radius g !! i =
            Some ((if (step =? 0)%float
                   then Z2float (Z.of_nat i) / Z2float (num - 1) * delta
                   else Z2float (Z.of_nat i) * step) + lo)%float) /\
     grid_alpha g = alpha config /\
     (int64 gmin -> int64 (gmax + 5) ->
        (forall i : nat,
           grid_gaussian_params2_num g !! i =
             if bool_decide (gmin + 5 * Z.of_nat i < gmax + 5)
             then Some (gmin + 5 * Z.of_nat i) else None) /\
        (forall v, v ∈ grid_gaussian_params2_num g <->
                   exists k, 0 <= k /\ v = gmin + 5 * k /\ v < gmax + 5) /\
        Forall int64 (grid_gaussian_params2_num g))).
Proof.
  intros Hnum lo hi delta step gmin gmax. unfold make_param_grid. rewrite Hnum, bind_Ok_l.
  fold lo hi gmin gmax. split; [|split].
  - intros Hneg. unfold linspace. destruct (Z.ltb_spec num 0); [done|lia].
  - intros Hpos _ _ _. destruct (linspace lo hi num) as [l|e] eqn:Hl; [by eexists|].
    unfold linspace in Hl. destruct (Z.ltb_spec num 0); [lia|discriminate].
  - intros g Hg. apply bind_Ok in Hg as (l & Hl & Hg). injection Hg as <-. simpl.
    split. { unfold linspace in Hl. destruct (Z.ltb_spec num 0); [discriminate|lia]. }
    split; [by apply (linspace_length _ _ _ _ Hl)|].
    split; [intros ->; rewrite linspace_single in Hl; by injection Hl as <-|].
    split.
    { intros Hn. split; [by apply (linspace_last _ _ _ _ Hl)|].
      intros i Hi. by apply (linspace_inner _ _ _ _ _ Hl). }
    split; [reflexivity|].
    intros Hmin Hmax.
    split; [intros i; apply arange_lookup|].
    split; [intros v; apply arange_elem|].
    apply Forall_forall. intros v Hv.
    apply arange_elem in Hv as (k & Hk & -> & Hlt).
    unfold int64 in *. lia.
Qed.

(** ** Energy score *)


(** ** Scaling selected rows *)

Lemma mapR_Ok {A B} (f : A -> result B) l bs :
  mapR f l = Ok bs -> Forall2 (fun a b => f a = Ok b) l bs.
Proof.
  revert bs. induction l as [|a l IH]; intros bs Hm.
  - injection Hm as <-. constructor.
  - simpl in Hm. apply bind_Ok in Hm as (b & Hb & Hm).
    apply bind_Ok in Hm as (bs' & Hbs & Hm). injection Hm as <-.
    constructor; [done|by apply IH].
Qed.

Lemma mapR_Raise {A B} (f : A -> result B) l e :
  mapR f l = Raise e -> exists a, a ∈ l /\ f a = Raise e.
Proof.
  induction l as [|a l IH]; intros Hm; [discriminate|].
  simpl in Hm. destruct (f a) as [b|e'] eqn:Hb.
  - rewrite bind_Ok_l in Hm. destruct (mapR f l) as [bs|e'] eqn:Hbs; [discriminate|].
    injection Hm as <-. destruct (IH eq_refl) as (a' & Hin & Ha').
    exists a'. split; [by right|done].
  - injection Hm as <-. exists a. split; [by left|done].
Qed.

Lemma norm_index_Raise len i e :
  norm_index len i = Raise e ->
  e = IndexError /\ ~ (- Z.of_nat len <= i < Z.of_nat len).
Proof.
  unfold norm_index. intros Hn.
  destruct (Z.leb_spec 0 i), (Z.ltb_spec i (Z.of_nat len)); simpl in Hn; try discriminate.
  all: destruct (Z.leb_spec (- Z.of_nat len) i), (Z.ltb_spec i 0); simpl in Hn;
    try discriminate; injection Hn as <-; (split; [done|lia]).
Qed.

Section ScaleRows.
Variables (a : list float) (w : float).

Local Abbreviation step :=
  (fun (acc : list float) (n : nat) =>
     match a !! n with
     | Some v => <[n := (v * w)%float]> acc
     | None => acc
     end).

Lemma scale_fold_length ns acc : length (fold_left step ns acc) = length acc.
Proof.
  revert acc. induction ns as [|n ns IH]; intros acc; [done|].
  simpl. rewrite IH. destruct (a !! n); [by rewrite length_insert|done].
Qed.

Lemma scale_fold_lookup ns acc i :
  length acc = length a ->
  fold_left step ns acc !! i =
    if decide (i ∈ ns) then (fun v => (v * w)%float) <$> a !! i else acc !! i.
Proof.
  revert acc. induction ns as [|n ns IH]; intros acc Hlen.
  - simpl. destruct (decide (i ∈ [])) as [Hin|_]; [by apply elem_of_nil in Hin|done].
  - simpl. rewrite IH by (destruct (a !! n); [by rewrite length_insert|done]).
    destruct (decide (i ∈ ns)) as [Hin|Hnin].
    + destruct (decide (i ∈ n :: ns)) as [_|Hn]; [done|]. exfalso. apply Hn. by right.
    + destruct (decide (i = n)) as [->|Hne].
      * destruct (decide (n ∈ n :: ns)) as [_|Hn]; [|exfalso; apply Hn; by left].
        destruct (a !! n) as [v|] eqn:Hv; simpl.
        -- apply list_lookup_insert_eq. rewrite Hlen. by apply lookup_lt_Some in Hv.
        -- apply lookup_ge_None. rewrite Hlen. by apply lookup_ge_None in Hv.
      * destruct (decide (i ∈ n :: ns)) as [Hin|_].
        { apply elem_of_cons in Hin as [?|?]; done. }
        destruct (a !! n); [by apply list_lookup_insert_ne|done].
Qed.

End ScaleRows.

Lemma scale_rows_Ok a ids w a' :
  scale_rows a ids w = Ok a' ->
  length a' = length a /\
  forall i : nat,
    ((exists j, j ∈ ids /\ norm_index (length a) j = Ok i) ->
       a' !! i = (fun v => (v * w)%float) <$> a !! i) /\
    ((forall j, j ∈ ids -> norm_index (length a) j <> Ok i) -> a' !! i = a !! i).
Proof.
  unfold scale_rows. intros Hs. apply bind_Ok in Hs as (ns & Hns & Hs).
  injection Hs as <-. apply mapR_Ok in Hns.
  split; [apply scale_fold_length|]. intros i.
  rewrite scale_fold_lookup by done. split.
  - intros (j & Hj & Hn).
    destruct (decide (i ∈ ns)) as [_|Hnin]; [done|]. exfalso. apply Hnin.
    apply list_elem_of_lookup in Hj as [p Hp].
    destruct (Forall2_lookup_l _ _ _ _ _ Hns Hp) as (n & Hn' & Hjn).
    apply list_elem_of_lookup. exists p. congruence.
  - intros Hno. destruct (decide (i ∈ ns)) as [Hin|_]; [|done]. exfalso.
    apply list_elem_of_lookup in Hin as [p Hp].
    destruct (Forall2_lookup_r _ _ _ _ _ Hns Hp) as (j & Hj & Hji).
    apply (Hno j); [|done]. apply list_elem_of_lookup. by exists p.
Qed.

Lemma scale_rows_Raise a ids w e :
  scale_rows a ids w = Raise e ->
  e = IndexError /\
  exists j, j ∈ ids /\ ~ (- Z.of_nat (length a) <= j < Z.of_nat (length a)).
Proof.
  unfold scale_rows. intros Hs.
  destruct (mapR _ ids) as [ns|e'] eqn:Hns; [discriminate|]. injection Hs as <-.
  apply mapR_Raise in Hns as (j & Hj & Hn).
  apply norm_index_Raise in Hn as [-> Hr]. split; [done|]. by exists j.
Qed.

Lemma scale_high_energy_rows_Ok index_list weights t t' :
  scale_high_energy_rows index_list weights t = Ok t' ->
  length index_list = length weights /\
  length t' = length t /\
  (forall i : nat,
     (forall ids j, ids ∈ index_list -> j ∈ ids -> norm_index (length t) j <> Ok i) ->
     t' !! i = t !! i) /\
  (forall (i k : nat) ids w,
     index_list !! k = Some ids -> weights !! k = Some w ->
     (exists j, j ∈ ids /\ norm_index (length t) j = Ok i) ->
     (forall (k' : nat) ids' j, k' <> k -> index_list !! k' = Some ids' -> j ∈ ids' ->
        norm_index (length t) j <> Ok i) ->
     t' !! i = (fun v => (v * w)%float) <$> t !! i).
Proof.
  revert weights t. induction index_list as [|ids0 index_list IH]; intros weights t Hs.
  - destruct weights; [|discriminate]. injection Hs as <-.
    split; [done|]. split; [done|]. split; [done|]. intros i k ids w Hk. discriminate.
  - destruct weights as [|w0 weights]; [discriminate|]. simpl in Hs.
    apply bind_Ok in Hs as (t1 & H1 & Hs).
    destruct (scale_rows_Ok _ _ _ _ H1) as [Hlen1 Hrow1].
    destruct (IH _ _ Hs) as (Hlen & Hlen' & Hframe & Hone).
    rewrite Hlen1 in *.
    split; [simpl; lia|]. split; [done|]. split.
    + intros i Hno. rewrite Hframe.
      * apply Hrow1. intros j Hj. apply (Hno ids0); [by left|done].
      * intros ids j Hids Hj. apply (Hno ids); [by right|done].
    + intros i k ids w Hk Hw Hsel Hother. destruct k as [|k].
      * injection Hk as <-. injection Hw as <-. rewrite Hframe.
        -- by apply Hrow1.
        -- intros ids j Hids Hj. apply list_elem_of_lookup in Hids as [k' Hk'].
           by apply (Hother (S k') ids j).
      * simpl in Hk, Hw. rewrite (Hone i k ids w Hk Hw Hsel).
        -- f_equal. apply Hrow1. intros j Hj. by apply (Hother 0%nat ids0 j).
        -- intros k' ids' j Hne Hk' Hj. apply (Hother (S k') ids' j); [lia|done..].
Qed.

Lemma scale_high_energy_rows_Raise index_list weights t e :
  length index_list = length weights ->
  scale_high_energy_rows index_list weights t = Raise e ->
  e = IndexError /\
  exists ids j, ids ∈ index_list /\ j ∈ ids /\
    ~ (- Z.of_nat (length t) <= j < Z.of_nat (length t)).
Proof.
  revert weights t. induction index_list as [|ids0 index_list IH]; intros weights t Hlen Hs.
  - destruct weights; [discriminate|discriminate].
  - destruct weights as [|w0 weights]; [discriminate|]. simpl in Hs.
    destruct (scale_rows t ids0 w0) as [t1|e1] eqn:H1.
    + rewrite bind_Ok_l in Hs. destruct (scale_rows_Ok _ _ _ _ H1) as [Hlen1 _].
      destruct (IH _ _ ltac:(by injection Hlen) Hs) as (-> & ids & j & Hids & Hj & Hr).
      split; [done|]. exists ids, j. rewrite Hlen1 in Hr. split; [by right|done].
    + injection Hs as <-. apply scale_rows_Raise in H1 as (-> & j & Hj & Hr).
      split; [done|]. exists ids0, j. split; [by left|done].
Qed.

(** Which row an index names: row [i] directly, or counting from the end. *)
Lemma norm_index_Ok_iff (len i : nat) (j : Z) :
  (i < len)%nat ->
  norm_index len j = Ok i <-> j = Z.of_nat i \/ j = Z.of_nat i - Z.of_nat len.
Proof.
  intros Hi. unfold norm_index.
  destruct (Z.leb_spec 0 j), (Z.ltb_spec j (Z.of_nat len)); simpl.
  1: split; [intros [= <-]; lia|intros [->| ->]; [f_equal; lia|lia]].
  all: destruct (Z.leb_spec (- Z.of_nat len) j), (Z.ltb_spec j 0); simpl.
  all: try (split; [discriminate|lia]).
  all: split; [intros [= <-]; lia|intros [->| ->]; [lia|f_equal; lia]].
Qed.

Lemma scale_rows_value a ids w a' :
  scale_rows a ids w = Ok a' ->
  length a' = length a /\
  forall (i : nat) v, a !! i = Some v ->
    a' !! i =
      Some (if bool_decide (Z.of_nat i ∈ ids \/ Z.of_nat i - Z.of_nat (length a) ∈ ids)
            then (v * w)%float else v).
Proof.
  intros Hs. destruct (scale_rows_Ok _ _ _ _ Hs) as [Hlen Hrow].
  split; [done|]. intros i v Hv.
  assert (Hi : (i < length a)%nat) by by eapply lookup_lt_Some.
  destruct (Hrow i) as [Hsel Hframe].
  destruct (bool_decide_reflect
              (Z.of_nat i ∈ ids \/ Z.of_nat i - Z.of_nat (length a) ∈ ids)) as [Hin|Hout].
  - rewrite Hsel, Hv; [done|].
    destruct Hin as [Hin|Hin]; eexists; (split; [exact Hin|]);
      apply norm_index_Ok_iff; [done|by left|done|by right].
  - rewrite Hframe; [done|]. intros j Hj Hn.
    apply norm_index_Ok_iff in Hn; [|done].
    apply Hout. destruct Hn as [->| ->]; [by left|by right].
Qed.

Lemma scale_high_energy_rows_value index_list weights t t' :
  scale_high_energy_rows index_list weights t = Ok t' ->
  length index_list = length weights /\
  length t' = length t /\
  forall (i : nat) v, t !! i = Some v ->
    t' !! i =
      Some (fold_left
              (fun (acc : float) (group : list Z * float) =>
                 if bool_decide (Z.of_nat i ∈ group.1 \/
                                 Z.of_nat i - Z.of_nat (length t) ∈ group.1)
                 then (acc * group.2)%float else acc)
              (zip index_list weights) v).
Proof.
  revert weights t. induction index_list as [|ids0 index_list IH]; intros weights t Hs.
  - destruct weights; [|discriminate]. injection Hs as <-. by repeat split.
  - destruct weights as [|w0 weights]; [discriminate|]. simpl in Hs.
    apply bind_Ok in Hs as (t1 & H1 & Hs).
    destruct (scale_rows_value _ _ _ _ H1) as [Hlen1 Hrow1].
    destruct (IH _ _ Hs) as (Hlen & Hlen' & Hrows).
    rewrite Hlen1 in *.
    split; [simpl; lia|]. split; [done|].
    intros i v Hv. rewrite (Hrows i _ (Hrow1 i v Hv)). reflexivity.
Qed.

Section Override.
Context `{Collaborators}.
Variables (config : Config) (n_kfold_structure : nat) (test_dataset : Dataset)
          (force_id_unit : Z) (yids_for_kfold : Yids).

Local Abbreviation override :=
  (high_energy_override config n_kfold_structure test_dataset force_id_unit yids_for_kfold).

Local Abbreviation index_sets :=
  ((fun i : nat =>
      make_high_energy_index (Z.of_nat i + 1) config
        (length (structures test_dataset) + n_kfold_structure)%nat force_id_unit
        yids_for_kfold)
     <$> seq 0 (length (high_energy_weights config))).

Lemma high_energy_override_Some target_v hil target' :
  override target_v = Ok (Some hil, target') ->
  hil = index_sets /\
  scale_high_energy_rows hil (high_energy_weights config) target_v = Ok target'.
Proof.
  unfold high_energy_override. intros Ho.
  apply bind_Ok in Ho as ([|] & _ & Ho); [|discriminate].
  apply bind_Ok in Ho as (t' & Hs & Ho). by injection Ho as <- <-.
Qed.

(** The guard itself never raises: the first weight is read only when there
    is one. *)
Lemma high_energy_override_Raise target_v e :
  override target_v = Raise e ->
  scale_high_energy_rows index_sets (high_energy_weights config) target_v = Raise e.
Proof.
  unfold high_energy_override. intros Ho.
  destruct (high_energy_override_needed config) as [[|]|e'] eqn:Hn.
  - rewrite bind_Ok_l in Ho.
    destruct (scale_high_energy_rows _ _ _) as [t'|e'']; [discriminate|].
    by injection Ho as <-.
  - discriminate.
  - unfold high_energy_override_needed in Hn.
    by destruct (high_energy_weights config) as [|w [|w' l]].
Qed.

Lemma high_energy_override_length target_v hil target' :
  override target_v = Ok (hil, target') -> length target' = length target_v.
Proof.
  intros Ho. destruct hil as [hil|].
  - apply high_energy_override_Some in Ho as [_ Hs].
    by apply scale_high_energy_rows_Ok in Hs as (_ & Hlen & _).
  - unfold high_energy_override in Ho.
    apply bind_Ok in Ho as ([|] & _ & Ho).
    + apply bind_Ok in Ho as (t' & _ & Ho). discriminate.
    + by injection Ho as <-.
Qed.

End Override.

(** ** High-energy override *)

Lemma override_needed_spec config :
  (single_unit_weight config -> high_energy_override_needed config = Ok false) /\
  (~ single_unit_weight config -> high_energy_override_needed config = Ok true).
Proof.
  unfold single_unit_weight, high_energy_override_needed, float_ne. split.
  - intros (w & -> & Hw). simpl. by rewrite Hw.
  - intros Hn. destruct (high_energy_weights config) as [|w [|w' l]]; try reflexivity.
    simpl. destruct (w =? 1)%float eqn:Hw; [|reflexivity].
    exfalso. apply Hn. by exists w.
Qed.

Lemma high_energy_override_cases `{Collaborators}
    config n_kfold_structure test_dataset force_id_unit yids_for_kfold target_v :
  let index_list :=
    (fun i : nat =>
       make_high_energy_index (Z.of_nat i + 1) config
         (length (structures test_dataset) + n_kfold_structure)%nat force_id_unit
         yids_for_kfold)
      <$> seq 0 (length (high_energy_weights config)) in
  let run := high_energy_override config n_kfold_structure test_dataset force_id_unit
               yids_for_kfold target_v in
  ((exists target', run = Ok (None, target')) <-> single_unit_weight config) /\
  (single_unit_weight config -> run = Ok (None, target_v)) /\
  (~ single_unit_weight config ->
     run = (target' ← scale_high_energy_rows index_list (high_energy_weights config) target_v;
            Ok (Some index_list, target'))).
Proof.
  intros index_list run.
  assert (Hskip : single_unit_weight config -> run = Ok (None, target_v)).
  { intros Hs. unfold run, high_energy_override.
    by rewrite (proj1 (override_needed_spec config) Hs). }
  assert (Hrun : ~ single_unit_weight config ->
     run = (target' ← scale_high_energy_rows index_list (high_energy_weights config) target_v;
            Ok (Some index_list, target'))).
  { intros Hs. unfold run, high_energy_override.
    by rewrite (proj2 (override_needed_spec config) Hs). }
  split; [|by split].
  split; [|by eauto].
  intros [target' Hr].
  destruct (high_energy_weights config) as [|w [|w' l]] eqn:Hw.
  - rewrite Hrun in Hr.
    + destruct (scale_high_energy_rows _ _ _); discriminate.
    + intros (w & Hw' & _). congruence.
  - destruct (w =? 1)%float eqn:H1.
    + exists w. by rewrite Hw.
    + rewrite Hrun in Hr.
      * destruct (scale_high_energy_rows _ _ _); discriminate.
      * intros (w' & Hw' & H1'). congruence.
  - rewrite Hrun in Hr.
    + destruct (scale_high_energy_rows _ _ _); discriminate.
    + intros (w0 & Hw' & _). congruence.
Qed.

(** C5. The high-energy override is skipped (no index sets, target untouched)
    exactly when there is one high-energy weight and it equals 1.0. In every
    other configuration it runs: the index sets are computed, one per weight,
    and for each set in turn the rows it selects are multiplied by its weight,
    so that a row ends as its value multiplied, in order, by the weight of
    every set that names it (directly, or counting from the end), once per
    set; the other rows are unchanged and the length is kept. A run of
    [train_and_eval] ends with the index sets and the target of the override
    applied to the dataset-weighted target, and without index sets exactly in
    that one configuration. *)
Theorem override_skipped_iff_single_unit_weight `{Collaborators} (config : Config) :
  (forall n_kfold_structure test_dataset force_id_unit yids_for_kfold target_v,
     let index_list :=
       (fun i : nat =>
          make_high_energy_index (Z.of_nat i + 1) config
            (length (structures test_dataset) + n_kfold_structure)%nat force_id_unit
            yids_for_kfold)
         <$> seq 0 (length (high_energy_weights config)) in
     let run := high_energy_override config n_kfold_structure test_dataset force_id_unit
                  yids_for_kfold target_v in
     ((exists target', run = Ok (None, target')) <-> single_unit_weight config) /\
     (single_unit_weight config -> run = Ok (None, target_v)) /\
     (~ single_unit_weight config ->
        run = (target' ← scale_high_energy_rows index_list (high_energy_weights config)
                           target_v;
               Ok (Some index_list, target')) /\
        length index_list = length (high_energy_weights config) /\
        forall hil target', run = Ok (hil, target') ->
          hil = Some index_list /\
          length target' = length target_v /\
          forall (i : nat) v, target_v !! i = Some v ->
            target' !! i =
              Some (fold_left
                      (fun (acc : float) (group : list Z * float) =>
                         if bool_decide (Z.of_nat i ∈ group.1 \/
                                         Z.of_nat i - Z.of_nat (length target_v) ∈ group.1)
                         then (acc * group.2)%float else acc)
                      (zip index_list (high_energy_weights config)) v))) /\
  (forall kfold_dataset test_dataset yids_for_kfold r,
     train_and_eval config kfold_dataset test_dataset yids_for_kfold = Ok r ->
     let n := length (structures kfold_dataset) in
     (high_energy_index_list r = None <-> single_unit_weight config) /\
     exists u,
       derive_force_id_unit (length (target kfold_dataset)) n = Ok u /\
       high_energy_override config n test_dataset u yids_for_kfold
         (apply_dataset_weights config n (target kfold_dataset))
         = Ok (high_energy_index_list r, kfold_target r)).
Proof.
  split.
  - intros n_kfold_structure test_dataset force_id_unit yids_for_kfold target_v
      index_list run.
    destruct (high_energy_override_cases config n_kfold_structure test_dataset
                force_id_unit yids_for_kfold target_v) as (Hiff & Hskip & Hrun).
    split; [exact Hiff|]. split; [exact Hskip|].
    intros Hs. split; [exact (Hrun Hs)|].
    split; [unfold index_list; by rewrite length_fmap, length_seq|].
    intros hil target' Hr. unfold run in Hr. rewrite (Hrun Hs) in Hr.
    apply bind_Ok in Hr as (t' & Hscale & Hr). injection Hr as <- <-.
    destruct (scale_high_energy_rows_value _ _ _ _ Hscale) as (_ & Hlen & Hrows).
    by repeat split.
  - intros kfold_dataset test_dataset yids_for_kfold r Hr n.
    destruct (train_and_eval_inv _ _ _ _ _ Hr)
      as (u & na & hil & target_v & g & m0 & m1 & m2 & m3 & yk & yt
          & Hu & _ & Ho & _ & _ & _ & _ & _ & _ & _ & ->).
    simpl.
    destruct (high_energy_override_cases config (length (structures kfold_dataset))
                test_dataset u yids_for_kfold
                (apply_dataset_weights config (length (structures kfold_dataset))
                   (target kfold_dataset))) as (Hiff & Hskip & _).
    split; [|by exists u].
    split.
    + intros ->. apply Hiff. by eexists.
    + intros Hs. rewrite (Hskip Hs) in Ho. by injection Ho as <- _.
Qed.

(** ** Dataset-level weighting *)

Lemma scale_head_lookup n w (a : list float) i :
  scale_head n w a !! i =
    (fun v => if (i <? n)%nat then (v * w)%float else v) <$> (a !! i).
Proof.
  unfold scale_head.
  destruct (Nat.ltb_spec i n) as [Hlt|Hge].
  - destruct (decide (i < length a)%nat) as [Hi|Hi].
    + rewrite lookup_app_l by (rewrite length_fmap, length_take; lia).
      by rewrite list_lookup_fmap, lookup_take_lt.
    + rewrite (lookup_ge_None_2 a) by lia.
      apply lookup_ge_None_2.
      rewrite length_app, length_fmap, length_take, length_drop. lia.
  - destruct (decide (n <= length a)%nat) as [Hn|Hn].
    + rewrite lookup_app_r by (rewrite length_fmap, length_take; lia).
      rewrite length_fmap, length_take, lookup_drop.
      replace (n + (i - n `min` length a))%nat with i by lia.
      by destruct (a !! i).
    + rewrite (lookup_ge_None_2 a) by lia.
      apply lookup_ge_None_2.
      rewrite length_app, length_fmap, length_take, length_drop. lia.
Qed.

Lemma scale_tail_lookup n w (a : list float) i :
  scale_tail n w a !! i =
    (fun v => if (i <? n)%nat then v else (v * w)%float) <$> (a !! i).
Proof.
  unfold scale_tail.
  destruct (Nat.ltb_spec i n) as [Hlt|Hge].
  - destruct (decide (i < length a)%nat) as [Hi|Hi].
    + rewrite lookup_app_l by (rewrite length_take; lia).
      rewrite lookup_take_lt by done. by destruct (a !! i).
    + rewrite (lookup_ge_None_2 a) by lia.
      apply lookup_ge_None_2.
      rewrite length_app, length_fmap, length_take, length_drop. lia.
  - destruct (decide (n <= length a)%nat) as [Hn|Hn].
    + rewrite lookup_app_r by (rewrite length_take; lia).
      rewrite length_take, list_lookup_fmap, lookup_drop.
      by replace (n + (i - n `min` length a))%nat with i by lia.
    + rewrite (lookup_ge_None_2 a) by lia.
      apply lookup_ge_None_2.
      rewrite length_app, length_fmap, length_take, length_drop. lia.
Qed.

Lemma scale_head_length n w (a : list float) : length (scale_head n w a) = length a.
Proof. unfold scale_head. rewrite length_app, length_fmap, length_take, length_drop. lia. Qed.
Lemma scale_tail_length n w (a : list float) : length (scale_tail n w a) = length a.
Proof. unfold scale_tail. rewrite length_app, length_fmap, length_take, length_drop. lia. Qed.

Lemma apply_dataset_weights_rows (config : Config) (n_kfold_structure : nat)
    (target_v : list float) :
  let weighted := apply_dataset_weights config n_kfold_structure target_v in
  (energy_weight config = 1%float -> force_weight config = 1%float ->
     weighted = target_v) /\
  length weighted = length target_v /\
  (forall (i : nat) (v : float), target_v !! i = Some v ->
     weighted !! i =
       Some (if (i <? n_kfold_structure)%nat
             then (if float_ne (energy_weight config) 1
                   then (v * energy_weight config)%float else v)
             else (if float_ne (force_weight config) 1
                   then (v * force_weight config)%float else v))).
Proof.
  intros weighted. subst weighted.
  unfold apply_dataset_weights, weight_force_block, weight_energy_block.
  split; [|split].
  - intros -> ->. reflexivity.
  - destruct (float_ne (force_weight config) 1), (float_ne (energy_weight config) 1);
      rewrite ?scale_tail_length, ?scale_head_length; reflexivity.
  - intros i v Hv.
    destruct (float_ne (force_weight config) 1), (float_ne (energy_weight config) 1);
      rewrite ?scale_tail_lookup, ?scale_head_lookup, Hv; simpl;
      by destruct (i <? n_kfold_structure)%nat.
Qed.

(** C6. With both weights equal to 1.0 the dataset-level weighting leaves the
    target vector as it is. In general the length is kept, a row of the energy
    block (index below the structure count) is multiplied by [energy_weight]
    when that differs from 1.0, a row of the force block by [force_weight]
    when that differs from 1.0, and nothing else changes. After a run of
    [train_and_eval] without high-energy override, the k-fold target is this
    weighted vector: the scaling is in place. *)
Theorem dataset_weighting_blockwise `{Collaborators} (config : Config) :
  (forall (n_kfold_structure : nat) (target_v : list float),
     let weighted := apply_dataset_weights config n_kfold_structure target_v in
     (energy_weight config = 1%float -> force_weight config = 1%float ->
        weighted = target_v) /\
     length weighted = length target_v /\
     (forall (i : nat) (v : float), target_v !! i = Some v ->
        weighted !! i =
          Some (if (i <? n_kfold_structure)%nat
                then (if float_ne (energy_weight config) 1
                      then (v * energy_weight config)%float else v)
                else (if float_ne (force_weight config) 1
                      then (v * force_weight config)%float else v)))) /\
  (forall kfold_dataset test_dataset yids_for_kfold r,
     train_and_eval config kfold_dataset test_dataset yids_for_kfold = Ok r ->
     single_unit_weight config ->
     kfold_target r =
       apply_dataset_weights config (length (structures kfold_dataset))
         (target kfold_dataset)).
Proof.
  split; [intros; apply apply_dataset_weights_rows|].
  intros kfold_dataset test_dataset yids_for_kfold r Hr Hs.
  destruct (train_and_eval_inv _ _ _ _ _ Hr)
    as (u & na & hil & target_v & g & m0 & m1 & m2 & m3 & yk & yt
        & _ & _ & Ho & _ & _ & _ & _ & _ & _ & _ & ->).
  simpl.
  destruct (high_energy_override_cases config (length (structures kfold_dataset))
              test_dataset u yids_for_kfold
              (apply_dataset_weights config (length (structures kfold_dataset))
                 (target kfold_dataset))) as (_ & Hskip & _).
  rewrite (Hskip Hs) in Ho. by injection Ho as _ <-.
Qed.

(** ** Fold count *)

Lemma KFold_split_too_few sh (k : Z) (n_samples : nat) :
  k < 2 -> KFold_split sh k n_samples = Raise ValueError.
Proof.
  intros Hk. unfold KFold_split.
  destruct (Z.leb_spec k 1) as [_|Hgt]; [reflexivity | lia].
Qed.

Lemma evaluate_candidate_too_few_folds `{Collaborators} config kfold_dataset hil n u na hp :
  n_splits config < 2 ->
  exists e, evaluate_candidate config kfold_dataset hil n u na hp = Raise e.
Proof.
  intros Hk. unfold evaluate_candidate, candidate_scores.
  destruct (make_feature _ _ _) as [m1|e]; [|by eexists].
  rewrite bind_Ok_l.
  destruct (apply_weight _ _ _ _ _ _) as [m2|e]; [|by eexists].
  rewrite bind_Ok_l.
  destruct (x m2); [|by eexists].
  rewrite bind_Ok_l, KFold_split_too_few by done. by eexists.
Qed.

(** C7. With [n_splits < 2] the search never produces a model:
    [cross_validate] raises for every grid and dataset, and a candidate whose
    features and weights were built is refused with [ValueError] when the
    folds are set up. *)
Theorem fewer_than_two_folds_rejected `{Collaborators}
    config param_grid kfold_dataset hil :
  n_splits config < 2 ->
  (exists e, cross_validate config param_grid kfold_dataset hil = Raise e) /\
  (forall n u na hp m1 m2,
      make_feature (arrange_model_from_hyper_params hp config)
        (structures kfold_dataset) true = Ok m1 ->
      apply_weight m1 (energy_weight config) (force_weight config)
        (high_energy_weights config) hil n = Ok m2 ->
      is_Some (x m2) ->
      evaluate_candidate config kfold_dataset hil n u na hp = Raise ValueError).
Proof.
  intros Hk. split.
  - unfold cross_validate.
    destruct (derive_force_id_unit _ _) as [u|e]; [|by eexists].
    rewrite bind_Ok_l.
    destruct (atoms_in_first_structure _) as [na|e]; [|by eexists].
    rewrite bind_Ok_l.
    destruct (ParameterGrid_new param_grid) as [[|hp pts]|e]; [by eexists| |by eexists].
    rewrite bind_Ok_l. simpl foldR.
    destruct (evaluate_candidate_too_few_folds config kfold_dataset hil
                (length (structures kfold_dataset)) u na hp Hk) as [e He].
    rewrite (search_body_raise _ _ _ _ _ _ _ _ He). by eexists.
  - intros n u na hp m1 m2 H1 H2 [rows Hx]. unfold evaluate_candidate, candidate_scores.
    rewrite H1, bind_Ok_l, H2, bind_Ok_l, Hx, bind_Ok_l.
    by rewrite KFold_split_too_few.
Qed.

(** ** Shape of the target vector *)

(** C8, as amended. The shape is not validated: with at least one structure
    the force unit is [floor(len(target) / n_structures) - 1] whatever the
    remainder, so up to [n_structures - 1] rows beyond a whole multiple are
    dropped from the derivation; only an empty structure list raises
    ([ZeroDivisionError]). *)
Theorem force_id_unit_is_floor_quotient (target_len n_kfold_structure : nat) :
  (n_kfold_structure = 0%nat ->
     derive_force_id_unit target_len n_kfold_structure = Raise ZeroDivisionError) /\
  (n_kfold_structure <> 0%nat ->
     exists u,
       derive_force_id_unit target_len n_kfold_structure = Ok u /\
       u = Z.of_nat target_len `div` Z.of_nat n_kfold_structure - 1 /\
       (u + 1) * Z.of_nat n_kfold_structure <= Z.of_nat target_len
         < (u + 2) * Z.of_nat n_kfold_structure).
Proof.
  unfold derive_force_id_unit. split.
  - by intros ->.
  - intros Hn. destruct (Nat.eqb_spec n_kfold_structure 0) as [|_]; [done|].
    eexists. split; [reflexivity|]. split; [reflexivity|].
    set (a := Z.of_nat target_len). set (b := Z.of_nat n_kfold_structure).
    assert (Hb : 0 < b) by lia.
    pose proof (Z.div_mod a b ltac:(lia)) as Hdm.
    pose proof (Z.mod_pos_bound a b Hb) as Hmb. nia.
Qed.

(** ** The store *)

Module SnapshotFacts.
Import Snapshot.

Section StoreLemmas.
Implicit Types (h : heap) (v : value) (l : positive).

Lemma new_loc_fresh h : h !! new_loc h = None.
Proof. unfold new_loc. apply not_elem_of_dom, is_fresh. Qed.

Lemma reach_dom h v l : reach h v l -> l ∈ dom h.
Proof. induction 1; [by apply elem_of_dom; eexists | done]. Qed.

Lemma value_ok_weaken h h' v : h ⊆ h' -> value_ok h v -> value_ok h' v.
Proof.
  intros Hsub. destruct v; simpl; try done.
  intros [o Ho]. exists o. by eapply lookup_weaken.
Qed.

Lemma observe_weaken h h' v depth :
  closed h -> h ⊆ h' -> value_ok h v -> observe depth h' v = observe depth h v.
Proof.
  intros Hc Hsub. revert v. induction depth as [|d IH]; intros v Hv.
  - by destruct v.
  - destruct v as [| | | | |l]; try done. simpl in *.
    destruct Hv as [o Ho]. rewrite Ho, (lookup_weaken _ _ _ _ Ho Hsub).
    destruct o as [data|kvs]; [done|]. f_equal.
    apply list_fmap_ext. intros i [k v] Hi. unfold prod_map. simpl. f_equal.
    apply IH. eapply Hc; [exact Ho|]. by eapply list_elem_of_lookup_2.
Qed.

Lemma reach_weaken h h' v l :
  closed h -> h ⊆ h' -> value_ok h v -> reach h' v l -> reach h v l.
Proof.
  intros Hc Hsub Hv Hr. induction Hr as [l o Ho|l kvs k v l' Ho Hin Hr IH].
  - destruct Hv as [o' Ho']. by eapply reach_here.
  - destruct Hv as [o' Ho'].
    pose proof (lookup_weaken _ _ _ _ Ho' Hsub) as Ho''.
    rewrite Ho in Ho''. injection Ho'' as <-.
    eapply reach_attr; [exact Ho'|exact Hin|].
    apply IH. by eapply Hc.
Qed.

Lemma closed_insert h l o :
  closed h -> h !! l = None ->
  (forall kvs k v, o = OAttrs kvs -> (k, v) ∈ kvs -> value_ok h v) ->
  closed (<[l := o]> h).
Proof.
  intros Hc Hl Ho l0 kvs k v Hl0 Hin.
  apply (value_ok_weaken h); [by apply insert_subseteq|].
  destruct (decide (l = l0)) as [->|Hne].
  - rewrite lookup_insert_eq in Hl0. injection Hl0 as ->. by eapply Ho.
  - rewrite lookup_insert_ne in Hl0 by done. by eapply Hc.
Qed.

Lemma Forall2_with_l {A B} (P : A -> Prop) (Q : A -> B -> Prop) xs ys :
  Forall P xs -> Forall2 Q xs ys -> Forall2 (fun a b => P a /\ Q a b) xs ys.
Proof.
  intros HP HQ. induction HQ; [constructor|].
  apply Forall_cons in HP as [? ?]. constructor; auto.
Qed.

Lemma copy_attrs_spec copy :
  (forall v h v' h', closed h -> value_ok h v -> copy v h = Some (v', h') ->
                     good_copy h v h' v') ->
  forall kvs h kvs' h',
    closed h -> Forall (fun kv => value_ok h kv.2) kvs ->
    copy_attrs copy kvs h = Some (kvs', h') ->
    good_attrs h kvs h' kvs'.
Proof.
  intros Hcopy. induction kvs as [|[k v] kvs IH]; intros h kvs' h' Hc Hok Hca.
  - injection Hca as <- <-. by repeat split.
  - simpl in Hca. apply Forall_cons in Hok as [Hv Hok]. simpl in Hv.
    destruct (copy v h) as [[v1 h1]|] eqn:Hcv; [|discriminate].
    destruct (copy_attrs copy kvs h1) as [[kvs1 h2]|] eqn:Hrest; [|discriminate].
    injection Hca as <- <-.
    destruct (Hcopy _ _ _ _ Hc Hv Hcv) as (Hsub1 & Hc1 & Hv1 & Hfr1 & Hobs1 & _).
    assert (Hok1 : Forall (fun kv => value_ok h1 kv.2) kvs).
    { eapply Forall_impl; [exact Hok|]. intros kv. by apply value_ok_weaken. }
    destruct (IH _ _ _ Hc1 Hok1 Hrest) as (Hsub2 & Hc2 & HF).
    split; [by etrans|]. split; [done|].
    constructor.
    + simpl. split; [done|]. split; [by eapply value_ok_weaken|]. split.
      * intros l Hr. apply Hfr1. by eapply reach_weaken.
      * intros d. by rewrite (observe_weaken h1 h2).
    + eapply Forall2_impl; [exact (Forall2_with_l _ _ _ _ Hok HF)|]. simpl.
      intros [k0 v0] [k0' v0'] (Hv0 & Hk & Hv0' & Hfr & Hobs). simpl in *.
      split; [done|]. split; [done|]. split.
      * intros l Hr Hin. apply (Hfr l Hr). by eapply (subseteq_dom h h1).
      * intros d. rewrite Hobs. by apply observe_weaken.
Qed.

Lemma observe_attrs_eq depth hA hB (kvs kvs' : list (string * value)) :
  Forall2 (fun kv kv' => kv.1 = kv'.1 /\
                         observe depth hA kv'.2 = observe depth hB kv.2) kvs kvs' ->
  prod_map id (observe depth hA) <$> kvs' = prod_map id (observe depth hB) <$> kvs.
Proof.
  induction 1 as [|[k v] [k' v'] kvs kvs' [Hk Hobs] _ IH]; [done|].
  rewrite !fmap_cons, IH. unfold prod_map. simpl in *. by rewrite Hk, Hobs.
Qed.

Lemma good_copy_immediate h v :
  closed h -> (forall l, v <> VRef l) -> good_copy h v h v.
Proof.
  intros Hc Hv. split; [done|]. split; [done|].
  split; [destruct v; try done; by destruct (Hv l)|].
  split; [intros l Hr; exfalso; inversion Hr; subst; by eapply Hv|].
  split; [done|]. intros l kvs k w l0 ->. by destruct (Hv l).
Qed.

Lemma deepcopy_spec fuel v h v' h' :
  closed h -> value_ok h v -> deepcopy fuel v h = Some (v', h') ->
  good_copy h v h' v'.
Proof.
  revert v h v' h'. induction fuel as [|n IH]; intros v h v' h' Hc Hv Hd.
  - destruct v; try discriminate; injection Hd as <- <-;
      by apply good_copy_immediate.
  - destruct v as [| | | | |l];
      try (injection Hd as <- <-; by apply good_copy_immediate).
    simpl in Hd. destruct (h !! l) as [[data|kvs]|] eqn:Hl; [| |discriminate].
    + injection Hd as <- <-.
      pose proof (new_loc_fresh h) as Hfresh. set (l' := new_loc h) in *.
      split; [by apply insert_subseteq|].
      split; [by apply closed_insert|].
      split; [simpl; rewrite lookup_insert_eq; by eexists|].
      split.
      * intros l0 Hr. inversion Hr as [? o Ho|? kvs k v l1 Ho]; subst.
        -- by apply not_elem_of_dom.
        -- by rewrite lookup_insert_eq in Ho.
      * split; [intros [|d]; [done|]; simpl; by rewrite lookup_insert_eq, Hl|].
        intros l0 kvs k w l1 [= <-]. by rewrite lookup_insert_eq.
    + destruct (copy_attrs (deepcopy n) kvs h) as [[kvs' h1]|] eqn:Hca; [|discriminate].
      injection Hd as <- <-.
      pose proof (new_loc_fresh h1) as Hfresh. set (l' := new_loc h1) in *.
      assert (Hok : Forall (fun kv => value_ok h kv.2) kvs).
      { apply Forall_forall. intros [k v] Hin. by eapply Hc. }
      destruct (copy_attrs_spec _ IH _ _ _ _ Hc Hok Hca) as (Hsub & Hc1 & HF).
      assert (Hsub' : h1 ⊆ <[l' := OAttrs kvs']> h1) by by apply insert_subseteq.
      assert (Hc2 : closed (<[l' := OAttrs kvs']> h1)).
      { apply closed_insert; [done..|]. intros kvs0 k v [= <-] Hin.
        apply list_elem_of_lookup in Hin as [i Hi].
        destruct (Forall2_lookup_r _ _ _ _ _ HF Hi) as (kv & _ & _ & Hv' & _).
        done. }
      split; [by etrans|]. split; [done|].
      split; [simpl; rewrite lookup_insert_eq; by eexists|].
      split.
      * intros l0 Hr. inversion Hr as [? o Ho|? kvs0 k v0 l1 Ho Hin Hr0]; subst.
        -- intros Hin. apply (subseteq_dom _ _ Hsub) in Hin.
           by apply not_elem_of_dom in Hfresh.
        -- rewrite lookup_insert_eq in Ho. injection Ho as <-.
           apply list_elem_of_lookup in Hin as [i Hi].
           destruct (Forall2_lookup_r _ _ _ _ _ HF Hi) as (kv & _ & _ & Hv' & Hfr & _).
           apply Hfr. by eapply reach_weaken.
      * split.
        -- intros [|d]; [done|]. simpl. rewrite lookup_insert_eq, Hl. f_equal.
           apply observe_attrs_eq. eapply Forall2_impl; [exact HF|]. simpl.
           intros kv kv' (Hk & Hv' & _ & Hobs). split; [done|].
           rewrite <- Hobs. by apply observe_weaken.
        -- intros l0 kvs0 k w l1 [= <-]. rewrite lookup_insert_eq. intros [= <-] Hin Hr ->.
           apply list_elem_of_lookup in Hin as [i Hi].
           destruct (Forall2_lookup_r _ _ _ _ _ HF Hi) as (kv & _ & _ & Hw & _).
           apply (reach_weaken h1) in Hr; [|done..].
           apply reach_dom in Hr. by apply not_elem_of_dom in Hfresh.
Qed.



(** *** Enough fuel gives the copy *)

Lemma copy_attrs_total copy depth :
  (forall v h v' h', closed h -> value_ok h v -> copy v h = Some (v', h') ->
                     good_copy h v h' v') ->
  (forall v h, closed h -> value_ok h v -> complete (observe depth h v) = true ->
               is_Some (copy v h)) ->
  forall kvs h,
    closed h ->
    Forall (fun kv => value_ok h kv.2 /\ complete (observe depth h kv.2) = true) kvs ->
    is_Some (copy_attrs copy kvs h).
Proof.
  intros Hgood Htot. induction kvs as [|[k v] kvs IH]; intros h Hc Hall; [by eexists|].
  apply Forall_cons in Hall as [[Hv Hcv] Hall]. simpl in *.
  destruct (Htot v h Hc Hv Hcv) as [[v1 h1] Hcopy]. rewrite Hcopy.
  destruct (Hgood _ _ _ _ Hc Hv Hcopy) as (Hsub & Hc1 & _).
  destruct (IH h1 Hc1) as [[kvs1 h2] Hrest].
  { eapply Forall_impl; [exact Hall|]. intros [k0 v0] [Hv0 Hcv0]. simpl in *.
    split; [by eapply value_ok_weaken|]. by rewrite (observe_weaken h h1). }
  rewrite Hrest. by eexists.
Qed.

Lemma deepcopy_total fuel v h :
  closed h -> value_ok h v -> complete (observe fuel h v) = true ->
  is_Some (deepcopy fuel v h).
Proof.
  revert v h. induction fuel as [|n IH]; intros v h Hc Hv Hcomp.
  - destruct v; try discriminate; by eexists.
  - destruct v as [| | | | |l]; try by eexists.
    cbn [deepcopy]. cbn [observe] in Hcomp.
    destruct (h !! l) as [[data|kvs]|] eqn:Hl; [by eexists| |discriminate].
    cbn [complete] in Hcomp.
    destruct (copy_attrs_total (deepcopy n) n (deepcopy_spec n) IH kvs h Hc)
      as [[kvs' h1] Hca].
    { apply Forall_forall. intros [k v] Hin. simpl. split; [by eapply Hc|].
      rewrite forallb_forall in Hcomp.
      apply (Hcomp (k, observe n h v)).
      apply list_elem_of_In, list_elem_of_fmap. by exists (k, v). }
    rewrite Hca. by eexists.
Qed.

(** *** Attributes *)

Lemma assoc_get_set_eq k v kvs : assoc_get k (assoc_set k v kvs) = Some v.
Proof.
  induction kvs as [|[k' v'] kvs IH]; simpl.
  - by rewrite String.eqb_refl.
  - destruct (String.eqb k k') eqn:Hk; simpl; rewrite Hk; [done|exact IH].
Qed.

Lemma assoc_get_set_ne k k0 v kvs :
  k0 <> k -> assoc_get k0 (assoc_set k v kvs) = assoc_get k0 kvs.
Proof.
  intros Hne. induction kvs as [|[k' v'] kvs IH]; simpl.
  - destruct (String.eqb_spec k0 k); [done|reflexivity].
  - destruct (String.eqb_spec k k') as [<-|Hk]; simpl.
    + destruct (String.eqb_spec k0 k); [done|reflexivity].
    + by rewrite IH.
Qed.

Lemma assoc_set_elem k v kvs k0 w :
  (k0, w) ∈ assoc_set k v kvs -> w = v \/ (k0, w) ∈ kvs.
Proof.
  induction kvs as [|[k' v'] kvs IH]; simpl.
  - intros Hin. apply list_elem_of_singleton in Hin. left. congruence.
  - destruct (String.eqb k k').
    + intros [Hin|Hin]%elem_of_cons; [left; congruence|right; by right].
    + intros [Hin|Hin]%elem_of_cons; [right; rewrite Hin; by left|].
      destruct (IH Hin); [by left|right; by right].
Qed.

Lemma assoc_get_elem k v kvs : assoc_get k kvs = Some v -> exists k', (k', v) ∈ kvs.
Proof.
  induction kvs as [|[k' v'] kvs IH]; simpl; [done|].
  destruct (String.eqb k k').
  - intros [= ->]. exists k'. by left.
  - intros Hg. destruct (IH Hg) as [k0 Hin]. exists k0. by right.
Qed.

Lemma assoc_get_fmap {A} (f g : value -> A) k kvs' kvs :
  prod_map id f <$> kvs' = prod_map id g <$> kvs ->
  f <$> assoc_get k kvs' = g <$> assoc_get k kvs.
Proof.
  revert kvs. induction kvs' as [|[k1 v1] kvs' IH]; intros [|[k2 v2] kvs]; try done.
  rewrite !fmap_cons. unfold prod_map at 1 3. simpl. intros [= -> Hfg Hrest].
  destruct (String.eqb k k2); simpl; [by rewrite Hfg|by apply IH].
Qed.

Lemma value_ok_insert h l o v : value_ok h v -> value_ok (<[l := o]> h) v.
Proof.
  destruct v as [| | | | |l0]; try done. simpl. intros Hs.
  destruct (decide (l = l0)) as [->|Hne].
  - rewrite lookup_insert_eq. by eexists.
  - by rewrite lookup_insert_ne.
Qed.

Lemma closed_setattr h m kvs k v :
  closed h -> h !! m = Some (OAttrs kvs) -> value_ok h v ->
  closed (<[m := OAttrs (assoc_set k v kvs)]> h).
Proof.
  intros Hc Hm Hv l kvs0 k0 w Hl Hin. apply value_ok_insert.
  destruct (decide (m = l)) as [->|Hne].
  - rewrite lookup_insert_eq in Hl. injection Hl as <-.
    destruct (assoc_set_elem _ _ _ _ _ Hin) as [->|Hin']; [done|by eapply Hc].
  - rewrite lookup_insert_ne in Hl by done. by eapply Hc.
Qed.

Lemma reach_setattr h m kvs k v w l :
  h !! m = Some (OAttrs kvs) -> (forall l0, v <> VRef l0) ->
  reach (<[m := OAttrs (assoc_set k v kvs)]> h) w l -> reach h w l.
Proof.
  intros Hm Hv Hr. induction Hr as [l o Ho|l kvs0 k0 w l' Ho Hin Hr IH].
  - destruct (decide (m = l)) as [->|Hne].
    + by eapply reach_here.
    + rewrite lookup_insert_ne in Ho by done. by eapply reach_here.
  - destruct (decide (m = l)) as [->|Hne].
    + rewrite lookup_insert_eq in Ho. injection Ho as <-.
      destruct (assoc_set_elem _ _ _ _ _ Hin) as [->|Hin'].
      * exfalso. inversion Hr; subst; by eapply Hv.
      * by eapply reach_attr.
    + rewrite lookup_insert_ne in Ho by done. by eapply reach_attr.
Qed.

Lemma observe_ext hA hB v depth :
  closed hA -> value_ok hA v ->
  (forall l, reach hA v l -> hB !! l = hA !! l) ->
  observe depth hB v = observe depth hA v.
Proof.
  intros Hc. revert v. induction depth as [|d IH]; intros v Hv Hsame.
  - by destruct v.
  - destruct v as [| | | | |l]; try done. simpl in *.
    destruct Hv as [o Ho]. rewrite (Hsame l) by by eapply reach_here.
    rewrite Ho. destruct o as [data|kvs]; [done|]. f_equal.
    apply list_fmap_ext. intros i [k w] Hi. unfold prod_map. simpl. f_equal.
    apply list_elem_of_lookup_2 in Hi.
    apply IH; [by eapply Hc|]. intros l0 Hr. apply Hsame. by eapply reach_attr.
Qed.

End StoreLemmas.

Lemma closedb_closed h : closedb h = true -> closed h.
Proof.
unfold closedb. intros Hb%bool_decide_eq_true l kvs k v Hl Hin.
specialize (Hb l _ Hl). simpl in Hb.
rewrite Forall_forall in Hb. by apply (Hb (k, v)).
Qed.

Lemma observe_ref_attrs h h' l v' :
(forall depth, observe depth h' v' = observe depth h (VRef l)) ->
is_Some (h !! l) ->
exists l', v' = VRef l' /\
  match h !! l with
  | Some (OArray data) => h' !! l' = Some (OArray data)
  | Some (OAttrs kvs) =>
      exists kvs', h' !! l' = Some (OAttrs kvs') /\
        forall depth, prod_map id (observe depth h') <$> kvs'
                      = prod_map id (observe depth h) <$> kvs
  | None => False
  end.
Proof.
intros Hobs [o Ho]. pose proof (Hobs 1%nat) as H1. simpl in H1. rewrite Ho in *.
destruct v' as [| | | | |l']; try (destruct o; discriminate).
exists l'. split; [done|]. simpl in H1.
destruct (h' !! l') as [[data'|kvs']|] eqn:Hl'; destruct o as [data|kvs]; try discriminate.
- by injection H1 as ->.
- exists kvs'. split; [done|]. intros d. specialize (Hobs (S d)). simpl in Hobs.
  rewrite Hl', Ho in Hobs. by injection Hobs.
Qed.

(** C9. When the candidate strictly improves on the retained score, lines
    218-223 succeed given enough fuel for the depth of the two objects, and
    afterwards: the retained model and parameters are bound to new objects;
    every object that existed before is unchanged (the candidate keeps its
    feature matrix); nothing reachable from either snapshot existed before, and
    the two snapshots share nothing; the snapshot's [x] is [None]; every other
    attribute reads as the candidate's did, and the parameters read as the
    hyperparameters did; and no later change to the objects that existed before
    can be seen through the snapshots. *)
Theorem retained_snapshot_is_independent_copy (fuel : nat) (env : Locals) (h : heap) :
closed h ->
is_Some (h !! test_model env) ->
is_Some (h !! hyper_params env) ->
(test_model_rmse env <? retained_model_rmse env)%float = true ->
((exists kvs, h !! test_model env = Some (OAttrs kvs)) ->
 complete (observe fuel h (VRef (test_model env))) = true ->
 complete (observe fuel h (VRef (hyper_params env))) = true ->
 is_Some (retain fuel env h)) /\
(forall env' h', retain fuel env h = Some (env', h') ->
   exists m p,
     retained_model env' = Some m /\
     retained_model_params env' = Some p /\
     retained_model_rmse env' = test_model_rmse env /\
     (forall l o, h !! l = Some o -> h' !! l = Some o) /\
     (forall l, reach h' (VRef m) l -> l ∉ dom h) /\
     (forall l, reach h' (VRef p) l -> l ∉ dom h) /\
     (forall l, reach h' (VRef m) l -> ~ reach h' (VRef p) l) /\
     getattr h' m "x" = Some VNone /\
     (forall name, name <> "x"%string -> forall depth,
        observe depth h' <$> getattr h' m name
        = observe depth h <$> getattr h (test_model env) name) /\
     (forall depth,
        observe depth h' (VRef p) = observe depth h (VRef (hyper_params env))) /\
     (forall h'', (forall l, l ∉ dom h -> h'' !! l = h' !! l) ->
        forall depth,
          observe depth h'' (VRef m) = observe depth h' (VRef m) /\
          observe depth h'' (VRef p) = observe depth h' (VRef p))).
Proof.
intros Hc Htm Hhp Hlt. unfold retain. rewrite Hlt. split.
- intros [kvs Hkvs] Hcm Hcp.
  destruct (deepcopy_total fuel (VRef (test_model env)) h Hc Htm Hcm) as [[v1 h1] Hd1].
  rewrite Hd1.
  destruct (deepcopy_spec _ (VRef (test_model env)) _ _ _ Hc Htm Hd1) as (Hsub1 & Hc1 & Hv1 & _ & Hobs1 & _).
  destruct (observe_ref_attrs _ _ _ _ Hobs1 Htm) as (m & -> & Hm).
  rewrite Hkvs in Hm. destruct Hm as (kvs1 & Hm1 & _).
  destruct (deepcopy_total fuel (VRef (hyper_params env)) h1 Hc1) as [[v2 h2] Hd2].
  { by eapply (value_ok_weaken h h1 (VRef _)). }
  { by rewrite (observe_weaken h h1). }
  rewrite Hd2.
  assert (Hhp1 : value_ok h1 (VRef (hyper_params env)))
    by by eapply (value_ok_weaken h h1 (VRef _)).
  destruct (deepcopy_spec _ (VRef (hyper_params env)) _ _ _ Hc1 Hhp1 Hd2) as (Hsub2 & Hc2 & Hv2 & _ & Hobs2 & _).
  destruct (observe_ref_attrs _ _ _ _ Hobs2 Hhp1) as (p & -> & _).
  unfold setattr. rewrite (lookup_weaken _ _ _ _ Hm1 Hsub2). by eexists.
- intros env' h' Hr.
  destruct (deepcopy fuel (VRef (test_model env)) h) as [[v1 h1]|] eqn:Hd1; [|done].
  destruct (deepcopy_spec _ (VRef (test_model env)) _ _ _ Hc Htm Hd1)
    as (Hsub1 & Hc1 & Hv1 & Hfr1 & Hobs1 & Hroot1).
  destruct (observe_ref_attrs _ _ _ _ Hobs1 Htm) as (m & -> & Hm).
  assert (Hhp1 : value_ok h1 (VRef (hyper_params env)))
    by by eapply (value_ok_weaken h h1 (VRef _)).
  destruct (deepcopy fuel (VRef (hyper_params env)) h1) as [[v2 h2]|] eqn:Hd2; [|done].
  destruct (deepcopy_spec _ (VRef (hyper_params env)) _ _ _ Hc1 Hhp1 Hd2)
    as (Hsub2 & Hc2 & Hv2 & Hfr2 & Hobs2 & _).
  destruct (observe_ref_attrs _ _ _ _ Hobs2 Hhp1) as (p & -> & _).
  unfold setattr in Hr.
  destruct (h2 !! m) as [[data|kvs2]|] eqn:Hm2; try done.
  injection Hr as <- <-. simpl.
  set (h3 := <[m := OAttrs (assoc_set "x" VNone kvs2)]> h2).
  assert (Hm1 : h1 !! m = Some (OAttrs kvs2)).
  { destruct Hv1 as [o Ho]. pose proof (lookup_weaken _ _ _ _ Ho Hsub2). congruence. }
  assert (Hmfresh : h !! m = None).
  { apply not_elem_of_dom, Hfr1. by eapply reach_here. }
  assert (Hc3 : closed h3) by by apply closed_setattr.
  assert (Hreach3 : forall w l, reach h3 w l -> reach h2 w l).
  { intros w l. by apply reach_setattr. }
  assert (Hrm : forall l, reach h3 (VRef m) l -> reach h1 (VRef m) l).
  { intros l Hl. apply (reach_weaken h1 h2); [done..|]. by apply Hreach3. }
  assert (Hrp : forall l, reach h3 (VRef p) l -> l ∉ dom h1).
  { intros l Hl. by apply Hfr2, Hreach3. }
  exists m, p. repeat (split; [done|]).
  split.
  { intros l o Ho. unfold h3. rewrite lookup_insert_ne by congruence.
    eapply lookup_weaken; [exact Ho|]. by etrans. }
  split; [intros l Hl; by apply Hfr1, Hrm|].
  split.
  { intros l Hl Hin. apply (Hrp l Hl). by apply (subseteq_dom h h1). }
  split.
  { intros l Hl Hl'. apply (Hrp l Hl'). by eapply reach_dom, Hrm. }
  split.
  { unfold getattr, h3. rewrite lookup_insert_eq. apply assoc_get_set_eq. }
  split.
  { intros name Hname depth. unfold getattr at 1. unfold h3 at 2.
    rewrite lookup_insert_eq, assoc_get_set_ne by done.
    destruct Htm as [o Ho]. unfold getattr. rewrite Ho in *.
    destruct o as [data|kvs].
    { rewrite Hm1 in Hm. discriminate. }
    destruct Hm as (kvs1 & Hkvs1 & Hattrs). rewrite Hm1 in Hkvs1. injection Hkvs1 as <-.
    rewrite <- (assoc_get_fmap _ _ name _ _ (Hattrs depth)).
    destruct (assoc_get name kvs2) as [w|] eqn:Hw; [|done]. simpl. f_equal.
    destruct (assoc_get_elem _ _ _ Hw) as [k' Hin].
    assert (Hw1 : value_ok h1 w) by by eapply Hc1.
    rewrite <- (observe_weaken h1 h2) by done.
    apply observe_ext; [done|by eapply value_ok_weaken|].
    intros l Hl. unfold h3. apply lookup_insert_ne. intros <-.
    refine (Hroot1 m kvs2 k' w m eq_refl Hm1 Hin _ eq_refl).
    by apply (reach_weaken h1 h2). }
  split.
  { intros depth. rewrite <- (observe_weaken h h1) by done. rewrite <- Hobs2.
    apply observe_ext; [done..|]. intros l Hl. unfold h3. apply lookup_insert_ne.
    intros <-. apply (Hfr2 _ Hl). by apply elem_of_dom. }
  intros h'' Hsame depth. split.
  + apply observe_ext; [done|simpl; unfold h3; rewrite lookup_insert_eq; by eexists|].
    intros l Hl. apply Hsame. by apply Hfr1, Hrm.
  + apply observe_ext; [done|by apply value_ok_insert|].
    intros l Hl. apply Hsame. intros Hin. apply (Hrp l Hl). by apply (subseteq_dom h h1).
Qed.

End SnapshotFacts.

(** ** Sentinel and unbound result *)

(** C10, as amended. [cross_validate] starts from the sentinel 1e10. If it
    returns a model, the grid is not empty and a candidate (the first of the
    grid) has a mean combined RMSE strictly below 1e10. If the grid has a
    point and no candidate of it is below the sentinel, it raises
    [UnboundLocalError]. An empty grid is not such a case: the grid object
    refuses it with [ValueError] before the search starts. Nor is a candidate
    with a fold score that is a NaN or an infinity: [statistics.stdev] raises
    [AttributeError] on it before the comparison with the sentinel. *)
Theorem cross_validate_needs_candidate_below_sentinel `{Collaborators}
    config param_grid kfold_dataset hil u na :
  let n := length (structures kfold_dataset) in
  derive_force_id_unit (length (target kfold_dataset)) n = Ok u ->
  atoms_in_first_structure (structures kfold_dataset) = Ok na ->
  (forall m, cross_validate config param_grid kfold_dataset hil = Ok m ->
     exists hp rest cand s,
       ParameterGrid param_grid = hp :: rest /\
       evaluate_candidate config kfold_dataset hil n u na hp = Ok (cand, s) /\
       (s <? 1e10)%float = true) /\
  (ParameterGrid param_grid <> [] ->
   (forall hp, hp ∈ ParameterGrid param_grid ->
      exists cand s,
        evaluate_candidate config kfold_dataset hil n u na hp = Ok (cand, s) /\
        (s <? 1e10)%float = false) ->
   cross_validate config param_grid kfold_dataset hil = Raise UnboundLocalError) /\
  (ParameterGrid param_grid = [] ->
   cross_validate config param_grid kfold_dataset hil = Raise ValueError) /\
  (forall hp cand sc v,
     candidate_scores config kfold_dataset hil n u na hp = Ok (cand, sc) ->
     v ∈ test_model_rmses sc \/ v ∈ test_model_rmses_energy sc \/
       (use_force config = true /\ v ∈ test_model_rmses_force sc) ->
     is_finite v = false ->
     evaluate_candidate config kfold_dataset hil n u na hp = Raise AttributeError).
Proof.
  intros n Hu Ha. split; [|split; [|split]].
  - intros m Hm. rewrite (cross_validate_unfold_new _ _ _ _ _ _ Hu Ha) in Hm.
    apply bind_Ok in Hm as (pts & Hpts & Hm).
    apply ParameterGrid_new_Ok in Hpts as [-> _].
    destruct (ParameterGrid param_grid) as [|hp rest]; [discriminate|].
    exists hp, rest. simpl foldR in Hm.
    destruct (evaluate_candidate config kfold_dataset hil n u na hp)
      as [[cand s]|e] eqn:He.
    + exists cand, s. split; [done|]. split; [done|].
      destruct (s <? 1e10)%float eqn:Hlt; [done|].
      rewrite (search_body_not_less _ _ _ _ _ _ _ _ _ He) in Hm by done.
      discriminate.
    + rewrite (search_body_raise _ _ _ _ _ _ _ _ He) in Hm. discriminate.
  - intros Hne Hall. rewrite (cross_validate_unfold _ _ _ _ _ _ Hu Ha Hne).
    destruct (ParameterGrid param_grid) as [|hp rest]; [done|].
    destruct (Hall hp) as (cand & s & He & Hlt); [by left|].
    simpl foldR.
    by rewrite (search_body_not_less _ _ _ _ _ _ _ _ _ He) by done.
  - intros Hnil. rewrite (cross_validate_unfold_new _ _ _ _ _ _ Hu Ha).
    by rewrite (ParameterGrid_new_empty _ Hnil).
  - intros hp cand sc v Hc Hv Hinf. unfold evaluate_candidate.
    rewrite Hc, bind_Ok_l.
    destruct (candidate_scores_trace _ _ _ _ _ _ _ _ _ Hc)
      as (m1 & m2 & folds & models & _ & _ & _ & Hf & _ & _ & N1 & N2 & N3 & _).
    destruct (KFold_split_Ok _ _ _ _ Hf) as [Hk Hlen].
    assert (Hnot : forall l : list float, v ∈ l -> forallb is_finite l = false).
    { intros l Hl. destruct (forallb is_finite l) eqn:Hall; [|done].
      rewrite forallb_forall in Hall. apply list_elem_of_In in Hl.
      rewrite (Hall v Hl) in Hinf. discriminate. }
    rewrite (stdev_two (test_model_rmses sc)) by lia.
    destruct (forallb is_finite (test_model_rmses sc)) eqn:F1; [|done].
    rewrite bind_Ok_l, (stdev_two (test_model_rmses_energy sc)) by lia.
    destruct (forallb is_finite (test_model_rmses_energy sc)) eqn:F2; [|done].
    rewrite bind_Ok_l.
    destruct Hv as [Hv|[Hv|[Hforce Hv]]].
    + by rewrite (Hnot _ Hv) in F1.
    + by rewrite (Hnot _ Hv) in F2.
    + rewrite Hforce in *.
      rewrite (stdev_two (test_model_rmses_force sc)) by lia. by rewrite (Hnot _ Hv).
Qed.

(** * Further properties *)

(** ** The search loop, read backwards *)

(** X1. Whenever [cross_validate] returns a model, every point of the grid was
    evaluated without an exception, the model is the snapshot of the earliest
    candidate of lowest mean score (below the sentinel, strictly below every
    earlier score that is a number, not above any later one), and its feature
    matrix has been released. There is no partial success: one failing
    candidate, wherever it stands in the grid, leaves no model. *)
Theorem cross_validate_success_inversion `{Collaborators}
    config param_grid kfold_dataset hil m :
  cross_validate config param_grid kfold_dataset hil = Ok m ->
  let n := length (structures kfold_dataset) in
  x m = None /\
  exists u na evals i cand s,
    derive_force_id_unit (length (target kfold_dataset)) n = Ok u /\
    atoms_in_first_structure (structures kfold_dataset) = Ok na /\
    Forall2 (fun hp ms => evaluate_candidate config kfold_dataset hil n u na hp = Ok ms)
      (ParameterGrid param_grid) evals /\
    earliest_best evals i cand s /\
    m = set_x cand None.
Proof.
  intros Hcv n.
  assert (Hshape : exists u na,
            derive_force_id_unit (length (target kfold_dataset)) n = Ok u /\
            atoms_in_first_structure (structures kfold_dataset) = Ok na).
  { unfold cross_validate in Hcv. fold n in Hcv.
    apply bind_Ok in Hcv as (u & Hu & Hcv).
    apply bind_Ok in Hcv as (na & Hna & _). by exists u, na. }
  destruct Hshape as (u & na & Hu & Hna).
  destruct (cross_validate_Ok _ _ _ _ _ _ _ Hu Hna Hcv)
    as (evals & i & cand & s & HF & Hbest & ->).
  split; [reflexivity|]. by exists u, na, evals, i, cand, s.
Qed.

(** X2. An exception raised while a candidate is evaluated ends the search
    with that same exception, whatever was retained so far and whatever comes
    later in the grid: when the candidates before it all evaluate (and the
    first of them, if any, scores below the sentinel), [cross_validate] raises
    what the candidate raised. *)
Theorem cross_validate_propagates_candidate_error `{Collaborators}
    config param_grid kfold_dataset hil u na pre hp post evals e :
  let n := length (structures kfold_dataset) in
  derive_force_id_unit (length (target kfold_dataset)) n = Ok u ->
  atoms_in_first_structure (structures kfold_dataset) = Ok na ->
  ParameterGrid param_grid = pre ++ hp :: post ->
  Forall2 (fun hp ms => evaluate_candidate config kfold_dataset hil n u na hp = Ok ms)
    pre evals ->
  (evals = [] \/ exists m0 s0 rest, evals = (m0, s0) :: rest /\ (s0 <? 1e10)%float = true) ->
  evaluate_candidate config kfold_dataset hil n u na hp = Raise e ->
  cross_validate config param_grid kfold_dataset hil = Raise e.
Proof.
  intros n Hu Hna Hg HF Hfirst He.
  rewrite (cross_validate_unfold _ _ _ _ _ _ Hu Hna)
    by (rewrite Hg; by destruct pre).
  rewrite Hg, foldR_app.
  destruct Hfirst as [->|(m0 & s0 & rest & -> & Hlt)].
  - apply Forall2_nil_inv_r in HF as ->. simpl.
    by rewrite (search_body_raise _ _ _ _ _ _ _ _ He).
  - inversion HF as [|hp0 ms pts evals' He0 HF' Hpts]; subst.
    destruct (scan_first _ _ _ _ _ _ _ _ He0 Hlt) as (st1 & Hb & Hinv1).
    destruct (scan_loop _ _ _ _ _ _ _ _ _ HF' Hinv1) as (st' & Hl & _).
    simpl foldR. rewrite Hb, bind_Ok_l, Hl, bind_Ok_l. simpl.
    by rewrite (search_body_raise _ _ _ _ _ _ _ _ He).
Qed.

(** ** The folds of one candidate *)

(** X3. With more folds than structures in the k-fold pool the search never
    produces a model: [cross_validate] raises for every grid, and a candidate
    whose features and weights were built is refused with [ValueError] when
    the folds are set up. *)
Theorem more_folds_than_structures_rejected `{Collaborators}
    config param_grid kfold_dataset hil :
  Z.of_nat (length (structures kfold_dataset)) < n_splits config ->
  (exists e, cross_validate config param_grid kfold_dataset hil = Raise e) /\
  (forall u na hp m1 m2,
      make_feature (arrange_model_from_hyper_params hp config)
        (structures kfold_dataset) true = Ok m1 ->
      apply_weight m1 (energy_weight config) (force_weight config)
        (high_energy_weights config) hil (length (structures kfold_dataset)) = Ok m2 ->
      is_Some (x m2) ->
      evaluate_candidate config kfold_dataset hil (length (structures kfold_dataset)) u na hp
        = Raise ValueError).
Proof.
  intros Hk. split.
  - unfold cross_validate.
    destruct (derive_force_id_unit _ _) as [u|e]; [|by eexists].
    rewrite bind_Ok_l.
    destruct (atoms_in_first_structure _) as [na|e]; [|by eexists].
    rewrite bind_Ok_l.
    destruct (ParameterGrid_new param_grid) as [[|hp pts]|e]; [by eexists| |by eexists].
    rewrite bind_Ok_l. simpl foldR.
    destruct (evaluate_candidate_too_many_folds config kfold_dataset hil
                (length (structures kfold_dataset)) u na hp Hk) as [e He].
    rewrite (search_body_raise _ _ _ _ _ _ _ _ He). by eexists.
  - intros u na hp m1 m2 H1 H2 [rows Hx]. unfold evaluate_candidate, candidate_scores.
    rewrite H1, bind_Ok_l, H2, bind_Ok_l, Hx, bind_Ok_l.
    by rewrite KFold_split_too_many.
Qed.

(** X4. A candidate that was evaluated was scored on exactly [n_splits]
    folds, with [2 <= n_splits <= n_structures], and its mean score is
    [average] of the combined-target scores of those folds. In fold [j] the
    model left by the fold before (for the first fold, the model with its
    features and weights built) is trained on the target rows of the training
    structures, and the score appended is [rmse] between its prediction and the
    target on the target rows of the held-out structures. The loop appends
    one energy score per fold, and one force score per fold when forces are
    used, none otherwise. *)
Theorem candidate_scored_on_every_fold `{Collaborators}
    config kfold_dataset hil n u na hp m s :
  evaluate_candidate config kfold_dataset hil n u na hp = Ok (m, s) ->
  2 <= n_splits config <= Z.of_nat n /\
  exists sc m1 m2 folds models,
    candidate_scores config kfold_dataset hil n u na hp = Ok (m, sc) /\
    s = average (test_model_rmses sc) /\
    make_feature (arrange_model_from_hyper_params hp config)
      (structures kfold_dataset) true = Ok m1 /\
    apply_weight m1 (energy_weight config) (force_weight config)
      (high_energy_weights config) hil n = Ok m2 /\
    KFold_split shuffled (n_splits config) n = Ok folds /\
    length folds = Z.to_nat (n_splits config) /\
    length models = length folds /\
    last (m2 :: models) = Some m /\
    length (test_model_rmses sc) = length folds /\
    length (test_model_rmses_energy sc) = length folds /\
    length (test_model_rmses_force sc) =
      (if use_force config then length folds else 0%nat) /\
    forall (j : nat) train_index valid_index,
      folds !! j = Some (train_index, valid_index) ->
      let yt := make_yids_for_structure_ids train_index n u (use_force config) in
      let yv := make_yids_for_structure_ids valid_index n u (use_force config) in
      exists before after y p e,
        (m2 :: models) !! j = Some before /\
        models !! j = Some after /\
        train before (yids_target yt) (target kfold_dataset) = Ok after /\
        predict after None = Ok y /\
        getitem y (yids_target yv) = Ok p /\
        getitem (target kfold_dataset) (yids_target yv) = Ok e /\
        test_model_rmses sc !! j = Some (rmse p e).
Proof.
  intros He.
  destruct (evaluate_candidate_Ok _ _ _ _ _ _ _ _ _ He) as (sc & Hc & Hs & _).
  destruct (candidate_scores_trace _ _ _ _ _ _ _ _ _ Hc)
    as (m1 & m2 & folds & models & H1 & H2 & _ & Hf & Hm & Hlast & N1 & N2 & N3 & Hall).
  destruct (KFold_split_Ok _ _ _ _ Hf) as [Hk Hlen].
  split; [done|]. exists sc, m1, m2, folds, models.
  repeat (split; [done|]).
  intros j train_index valid_index Hj.
  destruct (Hall j train_index valid_index Hj)
    as (before & after & y & p & e & pe & ee & Hb & Ha & Ht & Hy & Hp & Hee & Hlt & _).
  by exists before, after, y, p, e.
Qed.

(** ** The grid a configuration gives *)

Lemma arange_length (start stop : Z) :
  length (arange start stop 5) = Z.to_nat ((stop - start + 4) `div` 5).
Proof.
  unfold arange. rewrite length_fmap, length_seqZ. f_equal.
  pose proof (Z.div_mod (start - stop) 5 ltac:(lia)).
  pose proof (Z.mod_pos_bound (start - stop) 5 ltac:(lia)).
  pose proof (Z.div_mod (stop - start + 4) 5 ltac:(lia)).
  pose proof (Z.mod_pos_bound (stop - start + 4) 5 ltac:(lia)).
  lia.
Qed.

Lemma make_param_grid_Ok config g :
  make_param_grid config = Ok g ->
  exists num,
    cutoff_radius_num config = Ok num /\ 0 <= num /\
    length (grid_cutoff_radius g) = Z.to_nat num /\
    grid_gaussian_params2_num g =
      arange (gaussian_params2_num_min config) (gaussian_params2_num_max config + 5) 5 /\
    grid_alpha g = alpha config.
Proof.
  unfold make_param_grid. intros Hg.
  apply bind_Ok in Hg as (num & Hnum & Hg).
  apply bind_Ok in Hg as (l & Hl & Hg). injection Hg as <-. simpl.
  exists num. split; [done|].
  split. { unfold linspace in Hl. destruct (Z.ltb_spec num 0); [discriminate|lia]. }
  split; [by apply (linspace_length _ _ _ _ Hl)|done].
Qed.

(** X5. Which configurations skip cross-validation: for a configuration whose
    grid is built, the fast path is taken exactly when the radius count
    [int((max - min) / 2.0) + 1] is 1, the maximum Gaussian count lies in
    [(min - 5, min]], and one regularization value is given. *)
Theorem fast_path_in_config_terms (config : Config) (g : ParamGrid) :
  make_param_grid config = Ok g ->
  (dont_cross_validate g = true <->
   cutoff_radius_num config = Ok 1 /\
   gaussian_params2_num_min config - 5 < gaussian_params2_num_max config
     <= gaussian_params2_num_min config /\
   length (alpha config) = 1%nat).
Proof.
  intros Hg. destruct (make_param_grid_Ok _ _ Hg) as (num & Hnum & Hpos & Hr & Hk & Ha).
  rewrite dont_cross_validate_spec, Hr, Hk, Ha, arange_length, Hnum.
  set (gmin := gaussian_params2_num_min config).
  set (gmax := gaussian_params2_num_max config).
  pose proof (Z.div_mod (gmax + 5 - gmin + 4) 5 ltac:(lia)).
  pose proof (Z.mod_pos_bound (gmax + 5 - gmin + 4) 5 ltac:(lia)).
  split.
  - intros (H1 & H2 & H3). split; [f_equal; lia|]. split; [lia|done].
  - intros (H1 & H2 & H3). injection H1 as ->. split; [done|]. split; [lia|done].
Qed.

(** X6. How many candidates a configuration makes the search evaluate: for
    a grid with a point at all, the number of regularization values, times the
    radius count [int((max - min) / 2.0) + 1], times
    [floor((gmax - gmin + 9) / 5)] Gaussian counts. *)
Theorem grid_candidate_count (config : Config) (g : ParamGrid) :
  make_param_grid config = Ok g ->
  ParameterGrid g <> [] ->
  exists num,
    cutoff_radius_num config = Ok num /\ 0 < num /\
    length (ParameterGrid g) =
      (length (alpha config) *
       (Z.to_nat num *
        Z.to_nat ((gaussian_params2_num_max config - gaussian_params2_num_min config + 9)
                    `div` 5)))%nat.
Proof.
  intros Hg Hne. destruct (make_param_grid_Ok _ _ Hg) as (num & Hnum & Hpos & Hr & Hk & Ha).
  exists num. split; [done|].
  assert (Hlen : length (ParameterGrid g) =
    (length (alpha config) *
     (Z.to_nat num *
      Z.to_nat ((gaussian_params2_num_max config - gaussian_params2_num_min config + 9)
                  `div` 5)))%nat).
  { rewrite ParameterGrid_length, Hr, Hk, Ha, arange_length. do 4 f_equal. lia. }
  split; [|exact Hlen].
  destruct (decide (num = 0)) as [->|Hn]; [|lia].
  exfalso. apply Hne. apply nil_length_inv. rewrite Hlen. simpl. lia.
Qed.

(** X7. The fast path never reads [n_splits]: for a configuration with a
    one-point grid, a run of [train_and_eval] gives the same outcome, result
    or exception, whatever the fold count is set to, a count below 2 included
    (provided the high-energy index sets do not depend on it). *)
Theorem fast_path_ignores_n_splits `{Collaborators}
    config (k : Z) kfold_dataset test_dataset yids_for_kfold g :
  make_param_grid config = Ok g ->
  dont_cross_validate g = true ->
  (forall i n_structure u,
     make_high_energy_index i (with_n_splits k config) n_structure u yids_for_kfold =
     make_high_energy_index i config n_structure u yids_for_kfold) ->
  train_and_eval (with_n_splits k config) kfold_dataset test_dataset yids_for_kfold =
  train_and_eval config kfold_dataset test_dataset yids_for_kfold.
Proof.
  intros Hg Hd Hidx.
  assert (Hg' : make_param_grid (with_n_splits k config) = Ok g) by exact Hg.
  assert (Ho : forall n u t,
    high_energy_override (with_n_splits k config) n test_dataset u yids_for_kfold t =
    high_energy_override config n test_dataset u yids_for_kfold t).
  { intros n u t. unfold high_energy_override.
    change (high_energy_override_needed (with_n_splits k config))
      with (high_energy_override_needed config).
    change (high_energy_weights (with_n_splits k config)) with (high_energy_weights config).
    destruct (high_energy_override_needed config) as [[|]|e]; [|reflexivity..].
    rewrite !bind_Ok_l.
    replace ((fun i : nat => make_high_energy_index (Z.of_nat i + 1) (with_n_splits k config)
                (length (structures test_dataset) + n)%nat u yids_for_kfold)
             <$> seq 0 (length (high_energy_weights config)))
      with ((fun i : nat => make_high_energy_index (Z.of_nat i + 1) config
                (length (structures test_dataset) + n)%nat u yids_for_kfold)
             <$> seq 0 (length (high_energy_weights config))); [reflexivity|].
    apply list_fmap_ext. intros ? i _. by rewrite Hidx. }
  unfold train_and_eval.
  destruct (derive_force_id_unit _ _) as [u|e]; [|reflexivity]. rewrite !bind_Ok_l.
  destruct (atoms_in_first_structure _) as [na|e]; [|reflexivity]. rewrite !bind_Ok_l.
  change (apply_dataset_weights (with_n_splits k config))
    with (apply_dataset_weights config).
  rewrite Ho.
  destruct (high_energy_override config _ _ _ _ _) as [[hil target_v]|e]; [|reflexivity].
  rewrite !bind_Ok_l, Hg, Hg', !bind_Ok_l.
  unfold select_retained_model. rewrite Hd.
  reflexivity.
Qed.

(** ** An empty pool *)

(** X8. With no structure in the k-fold pool both entry points end with
    [ZeroDivisionError], whatever the configuration, the grid and the other
    arguments are: the row count is divided by the structure count before the
    first structure is looked at and before anything is weighted or built. *)
Theorem empty_pool_divides_by_zero `{Collaborators}
    config param_grid kfold_dataset test_dataset hil yids_for_kfold :
  structures kfold_dataset = [] ->
  cross_validate config param_grid kfold_dataset hil = Raise ZeroDivisionError /\
  train_and_eval config kfold_dataset test_dataset yids_for_kfold = Raise ZeroDivisionError.
Proof.
  intros Hs. unfold cross_validate, train_and_eval. by rewrite Hs.
Qed.

(** ** The rows of the high-energy override *)

(** X9. What the high-energy override does to the target, row by row: there
    is one index set per weight, the length is kept, a row that no index set
    selects is unchanged, and a row selected by one index set only is
    multiplied by that set's weight exactly once, however often the set
    repeats its index. An index counts from the end when negative. *)
Theorem high_energy_override_scales_selected_rows `{Collaborators}
    config n_kfold_structure test_dataset force_id_unit yids_for_kfold target_v hil target' :
  high_energy_override config n_kfold_structure test_dataset force_id_unit yids_for_kfold
    target_v = Ok (Some hil, target') ->
  length hil = length (high_energy_weights config) /\
  length target' = length target_v /\
  (forall i : nat,
     (forall ids j, ids ∈ hil -> j ∈ ids -> norm_index (length target_v) j <> Ok i) ->
     target' !! i = target_v !! i) /\
  (forall (i k : nat) ids w,
     hil !! k = Some ids -> high_energy_weights config !! k = Some w ->
     (exists j, j ∈ ids /\ norm_index (length target_v) j = Ok i) ->
     (forall (k' : nat) ids' j, k' <> k -> hil !! k' = Some ids' -> j ∈ ids' ->
        norm_index (length target_v) j <> Ok i) ->
     target' !! i = (fun v => (v * w)%float) <$> target_v !! i).
Proof.
  intros Ho. apply high_energy_override_Some in Ho as [_ Hs].
  by apply scale_high_energy_rows_Ok.
Qed.

(** X10. Once the index sets are computed, the high-energy override raises
    nothing but [IndexError], and only because some index set holds an index
    outside [[-len, len)] for the target's length [len]; with every index in
    that range it succeeds. The guard never raises, an empty weight list
    included. *)
Theorem high_energy_override_raises_only_index_error `{Collaborators}
    config n_kfold_structure test_dataset force_id_unit yids_for_kfold target_v :
  let index_list :=
    (fun i : nat =>
       make_high_energy_index (Z.of_nat i + 1) config
         (length (structures test_dataset) + n_kfold_structure)%nat force_id_unit
         yids_for_kfold)
      <$> seq 0 (length (high_energy_weights config)) in
  let run := high_energy_override config n_kfold_structure test_dataset force_id_unit
               yids_for_kfold target_v in
  let len := Z.of_nat (length target_v) in
  (forall e, run = Raise e ->
     e = IndexError /\
     exists ids j, ids ∈ index_list /\ j ∈ ids /\ ~ (- len <= j < len)) /\
  ((forall ids j, ids ∈ index_list -> j ∈ ids -> - len <= j < len) ->
   exists r, run = Ok r).
Proof.
  intros index_list run len.
  assert (Hraise : forall e, run = Raise e ->
     e = IndexError /\
     exists ids j, ids ∈ index_list /\ j ∈ ids /\ ~ (- len <= j < len)).
  { intros e He. apply high_energy_override_Raise in He.
    apply scale_high_energy_rows_Raise in He; [done|].
    by rewrite length_fmap, length_seq. }
  split; [done|]. intros Hin.
  destruct run as [r|e] eqn:Hr; [by eexists|].
  destruct (Hraise e eq_refl) as (_ & ids & j & Hids & Hj & Hout).
  exfalso. apply Hout. by apply (Hin ids j).
Qed.

(** ** What a run leaves behind *)

(** X11. A run of [train_and_eval] never changes the number of target rows:
    the vector the caller is left with has the length it came with. *)
Theorem train_and_eval_keeps_target_length `{Collaborators}
    config kfold_dataset test_dataset yids_for_kfold r :
  train_and_eval config kfold_dataset test_dataset yids_for_kfold = Ok r ->
  length (kfold_target r) = length (target kfold_dataset).
Proof.
  intros Hr.
  destruct (train_and_eval_inv _ _ _ _ _ Hr)
    as (u & na & hil & target_v & g & m0 & m1 & m2 & m3 & yk & yt
        & _ & _ & Ho & _ & _ & _ & _ & _ & _ & _ & ->).
  simpl. rewrite (high_energy_override_length _ _ _ _ _ _ _ _ Ho).
  apply apply_dataset_weights_rows.
Qed.

(** X12. The expected energies reported for the k-fold pool are the weighted
    ones: without high-energy override, the entry for structure [i] is the
    energy the caller passed, multiplied by [energy_weight] when that differs
    from 1.0, then divided by the atom count. The expected energies reported
    for the test pool are the energies passed, divided by the atom count. *)
Theorem kfold_report_expects_weighted_energies `{Collaborators}
    config kfold_dataset test_dataset yids_for_kfold r na :
  train_and_eval config kfold_dataset test_dataset yids_for_kfold = Ok r ->
  atoms_in_first_structure (structures kfold_dataset) = Ok na ->
  single_unit_weight config ->
  let per_atom_v := fun v : float => (v / Z2float (Z.of_nat na))%float in
  (forall (i : nat) (v : float),
     (i < length (structures kfold_dataset))%nat ->
     target kfold_dataset !! i = Some v ->
     energy_expected (kfold_report r) !! i =
       Some (per_atom_v (if float_ne (energy_weight config) 1
                         then (v * energy_weight config)%float else v))) /\
  energy_expected (test_report r) =
    per_atom_v <$> take (length (structures test_dataset)) (target test_dataset).
Proof.
  intros Hr Hna Hs per_atom_v.
  destruct (train_and_eval_inv _ _ _ _ _ Hr)
    as (u & na' & hil & target_v & g & m0 & m1 & m2 & m3 & yk & yt
        & _ & Hna' & Ho & _ & _ & _ & _ & _ & _ & _ & ->).
  rewrite Hna in Hna'. injection Hna' as <-.
  destruct (high_energy_override_cases config (length (structures kfold_dataset))
              test_dataset u yids_for_kfold
              (apply_dataset_weights config (length (structures kfold_dataset))
                 (target kfold_dataset))) as (_ & Hskip & _).
  rewrite (Hskip Hs) in Ho. injection Ho as _ <-.
  simpl. split; [|reflexivity].
  intros i v Hi Hv. unfold per_atom.
  rewrite list_lookup_fmap, lookup_take_lt by done.
  destruct (apply_dataset_weights_rows config (length (structures kfold_dataset))
              (target kfold_dataset)) as (_ & _ & Hrow).
  rewrite (Hrow i v Hv).
  destruct (Nat.ltb_spec i (length (structures kfold_dataset))); [done|lia].
Qed.

(** X13. The target of the test pool never reaches the training: two runs
    that differ only in the test pool's target end alike, with the same
    exception, or with the same trained model, the same k-fold target, the
    same index sets and the same k-fold report; the test target is read for
    the test report alone. *)
Theorem test_target_never_reaches_training `{Collaborators}
    config kfold_dataset test_dataset test_dataset' yids_for_kfold :
  structures test_dataset' = structures test_dataset ->
  (forall e,
     train_and_eval config kfold_dataset test_dataset yids_for_kfold = Raise e ->
     train_and_eval config kfold_dataset test_dataset' yids_for_kfold = Raise e) /\
  (forall r,
     train_and_eval config kfold_dataset test_dataset yids_for_kfold = Ok r ->
     exists r',
       train_and_eval config kfold_dataset test_dataset' yids_for_kfold = Ok r' /\
       trained_model r' = trained_model r /\
       kfold_target r' = kfold_target r /\
       high_energy_index_list r' = high_energy_index_list r /\
       kfold_report r' = kfold_report r).
Proof.
  intros Hs.
  assert (Ho : forall n u t,
    high_energy_override config n test_dataset' u yids_for_kfold t =
    high_energy_override config n test_dataset u yids_for_kfold t).
  { intros n u t. unfold high_energy_override. by rewrite Hs. }
  unfold train_and_eval. rewrite Hs.
  destruct (derive_force_id_unit _ _) as [u|e]; [|by split]. rewrite !bind_Ok_l.
  destruct (atoms_in_first_structure _) as [na|e]; [|by split]. rewrite !bind_Ok_l.
  rewrite Ho.
  destruct (high_energy_override config _ _ _ _ _) as [[hil target_v]|e]; [|by split].
  rewrite !bind_Ok_l.
  destruct (make_param_grid config) as [g|e]; [|by split]. rewrite !bind_Ok_l.
  destruct (select_retained_model _ _ _ _) as [m0|e]; [|by split]. rewrite !bind_Ok_l.
  cbn [structures target].
  destruct (make_feature m0 _ _) as [m1|e]; [|by split]. rewrite !bind_Ok_l.
  destruct (apply_weight m1 _ _ _ _ _) as [m2|e]; [|by split]. rewrite !bind_Ok_l.
  destruct (train m2 _ _) as [m3|e]; [|by split]. rewrite !bind_Ok_l.
  destruct (predict m3 None) as [yk|e]; [|by split]. rewrite !bind_Ok_l.
  destruct (predict m3 (Some _)) as [yt|e]; [|by split]. rewrite !bind_Ok_l.
  split; [done|]. intros r Hr. injection Hr as <-. by eexists.
Qed.

(** X14. What a run of [train_and_eval] returns: the selected model, trained
    on every row of the weighted k-fold target after its features and weights
    were built again. On the fast path the selected model is the one arranged
    for the single grid point. Otherwise every grid point was evaluated on the
    weighted target with the run's index sets, and the selected model is the
    snapshot, without feature matrix, of the earliest candidate of lowest mean
    score. *)
Theorem train_and_eval_retrains_selected_model `{Collaborators}
    config kfold_dataset test_dataset yids_for_kfold r :
  train_and_eval config kfold_dataset test_dataset yids_for_kfold = Ok r ->
  let n := length (structures kfold_dataset) in
  let weighted := {| structures := structures kfold_dataset; target := kfold_target r |} in
  exists g selected m1 m2,
    make_param_grid config = Ok g /\
    (if dont_cross_validate g then
       exists hp,
         ParameterGrid g = [hp] /\ selected = arrange_model_from_hyper_params hp config
     else
       x selected = None /\
       exists u na evals i cand s,
         Forall2 (fun hp ms =>
                    evaluate_candidate config weighted (high_energy_index_list r) n u na hp
                      = Ok ms)
           (ParameterGrid g) evals /\
         earliest_best evals i cand s /\
         selected = set_x cand None) /\
    make_feature selected (structures kfold_dataset) true = Ok m1 /\
    apply_weight m1 (energy_weight config) (force_weight config)
      (high_energy_weights config) (high_energy_index_list r) n = Ok m2 /\
    train m2 (seqZ 0 (Z.of_nat (length (kfold_target r)))) (kfold_target r)
      = Ok (trained_model r).
Proof.
  intros Hr n weighted.
  destruct (train_and_eval_inv _ _ _ _ _ Hr)
    as (u & na & hil & target_v & g & m0 & m1 & m2 & m3 & yk & yt
        & _ & _ & _ & Hg & Hm0 & Hm1 & Hm2 & Hm3 & _ & _ & ->).
  subst weighted. simpl.
  exists g, m0, m1, m2. split; [done|]. split; [|done].
  destruct (select_retained_model_cases config g
              {| structures := structures kfold_dataset; target := target_v |} hil)
    as (_ & Hfast & Hsearch).
  destruct (dont_cross_validate g).
  - destruct (Hfast eq_refl) as (hp & Hp & Hsel). exists hp. split; [done|]. congruence.
  - rewrite (Hsearch eq_refl) in Hm0.
    assert (Hshape : exists u' na',
              derive_force_id_unit (length target_v) n = Ok u' /\
              atoms_in_first_structure (structures kfold_dataset) = Ok na').
    { unfold cross_validate in Hm0. cbn [structures target] in Hm0.
      apply bind_Ok in Hm0 as (u' & Hu' & Hm0).
      apply bind_Ok in Hm0 as (na' & Hna' & _). by exists u', na'. }
    destruct Hshape as (u' & na' & Hu' & Hna').
    destruct (cross_validate_Ok config g
                {| structures := structures kfold_dataset; target := target_v |}
                hil u' na' m0 Hu' Hna' Hm0)
      as (evals & i & cand & s & HF & Hbest & ->).
    split; [reflexivity|]. by exists u', na', evals, i, cand, s.
Qed.
(** * Concrete runs *)

Section Runs.
Import Toy.

(** Four candidates scoring 5, 6, 4, 4: the snapshot of the third is returned. *)
Lemma retained_only_on_strict_improvement_witness :
  exists m2,
    evaluate_candidate config0 pool2 None 2 0 2 (hp_of_alpha 4) = Ok (m2, 4%float) /\
    cross_validate config0 (grid_of_alpha [5; 6; 4; 3]%float) pool2 None
      = Ok (set_x m2 None).
Proof.
  eexists. split; [vm_compute; reflexivity|].
  eapply (proj1 (proj2 (@retained_only_on_strict_improvement toy)))
    with (u := 0) (na := 2%nat)
         (hp0 := hp_of_alpha 5) (hp1 := hp_of_alpha 6)
         (hp2 := hp_of_alpha 4) (hp3 := hp_of_alpha 3);
    vm_compute; reflexivity.
Defined.


(** Radius bounds 6 and 10: three candidates. *)
Lemma make_param_grid_dimensions_witness :
  exists g,
    make_param_grid (make_config 6 10 5 7 [5]%float 2 1 1 [1]%float) = Ok g /\
    length (grid_cutoff_radius g) = 3%nat /\
    grid_gaussian_params2_num g !! 1%nat = Some 10.
Proof.
  pose proof (make_param_grid_dimensions
                (make_config 6 10 5 7 [5]%float 2 1 1 [1]%float) 3 eq_refl)
    as (_ & Hbuilt & Hdims).
  destruct Hbuilt as [g Hg];
    [simpl; lia|vm_compute; discriminate|unfold int64; simpl; lia..|].
  destruct (Hdims g Hg) as (_ & Hlen & _ & _ & _ & Hcount).
  destruct Hcount as (Hlookup & _); [unfold int64; simpl; lia..|].
  exists g. split; [exact Hg|]. split; [exact Hlen|].
  rewrite (Hlookup 1%nat). reflexivity.
Defined.

(** C3 as stated fails: with count bounds 5 and 7 the grid holds 10, above the
    maximum; with radius bounds 10 and 4 no grid is returned. *)
Lemma param_grid_count_exceeds_max :
  (exists g,
     make_param_grid (make_config 6 6 5 7 [5]%float 2 1 1 [1]%float) = Ok g /\
     grid_gaussian_params2_num g = [5; 10] /\
     ~ Forall (fun v => v <= 7) (grid_gaussian_params2_num g)) /\
  make_param_grid (make_config 10 4 5 5 [5]%float 2 1 1 [1]%float) = Raise ValueError.
Proof.
  split; [|vm_compute; reflexivity].
  eexists. split; [vm_compute; reflexivity|]. split; [reflexivity|].
  simpl. intros Hall. apply Forall_cons in Hall as [_ Hall].
  apply Forall_cons in Hall as [H10 _]. lia.
Qed.


(** One group with weight 1.0 is skipped; two groups with weight 1.0 are
    not; one group with weight 2.0 that names row 0 turns [3; 4] into
    [6; 4]. *)
Lemma override_skipped_iff_single_unit_weight_witness :
  high_energy_override config0 2 pool2 0 (toy_yids [] 0 0 false) [0; 0]%float
    = Ok (None, [0; 0]%float) /\
  high_energy_override (make_config 6 6 5 5 [5]%float 2 1 1 [1; 1]%float) 2 pool2 0
    (toy_yids [] 0 0 false) [3; 4]%float
    = Ok (Some [[0]; [0]], [3; 4]%float) /\
  (exists hil target',
     high_energy_override (make_config 6 6 5 5 [5]%float 2 1 1 [2]%float) 2 pool2 0
       (toy_yids [] 0 0 false) [3; 4]%float = Ok (hil, target') /\
     hil = Some [[0]] /\
     target' !! 0%nat = Some 6%float /\
     target' !! 1%nat = Some 4%float).
Proof.
  split; [|split].
  - apply (proj1 (proj2 (proj1 (@override_skipped_iff_single_unit_weight toy config0)
                           2%nat pool2 0 (toy_yids [] 0 0 false) [0; 0]%float))).
    exists 1%float. split; reflexivity.
  - rewrite (proj1 (proj2 (proj2 (proj1 (@override_skipped_iff_single_unit_weight toy
                                    (make_config 6 6 5 5 [5]%float 2 1 1 [1; 1]%float))
                             2%nat pool2 0 (toy_yids [] 0 0 false) [3; 4]%float))
                      ltac:(intros (w & Hw & _); discriminate))).
    vm_compute. reflexivity.
  - assert (Hrun : exists hil target',
              high_energy_override (make_config 6 6 5 5 [5]%float 2 1 1 [2]%float) 2 pool2 0
                (toy_yids [] 0 0 false) [3; 4]%float = Ok (hil, target'))
      by (eexists _, _; vm_compute; reflexivity).
    destruct Hrun as (hil & target' & Hrun). exists hil, target'. split; [exact Hrun|].
    destruct (proj2 (proj2 (proj2 (proj2 (proj1 (@override_skipped_iff_single_unit_weight toy
                       (make_config 6 6 5 5 [5]%float 2 1 1 [2]%float))
                     2%nat pool2 0 (toy_yids [] 0 0 false) [3; 4]%float))
                 ltac:(intros (w & Hw & H1); injection Hw as <-; discriminate)))
              hil target' Hrun) as (Hhil & _ & Hrows).
    split; [exact Hhil|]. split.
    + rewrite (Hrows 0%nat 3%float eq_refl). vm_compute. reflexivity.
    + rewrite (Hrows 1%nat 4%float eq_refl). vm_compute. reflexivity.
Defined.

(** Unit weights, and an energy weight of 2.0 on a pool of two structures. *)
Lemma dataset_weighting_blockwise_witness :
  apply_dataset_weights config0 2 [3; 4; 5]%float = [3; 4; 5]%float /\
  apply_dataset_weights (make_config 6 6 5 5 [5]%float 2 2 1 [1]%float) 2
    [3; 4; 5]%float !! 1%nat = Some 8%float.
Proof.
  split.
  - apply (proj1 (proj1 (@dataset_weighting_blockwise toy config0) 2%nat
                    [3; 4; 5]%float)); reflexivity.
  - apply (proj2 (proj2 (proj1 (@dataset_weighting_blockwise toy
                                  (make_config 6 6 5 5 [5]%float 2 2 1 [1]%float))
                           2%nat [3; 4; 5]%float)) 1%nat 4%float).
    reflexivity.
Defined.

(** One fold, two candidates. *)
Lemma fewer_than_two_folds_rejected_witness :
  exists e,
    cross_validate (make_config 6 6 5 5 [5; 3]%float 1 1 1 [1]%float)
      (grid_of_alpha [5; 3]%float) pool2 None = Raise e.
Proof.
  apply (proj1 (@fewer_than_two_folds_rejected toy
                  (make_config 6 6 5 5 [5; 3]%float 1 1 1 [1]%float)
                  (grid_of_alpha [5; 3]%float) pool2 None ltac:(simpl; lia))).
Defined.

(** Five rows for two structures. *)
Lemma force_id_unit_is_floor_quotient_witness :
  exists u, derive_force_id_unit 5 2 = Ok u /\ u = 1.
Proof.
  destruct (proj2 (force_id_unit_is_floor_quotient 5 2) ltac:(lia))
    as (u & Hu & -> & _).
  exists (Z.of_nat 5 `div` Z.of_nat 2 - 1). split; [exact Hu|reflexivity].
Defined.

(** C8 as stated fails: five target rows for two structures are accepted, the
    force unit is 1, and both the search and the full run return. *)
Lemma ragged_target_is_not_rejected :
  (length (target pool_ragged) mod length (structures pool_ragged) <> 0)%nat /\
  derive_force_id_unit (length (target pool_ragged)) (length (structures pool_ragged))
    = Ok 1 /\
  (exists m, cross_validate config0 (grid_of_alpha [5; 3]%float) pool_ragged None = Ok m) /\
  (exists r, train_and_eval (make_config 6 6 5 5 [5; 3]%float 2 1 1 [1]%float)
               pool_ragged pool2 (toy_yids [] 0 0 false) = Ok r).
Proof.
  split; [simpl; lia|]. split; [reflexivity|].
  split; eexists; vm_compute; reflexivity.
Qed.

(** The snapshot of the example candidate: built with fuel 2, its [x] is
    [None], it shares no location with the store it was copied from, and the
    candidate still has its feature matrix. *)
Lemma retained_snapshot_is_independent_copy_witness :
  exists env' h' m,
    Snapshot.retain 2 Snapshot.example_locals Snapshot.example_heap = Some (env', h') /\
    Snapshot.retained_model env' = Some m /\
    Snapshot.getattr h' m "x" = Some Snapshot.VNone /\
    (forall l, Snapshot.reach h' (Snapshot.VRef m) l -> l ∉ dom Snapshot.example_heap) /\
    Snapshot.getattr h' 1 "x" = Some (Snapshot.VRef 3).
Proof.
  destruct (SnapshotFacts.retained_snapshot_is_independent_copy
              2 Snapshot.example_locals Snapshot.example_heap
              (SnapshotFacts.closedb_closed Snapshot.example_heap
                 ltac:(vm_compute; reflexivity))
              ltac:(vm_compute; eexists; reflexivity)
              ltac:(vm_compute; eexists; reflexivity)
              ltac:(vm_compute; reflexivity)) as [Htotal Hspec].
  destruct (Htotal ltac:(vm_compute; eexists; reflexivity)
                   ltac:(vm_compute; reflexivity)
                   ltac:(vm_compute; reflexivity)) as [[env' h'] Hr].
  destruct (Hspec env' h' Hr) as (m & p & Hm & _ & _ & Hframe & Hfresh & _ & _ & Hx & _).
  exists env', h', m. split; [exact Hr|]. split; [exact Hm|]. split; [exact Hx|].
  split; [exact Hfresh|].
  unfold Snapshot.getattr. rewrite (Hframe 1%positive _ eq_refl). reflexivity.
Defined.

(** A grid whose only candidate scores 1e11. *)
Lemma cross_validate_needs_candidate_below_sentinel_witness :
  cross_validate config0 (grid_of_alpha [1e11]%float) pool2 None = Raise UnboundLocalError.
Proof.
  apply (proj1 (proj2 (@cross_validate_needs_candidate_below_sentinel toy
                         config0 (grid_of_alpha [1e11]%float) pool2 None 0 2%nat
                         eq_refl eq_refl))).
  - discriminate.
  - intros hp Hhp. apply list_elem_of_singleton in Hhp. subst hp.
    eexists _, _. split; vm_compute; reflexivity.
Defined.

(** C10 as stated fails: in the empty grid no candidate beats the sentinel,
    but the failure is the [ValueError] of the grid object; and a candidate
    whose fold scores are infinite does not beat the sentinel either, but the
    failure is the [AttributeError] of [statistics.stdev]. *)
Lemma empty_grid_raises_value_error :
  (ParameterGrid (grid_of_alpha []) = [] /\
   cross_validate config0 (grid_of_alpha []) pool2 None = Raise ValueError) /\
  ((exists cand sc,
      candidate_scores config0 pool2 None 2 0 2 (hp_of_alpha infinity) = Ok (cand, sc) /\
      test_model_rmses sc = [infinity; infinity] /\
      (average (test_model_rmses sc) <? 1e10)%float = false) /\
   cross_validate config0 (grid_of_alpha [infinity]) pool2 None = Raise AttributeError).
Proof.
  split; [split; [reflexivity|vm_compute; reflexivity]|].
  split; [|vm_compute; reflexivity].
  eexists _, _. split; [vm_compute; reflexivity|]. split; vm_compute; reflexivity.
Qed.

End Runs.

(** * Concrete runs of the further properties *)

Section MoreRuns.
Import Toy.

Local Abbreviation yids0 := (toy_yids [] 0 0 false).

(** An energy weight of 2.0, and one high-energy group of weight 2.0. *)
Local Abbreviation config_ew2 := (make_config 6 6 5 5 [5]%float 2 2 1 [1]%float).
Local Abbreviation config_hew2 := (make_config 6 6 5 5 [5]%float 2 1 1 [2]%float).

(** Four candidates scoring 5, 6, 4 and 4. *)
Lemma cross_validate_success_inversion_witness :
  exists m,
    cross_validate config0 (grid_of_alpha [5; 6; 4; 3]%float) pool2 None = Ok m /\
    x m = None.
Proof.
  assert (Hrun : exists m,
            cross_validate config0 (grid_of_alpha [5; 6; 4; 3]%float) pool2 None = Ok m)
    by (eexists; vm_compute; reflexivity).
  destruct Hrun as [m Hm]. exists m. split; [exact Hm|].
  exact (proj1 (@cross_validate_success_inversion toy _ _ _ _ m Hm)).
Defined.

(** The second of three candidates cannot be built. *)
Lemma cross_validate_propagates_candidate_error_witness :
  @cross_validate picky config0 (grid_of_alpha [5; 8; 4]%float) pool2 None
    = Raise (ModelError 3).
Proof.
  assert (He : exists m, @evaluate_candidate picky config0 pool2 None 2 0 2 (hp_of_alpha 5)
                           = Ok (m, 5%float))
    by (eexists; vm_compute; reflexivity).
  destruct He as [m He].
  apply (@cross_validate_propagates_candidate_error picky
           config0 (grid_of_alpha [5; 8; 4]%float) pool2 None 0 2%nat
           [hp_of_alpha 5] (hp_of_alpha 8) [hp_of_alpha 4] [(m, 5%float)]).
  - reflexivity.
  - reflexivity.
  - reflexivity.
  - constructor; [exact He|constructor].
  - right. exists m, 5%float, []. split; reflexivity.
  - vm_compute. reflexivity.
Defined.

(** Three folds for two structures. *)
Lemma more_folds_than_structures_rejected_witness :
  exists e,
    cross_validate (make_config 6 6 5 5 [5; 3]%float 3 1 1 [1]%float)
      (grid_of_alpha [5; 3]%float) pool2 None = Raise e.
Proof.
  apply (proj1 (@more_folds_than_structures_rejected toy
                  (make_config 6 6 5 5 [5; 3]%float 3 1 1 [1]%float)
                  (grid_of_alpha [5; 3]%float) pool2 None ltac:(simpl; lia))).
Defined.

(** Two folds: two scores behind the mean. *)
Lemma candidate_scored_on_every_fold_witness :
  exists m sc,
    candidate_scores config0 pool2 None 2 0 2 (hp_of_alpha 4) = Ok (m, sc) /\
    evaluate_candidate config0 pool2 None 2 0 2 (hp_of_alpha 4)
      = Ok (m, average (test_model_rmses sc)) /\
    length (test_model_rmses sc) = 2%nat.
Proof.
  assert (He : exists m s,
            evaluate_candidate config0 pool2 None 2 0 2 (hp_of_alpha 4) = Ok (m, s))
    by (eexists _, _; vm_compute; reflexivity).
  destruct He as (m & s & He).
  destruct (@candidate_scored_on_every_fold toy _ _ _ _ _ _ _ _ _ He)
    as [_ (sc & m1 & m2 & folds & models & Hc & Hs & _ & _ & _ & Hlen & _ & _ & N1 & _)].
  exists m, sc. split; [exact Hc|]. split; [by rewrite <- Hs|].
  by rewrite N1, Hlen.
Defined.

(** Radius bounds 6 and 6, count bounds 5 and 5, one regularization value. *)
Lemma fast_path_in_config_terms_witness :
  dont_cross_validate (grid_of_alpha [5]%float) = true.
Proof.
  apply (proj2 (fast_path_in_config_terms config0 (grid_of_alpha [5]%float)
                  ltac:(vm_compute; reflexivity))).
  split; [vm_compute; reflexivity|]. split; [simpl; lia|reflexivity].
Defined.

(** Two regularization values, three radii, the counts 5 and 10: twelve
    candidates. *)
Lemma grid_candidate_count_witness :
  exists g,
    make_param_grid (make_config 6 10 5 7 [5; 3]%float 2 1 1 [1]%float) = Ok g /\
    length (ParameterGrid g) = 12%nat.
Proof.
  assert (Hg : exists g,
            make_param_grid (make_config 6 10 5 7 [5; 3]%float 2 1 1 [1]%float) = Ok g)
    by (eexists; vm_compute; reflexivity).
  destruct Hg as [g Hg]. exists g. split; [exact Hg|].
  assert (Hne : ParameterGrid g <> []).
  { vm_compute in Hg. injection Hg as <-. discriminate. }
  destruct (grid_candidate_count _ _ Hg Hne) as (num & Hnum & _ & Hlen).
  rewrite Hlen. vm_compute in Hnum. injection Hnum as <-. reflexivity.
Defined.

(** A fold count of 0 on a one-point grid. *)
Lemma fast_path_ignores_n_splits_witness :
  train_and_eval (with_n_splits 0 config0) pool2 pool2 yids0
    = train_and_eval config0 pool2 pool2 yids0.
Proof.
  apply (@fast_path_ignores_n_splits toy config0 0 pool2 pool2 yids0
           (grid_of_alpha [5]%float)).
  - vm_compute. reflexivity.
  - reflexivity.
  - intros i n_structure u. reflexivity.
Defined.

(** The pool without structures. *)
Lemma empty_pool_divides_by_zero_witness :
  cross_validate config0 (grid_of_alpha [5]%float) pool0 None = Raise ZeroDivisionError /\
  train_and_eval config0 pool0 pool2 yids0 = Raise ZeroDivisionError.
Proof.
  apply (@empty_pool_divides_by_zero toy config0 (grid_of_alpha [5]%float) pool0 pool2
           None yids0).
  reflexivity.
Defined.

(** One high-energy group of weight 2.0 selecting row 0 of [3; 4]. *)
Lemma high_energy_override_scales_selected_rows_witness :
  exists target',
    high_energy_override config_hew2 2 pool2 0 yids0 [3; 4]%float
      = Ok (Some [[0]], target') /\
    target' !! 0%nat = Some 6%float /\
    target' !! 1%nat = Some 4%float.
Proof.
  assert (Hrun : exists target',
            high_energy_override config_hew2 2 pool2 0 yids0 [3; 4]%float
              = Ok (Some [[0]], target'))
    by (eexists; vm_compute; reflexivity).
  destruct Hrun as [target' Hrun]. exists target'. split; [exact Hrun|].
  destruct (@high_energy_override_scales_selected_rows toy _ _ _ _ _ _ _ _ Hrun)
    as (_ & _ & Hframe & Hone).
  split.
  - rewrite (Hone 0%nat 0%nat [0] 2%float eq_refl eq_refl); [reflexivity| |].
    + exists 0. split; [by left|reflexivity].
    + intros [|k'] ids' j Hne Hk' Hj; [done|discriminate].
  - rewrite (Hframe 1%nat); [reflexivity|].
    intros ids j Hids Hj.
    apply list_elem_of_singleton in Hids. subst ids.
    apply list_elem_of_singleton in Hj. subst j. discriminate.
Defined.

(** Row 0 exists in a target of two rows, not in an empty one. *)
Lemma high_energy_override_raises_only_index_error_witness :
  (exists r, high_energy_override config_hew2 2 pool2 0 yids0 [3; 4]%float = Ok r) /\
  high_energy_override config_hew2 2 pool2 0 yids0 [] = Raise IndexError.
Proof.
  split.
  - apply (proj2 (@high_energy_override_raises_only_index_error toy
                    config_hew2 2%nat pool2 0 yids0 [3; 4]%float)).
    intros ids j Hids Hj.
    apply list_elem_of_singleton in Hids. subst ids.
    apply list_elem_of_singleton in Hj. subst j. simpl. lia.
  - assert (Hrun : exists e,
              high_energy_override config_hew2 2 pool2 0 yids0 [] = Raise e)
      by (eexists; vm_compute; reflexivity).
    destruct Hrun as [e He]. rewrite He. f_equal.
    apply (proj1 (@high_energy_override_raises_only_index_error toy
                    config_hew2 2%nat pool2 0 yids0 []) e He).
Defined.

(** A run with an energy weight of 2.0. *)
Lemma train_and_eval_keeps_target_length_witness :
  exists r,
    train_and_eval config_ew2 pool34 pool2 yids0 = Ok r /\
    length (kfold_target r) = 2%nat.
Proof.
  assert (Hrun : exists r, train_and_eval config_ew2 pool34 pool2 yids0 = Ok r)
    by (eexists; vm_compute; reflexivity).
  destruct Hrun as [r Hr]. exists r. split; [exact Hr|].
  exact (@train_and_eval_keeps_target_length toy _ _ _ _ r Hr).
Defined.

(** The same run: the k-fold energy 3 is reported as 3 * 2 / 2, the test
    energies 7 and 8 as 7 / 2 and 8 / 2. *)
Lemma kfold_report_expects_weighted_energies_witness :
  exists r,
    train_and_eval config_ew2 pool34 pool78 yids0 = Ok r /\
    energy_expected (kfold_report r) !! 0%nat = Some 3%float /\
    energy_expected (test_report r) = [3.5; 4]%float.
Proof.
  assert (Hrun : exists r, train_and_eval config_ew2 pool34 pool78 yids0 = Ok r)
    by (eexists; vm_compute; reflexivity).
  destruct Hrun as [r Hr]. exists r. split; [exact Hr|].
  destruct (@kfold_report_expects_weighted_energies toy _ _ _ _ r 2%nat Hr eq_refl)
    as [Hk Ht].
  { exists 1%float. split; reflexivity. }
  split.
  - rewrite (Hk 0%nat 3%float ltac:(simpl; lia) eq_refl). vm_compute. reflexivity.
  - rewrite Ht. vm_compute. reflexivity.
Defined.

(** Two test pools with the same structures and other energies. *)
Lemma test_target_never_reaches_training_witness :
  exists r r',
    train_and_eval config0 pool34 pool2 yids0 = Ok r /\
    train_and_eval config0 pool34 pool78 yids0 = Ok r' /\
    trained_model r' = trained_model r /\
    kfold_report r' = kfold_report r.
Proof.
  assert (Hrun : exists r, train_and_eval config0 pool34 pool2 yids0 = Ok r)
    by (eexists; vm_compute; reflexivity).
  destruct Hrun as [r Hr].
  destruct (proj2 (@test_target_never_reaches_training toy config0 pool34 pool2 pool78
                     yids0 eq_refl) r Hr) as (r' & Hr' & Hm & _ & _ & Hk).
  by exists r, r'.
Defined.

(** A search over two candidates, then the final training. *)
Lemma train_and_eval_retrains_selected_model_witness :
  exists r selected,
    train_and_eval (make_config 6 6 5 5 [5; 3]%float 2 1 1 [1]%float) pool34 pool2 yids0
      = Ok r /\
    x selected = None /\
    (exists m1, make_feature selected (structures pool34) true = Ok m1).
Proof.
  assert (Hrun : exists r,
            train_and_eval (make_config 6 6 5 5 [5; 3]%float 2 1 1 [1]%float)
              pool34 pool2 yids0 = Ok r)
    by (eexists; vm_compute; reflexivity).
  destruct Hrun as [r Hr].
  destruct (@train_and_eval_retrains_selected_model toy _ _ _ _ r Hr)
    as (g & selected & m1 & m2 & Hg & Hsel & Hm1 & _).
  vm_compute in Hg. injection Hg as <-.
  destruct Hsel as [Hx _].
  exists r, selected. split; [exact Hr|]. split; [exact Hx|]. by exists m1.
Defined.

End MoreRuns.
